(** * PawPals authentication controller: a shallow embedding of
    [src/authentication.js] and the properties of its validators,
    field-error display and form-submission handlers.

    The page is a finite map from element ids to elements, next to the
    browser storage, the location and the timers started so far.  A
    statement of the controller is a function from pages to a page and a
    completion (normal, or a thrown exception).  An async handler is run up
    to its [await] and hands back the rest of its body, which is run when the
    awaited promise settles; the draw of [Math.random()] is an input.  The
    regular expressions are run by a matcher for the constructs the three
    literals use, proved against a declarative reading of the patterns. *)

From Stdlib Require Import NArith QArith String Ascii Lia.
From stdpp Require Import gmap list strings.

#[local] Set Warnings "-clear-no-such-hyp".

Local Open Scope N_scope.
Local Open Scope nat_scope.
Local Open Scope list_scope.

(** ** JavaScript strings

    A JavaScript string is a sequence of UTF-16 code units; [length],
    [===], [trim] and a regular expression without the [u] flag all work on
    code units.  A code unit is an [N]. *)

Abbreviation jsstring := (list N).

(** The code unit of an ASCII character of a literal. *)
Definition ch (a : ascii) : N := N_of_ascii a.

(** A string literal of the source (all of them are ASCII). *)
Fixpoint js (s : string) : jsstring :=
  match s with
  | EmptyString => []
  | String a s' => ch a :: js s'
  end.

Arguments ch : simpl never.
Arguments js : simpl never.

(** ECMAScript LineTerminator: LF, CR, LS, PS. *)
Definition isLineTerminator (c : N) : bool :=
  ((c =? 10) || (c =? 13) || (c =? 8232) || (c =? 8233))%N.

(** ECMAScript WhiteSpace or LineTerminator: what [\s] matches and what
    [String.prototype.trim] strips. *)
Definition isWhiteSpace (c : N) : bool :=
  ((c =? 9) || (c =? 11) || (c =? 12) || (c =? 32) || (c =? 160)
   || (c =? 5760) || ((8192 <=? c) && (c <=? 8202)) || (c =? 8239)
   || (c =? 8287) || (c =? 12288) || (c =? 65279))%N
  || isLineTerminator c.

Fixpoint trimStart (s : jsstring) : jsstring :=
  match s with
  | c :: s' => if isWhiteSpace c then trimStart s' else s
  | [] => []
  end.

(** [String.prototype.trim]. *)
Definition trim (s : jsstring) : jsstring :=
  rev (trimStart (rev (trimStart s))).

(** Truthiness of a string: only the empty string is falsy. *)
Definition truthy (s : jsstring) : bool :=
  match s with [] => false | _ => true end.

(** ** Regular expressions

    The syntax covers what the three literals of the source use: the
    assertions [^] and [$] (no [m] flag), [.] (no [s] flag), a literal
    character, a character class (possibly negated) of ranges, single
    characters and [\s], concatenation, greedy quantifiers and positive
    lookahead. *)

Inductive class_item :=
| CRange (lo hi : N)
| CSingle (c : N)
| CSpace.

Inductive regex :=
| RBol
| REol
| RDot
| RChar (c : N)
| RClass (negated : bool) (items : list class_item)
| RSeq (r1 r2 : regex)
| RRepeat (r : regex) (lo : nat) (hi : option nat)
| RLookahead (r : regex).

Definition itemMatches (c : N) (it : class_item) : bool :=
  match it with
  | CRange lo hi => ((lo <=? c) && (c <=? hi))%N
  | CSingle d => (c =? d)%N
  | CSpace => isWhiteSpace c
  end.

Definition classMatches (negated : bool) (items : list class_item) (c : N) : bool :=
  xorb negated (existsb (itemMatches c) items).

(** What one character-consuming atom accepts at a code unit. *)
Definition atomAccepts (r : regex) (c : N) : bool :=
  match r with
  | RDot => negb (isLineTerminator c)
  | RChar d => (c =? d)%N
  | RClass negated items => classMatches negated items c
  | _ => false
  end.

(** The quantifier [r{lo,hi}] from position [i]: every position reachable by
    a permitted number of iterations of [step].  As in the ECMAScript
    RepeatMatcher, once the minimum is reached an iteration that consumes
    nothing is rejected, so [fuel = lo + remaining input] is enough. *)
Fixpoint rep (step : nat -> list nat) (fuel lo : nat) (hi : option nat) (i : nat)
  : list nat :=
  match lo with 0 => [i] | S _ => [] end ++
  match fuel with
  | 0 => []
  | S fuel' =>
      match hi with
      | Some 0 => []
      | _ =>
          flat_map
            (fun j =>
               if Nat.eqb lo 0 && Nat.eqb j i then []
               else rep step fuel' (pred lo) (pred <$> hi) j)
            (step i)
      end
  end.

(** [ends s r i]: the positions at which a match of [r] that starts at
    position [i] of [s] can end. *)
Fixpoint ends (s : jsstring) (r : regex) (i : nat) : list nat :=
  match r with
  | RBol => if Nat.eqb i 0 then [i] else []
  | REol => if Nat.eqb i (length s) then [i] else []
  | RDot | RChar _ | RClass _ _ =>
      match s !! i with
      | Some c => if atomAccepts r c then [S i] else []
      | None => []
      end
  | RSeq r1 r2 => flat_map (ends s r2) (ends s r1 i)
  | RRepeat r' lo hi => rep (ends s r') (lo + (length s - i)) lo hi i
  | RLookahead r' => match ends s r' i with [] => [] | _ :: _ => [i] end
  end.

(** [RegExp.prototype.test] for a literal without the [g] and [y] flags: is
    there a match starting at some position. *)
Definition test (r : regex) (s : jsstring) : bool :=
  existsb (fun i => match ends s r i with [] => false | _ :: _ => true end)
          (seq 0 (S (length s))).

(** The character class [[a-zA-Z0-9_]]. *)
Definition wordClass : regex :=
  RClass false [CRange (ch "a") (ch "z"); CRange (ch "A") (ch "Z");
                CRange (ch "0") (ch "9"); CSingle (ch "_")].

(** The character class [[^\s@]]. *)
Definition notSpaceAt : regex := RClass true [CSpace; CSingle (ch "@")].

(** [/^[a-zA-Z0-9_]{3,20}$/] *)
Definition usernameRegex : regex :=
  RSeq RBol (RSeq (RRepeat wordClass 3 (Some 20)) REol).

(** [/^[^\s@]+@[^\s@]+\.[^\s@]+$/] *)
Definition emailRegex : regex :=
  RSeq RBol
    (RSeq (RRepeat notSpaceAt 1 None)
       (RSeq (RChar (ch "@"))
          (RSeq (RRepeat notSpaceAt 1 None)
             (RSeq (RChar (ch "."))
                (RSeq (RRepeat notSpaceAt 1 None) REol))))).

(** [/(?=.*[a-zA-Z])(?=.*[0-9])/] *)
Definition passwordRegex : regex :=
  RSeq
    (RLookahead (RSeq (RRepeat RDot 0 None)
                   (RClass false [CRange (ch "a") (ch "z"); CRange (ch "A") (ch "Z")])))
    (RLookahead (RSeq (RRepeat RDot 0 None)
                   (RClass false [CRange (ch "0") (ch "9")]))).


(** ** The page: elements, storage, location and timers *)

(** A node created by [document.createElement] and appended to a parent. *)
Record Notification := {
  nid : N;
  className : jsstring;
  notificationText : jsstring
}.

(** An element of the page, with the properties the controller reads or
    writes.  [classList] is the element's token set; [descendants] are the
    token sets of its descendants in document order (what [querySelector]
    with a class selector searches); [childNodes] are the nodes appended by
    [appendChild]. *)
Record Element := {
  textContent : jsstring;
  value : jsstring;
  checked : bool;
  disabled : bool;
  classList : gset jsstring;
  descendants : list (gset jsstring);
  childNodes : list Notification
}.

(** The functions handed to [setTimeout]. *)
Inductive Callback :=
| CbSimulatedAPI
| CbRegisterRedirect (username : jsstring)
| CbLoginRedirect
| CbRemoveNotification (n : N).

(** [timeouts] lists every [setTimeout] call so far, oldest first, with its
    delay in milliseconds; [nextNode] numbers the nodes created so far. *)
Record State := {
  document : gmap jsstring Element;
  localStorage : gmap jsstring jsstring;
  location_href : jsstring;
  timeouts : list (N * Callback);
  nextNode : N
}.

Definition setDocument (d : gmap jsstring Element) (st : State) : State :=
  {| document := d; localStorage := localStorage st;
     location_href := location_href st; timeouts := timeouts st;
     nextNode := nextNode st |}.

Definition setLocalStorage (ls : gmap jsstring jsstring) (st : State) : State :=
  {| document := document st; localStorage := ls;
     location_href := location_href st; timeouts := timeouts st;
     nextNode := nextNode st |}.

Definition setHref (h : jsstring) (st : State) : State :=
  {| document := document st; localStorage := localStorage st;
     location_href := h; timeouts := timeouts st; nextNode := nextNode st |}.

Definition pushTimeout (delay : N) (cb : Callback) (st : State) : State :=
  {| document := document st; localStorage := localStorage st;
     location_href := location_href st;
     timeouts := timeouts st ++ [(delay, cb)]; nextNode := nextNode st |}.

Definition bumpNode (st : State) : State :=
  {| document := document st; localStorage := localStorage st;
     location_href := location_href st; timeouts := timeouts st;
     nextNode := N.succ (nextNode st) |}.

(** Assigning [textContent] replaces every child of the element by the one
    text: the elements below it and the nodes appended to it are gone. *)
Definition withTextContent (t : jsstring) (el : Element) : Element :=
  {| textContent := t; value := value el; checked := checked el;
     disabled := disabled el; classList := classList el;
     descendants := []; childNodes := [] |}.

Definition withValue (v : jsstring) (el : Element) : Element :=
  {| textContent := textContent el; value := v; checked := checked el;
     disabled := disabled el; classList := classList el;
     descendants := descendants el; childNodes := childNodes el |}.

Definition withDisabled (b : bool) (el : Element) : Element :=
  {| textContent := textContent el; value := value el; checked := checked el;
     disabled := b; classList := classList el;
     descendants := descendants el; childNodes := childNodes el |}.

Definition withClassList (c : gset jsstring) (el : Element) : Element :=
  {| textContent := textContent el; value := value el; checked := checked el;
     disabled := disabled el; classList := c;
     descendants := descendants el; childNodes := childNodes el |}.

Definition withDescendants (d : list (gset jsstring)) (el : Element) : Element :=
  {| textContent := textContent el; value := value el; checked := checked el;
     disabled := disabled el; classList := classList el;
     descendants := d; childNodes := childNodes el |}.

Definition withChildNodes (c : list Notification) (el : Element) : Element :=
  {| textContent := textContent el; value := value el; checked := checked el;
     disabled := disabled el; classList := classList el;
     descendants := descendants el; childNodes := c |}.

(** [DOMTokenList.add] and [DOMTokenList.remove] on a token set. *)
Definition classList_add (tok : jsstring) (c : gset jsstring) : gset jsstring :=
  c ∪ {[tok]}.
Definition classList_remove (tok : jsstring) (c : gset jsstring) : gset jsstring :=
  c ∖ {[tok]}.

(** ** Statements with effects and exceptions *)

Inductive Exn :=
| TypeError
| Error (message : jsstring).

Inductive Completion (A : Type) :=
| Normal (a : A)
| Throw (e : Exn).
Arguments Normal {A} a.
Arguments Throw {A} e.

(** A statement: it changes the page and completes normally or throws; what it
    changed before it threw stays changed. *)
Definition M (A : Type) : Type := State -> State * Completion A.

Definition ret {A} (a : A) : M A := fun st => (st, Normal a).
Definition throw {A} (e : Exn) : M A := fun st => (st, Throw e).
Definition bind {A B} (m : M A) (k : A -> M B) : M B :=
  fun st =>
    match m st with
    | (st', Normal a) => k a st'
    | (st', Throw e) => (st', Throw e)
    end.
Definition modify (f : State -> State) : M unit := fun st => (f st, Normal tt).

Notation "'let*' x ':=' m 'in' k" := (bind m (fun x => k))
  (at level 10, x name, m at level 100, k at level 200, only parsing).

(** [try { body } catch (error) { handler } finally { final }]. *)
Definition tryCatchFinally {A} (body : M A) (handler : Exn -> M A) (final : M unit)
  : M A :=
  fun st =>
    let '(st1, c1) := body st in
    let '(st2, c2) := match c1 with
                      | Normal a => (st1, Normal a)
                      | Throw e => handler e st1
                      end in
    let '(st3, c3) := final st2 in
    (st3, match c3 with Normal _ => c2 | Throw e => Throw e end).

(** How the promise of [simulateAPICall] settles. *)
Inductive Settlement :=
| Fulfilled
| Rejected (e : Exn).

(** Where an async handler stands when it gives control back: it has
    returned, or it waits at its [await] with the rest of its body, which
    runs when the awaited promise settles. *)
Inductive Async :=
| Returned
| Awaiting (k : Settlement -> M unit).

(** [try { before; await ...; after } catch (error) { handler } finally
    { final }], where [before] ends by creating the awaited promise. *)
Definition tryAwait (before after : M unit) (handler : Exn -> M unit)
  (final : M unit) : M Async :=
  fun st =>
    match before st with
    | (st1, Normal _) =>
        (st1, Normal (Awaiting (fun o =>
           tryCatchFinally
             (match o with Fulfilled => after | Rejected e => throw e end)
             handler final)))
    | (st1, Throw e) =>
        match tryCatchFinally (throw e) handler final st1 with
        | (st2, Normal _) => (st2, Normal Returned)
        | (st2, Throw e') => (st2, Throw e')
        end
    end.

(** ** Element access *)

(** [document.getElementById(id).value]; a missing element is [null] and the
    property access throws. *)
Definition getValue (id : jsstring) : M jsstring :=
  fun st =>
    match document st !! id with
    | Some el => (st, Normal (value el))
    | None => (st, Throw TypeError)
    end.

Definition getChecked (id : jsstring) : M bool :=
  fun st =>
    match document st !! id with
    | Some el => (st, Normal (checked el))
    | None => (st, Throw TypeError)
    end.

(** An assignment to, or a method call on, [document.getElementById(id)]. *)
Definition updateElement (id : jsstring) (f : Element -> Element) : M unit :=
  fun st =>
    match document st !! id with
    | Some el => (setDocument (<[id := f el]> (document st)) st, Normal tt)
    | None => (st, Throw TypeError)
    end.

(** [el.querySelector('.' + cls)]: the first descendant with the class. *)
Definition querySelector (cls : jsstring) (el : Element) : option nat :=
  fst <$> list_find (fun c : gset jsstring => cls ∈ c) (descendants el).

(** A method call on the result of [querySelector], held in a variable:
    [null.classList] throws. *)
Definition updateDescendant (id : jsstring) (d : option nat)
  (f : gset jsstring -> gset jsstring) : M unit :=
  match d with
  | Some i => updateElement id (fun el => withDescendants (alter f i (descendants el)) el)
  | None => throw TypeError
  end.

(** ** The controller, [class AuthController]

    Methods are modelled as called on the class ([this] is
    [AuthController]), as the handlers and the self-check harness call
    them. *)

(** The first argument of a validator: a string, or the input event of the
    listener (only [e.target.value] is read).  [typeof x === 'object']
    holds of the event and not of the string. *)
Inductive Arg :=
| AString (s : jsstring)
| AEvent (target_value : jsstring).

(** [if (errorElementId) f(errorElementId)]: [null] and the empty string are
    falsy. *)
Definition ifId (errorElementId : option jsstring) (f : jsstring -> M unit) : M unit :=
  match errorElementId with
  | Some id => if truthy id then f id else ret tt
  | None => ret tt
  end.

Definition showFieldError (elementId message : jsstring) : M unit :=
  fun st =>
    match document st !! elementId with
    | Some errorElement =>
        (setDocument
           (<[elementId :=
                withClassList (classList_add (js "show") (classList errorElement))
                  (withTextContent message errorElement)]> (document st)) st,
         Normal tt)
    | None => (st, Normal tt)
    end.

Definition clearFieldError (elementId : jsstring) : M unit :=
  fun st =>
    match document st !! elementId with
    | Some errorElement =>
        (setDocument
           (<[elementId :=
                withClassList (classList_remove (js "show") (classList errorElement))
                  (withTextContent [] errorElement)]> (document st)) st,
         Normal tt)
    | None => (st, Normal tt)
    end.

Definition setLoadingState (buttonId : jsstring) (isLoading : bool) : M unit :=
  fun st =>
    match document st !! buttonId with
    | None => (st, Throw TypeError)
    | Some button =>
        let text := querySelector (js "btn-text") button in
        let spinner := querySelector (js "loading-spinner") button in
        (if isLoading then
           let* _ := updateElement buttonId (withDisabled true) in
           let* _ := updateDescendant buttonId text (classList_add (js "hidden")) in
           updateDescendant buttonId spinner (classList_remove (js "hidden"))
         else
           let* _ := updateElement buttonId (withDisabled false) in
           let* _ := updateDescendant buttonId text (classList_remove (js "hidden")) in
           updateDescendant buttonId spinner (classList_add (js "hidden"))) st
    end.

(** [showNotification(message, type)]: the node is created before the
    container is used, so a missing container throws after the creation. *)
Definition showNotification (message type : jsstring) : M unit :=
  fun st =>
    let notification :=
      {| nid := nextNode st;
         className := js "notification notification-" ++ type;
         notificationText := message |} in
    (let* _ := modify bumpNode in
     let* _ := updateElement (js "notificationContainer")
                 (fun container =>
                    withChildNodes (childNodes container ++ [notification]) container) in
     modify (pushTimeout 5000 (CbRemoveNotification (nid notification)))) st.

(** The double nearest to the literal [0.9]. *)
Definition point9 : Q := Qmake 8106479329266893 9007199254740992.

(** What the timer of [simulateAPICall] does with the value [random] that
    [Math.random()] returns. *)
Definition settle (random : Q) : Settlement :=
  if negb (Qle_bool random point9) then Rejected (Error (js "Simulated API failure"))
  else Fulfilled.

(** [simulateAPICall(delay)] up to the return of the pending promise. *)
Definition simulateAPICall (delay : N) : M unit :=
  modify (pushTimeout delay CbSimulatedAPI).

Definition goToLogin : M unit := modify (setHref (js "login.html")).
Definition goToRegister : M unit := modify (setHref (js "registration.html")).
Definition goToReset : M unit := modify (setHref (js "ResetPassword.html")).

(** The first textual definitions of the four validators (lines 217-314 of
    the class body); the class body defines each of them a second time
    further down, and the later definition is the one a call reaches. *)
Module Earlier.

Definition validateUsername (username : Arg) (errorElementId : option jsstring)
  : M bool :=
  let '(username, errorElementId) :=
    match username with
    | AEvent v => (trim v, Some (js "registerUsernameError"))
    | AString s => (s, errorElementId)
    end in
  if negb (truthy username) then
    let* _ := ifId errorElementId (fun id => showFieldError id (js "Username is required")) in
    ret false
  else if negb (test usernameRegex username) then
    let* _ := ifId errorElementId (fun id => showFieldError id
      (js "Username must be 3-20 characters, letters, numbers, and underscores only")) in
    ret false
  else
    let* _ := ifId errorElementId clearFieldError in
    ret true.

Definition validateEmail (email : Arg) (errorElementId : option jsstring)
  : M bool :=
  let '(email, errorElementId) :=
    match email with
    | AEvent v => (trim v, Some (js "registerEmailError"))
    | AString s => (s, errorElementId)
    end in
  if negb (truthy email) then
    let* _ := ifId errorElementId (fun id => showFieldError id (js "Email is required")) in
    ret false
  else if negb (test emailRegex email) then
    let* _ := ifId errorElementId (fun id => showFieldError id
      (js "Please enter a valid email address")) in
    ret false
  else
    let* _ := ifId errorElementId clearFieldError in
    ret true.

Definition validatePassword (password : Arg) (errorElementId : option jsstring)
  : M bool :=
  let '(password, errorElementId) :=
    match password with
    | AEvent v => (v, Some (js "registerPasswordError"))
    | AString s => (s, errorElementId)
    end in
  if negb (truthy password) then
    let* _ := ifId errorElementId (fun id => showFieldError id (js "Password is required")) in
    ret false
  else if length password <? 8 then
    let* _ := ifId errorElementId (fun id => showFieldError id
      (js "Password must be at least 8 characters long")) in
    ret false
  else if negb (test passwordRegex password) then
    let* _ := ifId errorElementId (fun id => showFieldError id
      (js "Password must contain both letters and numbers")) in
    ret false
  else
    let* _ := ifId errorElementId clearFieldError in
    ret true.

Definition validatePasswordConfirm (e : Arg) : M unit :=
  let* password := getValue (js "registerPassword") in
  match e with
  | AString _ => throw TypeError
  | AEvent confirmPassword =>
      if truthy confirmPassword && negb (bool_decide (password = confirmPassword)) then
        showFieldError (js "confirmPasswordError") (js "Passwords do not match")
      else
        clearFieldError (js "confirmPasswordError")
  end.

End Earlier.

(** The second textual definitions (lines 356-453): the ones in force. *)

Definition validateUsername (username : Arg) (errorElementId : option jsstring)
  : M bool :=
  let '(username, errorElementId) :=
    match username with
    | AEvent v => (trim v, Some (js "registerUsernameError"))
    | AString s => (s, errorElementId)
    end in
  if negb (truthy username) then
    let* _ := ifId errorElementId (fun id => showFieldError id (js "Username is required")) in
    ret false
  else if negb (test usernameRegex username) then
    let* _ := ifId errorElementId (fun id => showFieldError id
      (js "Username must be 3-20 characters, letters, numbers, and underscores only")) in
    ret false
  else
    let* _ := ifId errorElementId clearFieldError in
    ret true.

Definition validateEmail (email : Arg) (errorElementId : option jsstring)
  : M bool :=
  let '(email, errorElementId) :=
    match email with
    | AEvent v => (trim v, Some (js "registerEmailError"))
    | AString s => (s, errorElementId)
    end in
  if negb (truthy email) then
    let* _ := ifId errorElementId (fun id => showFieldError id (js "Email is required")) in
    ret false
  else if negb (test emailRegex email) then
    let* _ := ifId errorElementId (fun id => showFieldError id
      (js "Please enter a valid email address")) in
    ret false
  else
    let* _ := ifId errorElementId clearFieldError in
    ret true.

Definition validatePassword (password : Arg) (errorElementId : option jsstring)
  : M bool :=
  let '(password, errorElementId) :=
    match password with
    | AEvent v => (v, Some (js "registerPasswordError"))
    | AString s => (s, errorElementId)
    end in
  if negb (truthy password) then
    let* _ := ifId errorElementId (fun id => showFieldError id (js "Password is required")) in
    ret false
  else if length password <? 8 then
    let* _ := ifId errorElementId (fun id => showFieldError id
      (js "Password must be at least 8 characters long")) in
    ret false
  else if negb (test passwordRegex password) then
    let* _ := ifId errorElementId (fun id => showFieldError id
      (js "Password must contain both letters and numbers")) in
    ret false
  else
    let* _ := ifId errorElementId clearFieldError in
    ret true.

Definition validatePasswordConfirm (e : Arg) : M unit :=
  let* password := getValue (js "registerPassword") in
  match e with
  | AString _ => throw TypeError
  | AEvent confirmPassword =>
      if truthy confirmPassword && negb (bool_decide (password = confirmPassword)) then
        showFieldError (js "confirmPasswordError") (js "Passwords do not match")
      else
        clearFieldError (js "confirmPasswordError")
  end.


Definition validateLoginForm (username password : jsstring) : M bool :=
  let isValid := true in
  let* isValid :=
    if negb (truthy username) then
      let* _ := showFieldError (js "loginUsernameError") (js "Username is required") in
      ret false
    else
      let* _ := clearFieldError (js "loginUsernameError") in
      ret isValid in
  let* isValid :=
    if negb (truthy password) then
      let* _ := showFieldError (js "loginPasswordError") (js "Password is required") in
      ret false
    else
      let* _ := clearFieldError (js "loginPasswordError") in
      ret isValid in
  ret isValid.

Record FormData := {
  fd_username : jsstring;
  fd_email : jsstring;
  fd_password : jsstring;
  fd_confirmPassword : jsstring;
  fd_acceptTerms : bool
}.

Definition validateRegistrationForm (formData : FormData) : M bool :=
  let isValid := true in
  let* ok := validateUsername (AString (fd_username formData))
               (Some (js "registerUsernameError")) in
  let isValid := if negb ok then false else isValid in
  let* ok := validateEmail (AString (fd_email formData))
               (Some (js "registerEmailError")) in
  let isValid := if negb ok then false else isValid in
  let* ok := validatePassword (AString (fd_password formData))
               (Some (js "registerPasswordError")) in
  let isValid := if negb ok then false else isValid in
  let* isValid :=
    if negb (bool_decide (fd_password formData = fd_confirmPassword formData)) then
      let* _ := showFieldError (js "confirmPasswordError") (js "Passwords do not match") in
      ret false
    else
      let* _ := clearFieldError (js "confirmPasswordError") in
      ret isValid in
  let* isValid :=
    if negb (fd_acceptTerms formData) then
      let* _ := showFieldError (js "termsError")
                  (js "You must accept the terms to continue") in
      ret false
    else
      let* _ := clearFieldError (js "termsError") in
      ret isValid in
  ret isValid.

(** The form data [handleRegister] collects from the page. *)
Definition readRegistrationForm : M FormData :=
  let* username := getValue (js "registerUsername") in
  let* email := getValue (js "registerEmail") in
  let* password := getValue (js "registerPassword") in
  let* confirmPassword := getValue (js "confirmPassword") in
  let* acceptTerms := getChecked (js "acceptTerms") in
  ret {| fd_username := trim username; fd_email := trim email;
         fd_password := password; fd_confirmPassword := confirmPassword;
         fd_acceptTerms := acceptTerms |}.

(** [e.preventDefault()] only stops the browser's own form submission and
    touches nothing of the modelled page. *)
Definition handleRegister : M Async :=
  let* formData := readRegistrationForm in
  let* valid := validateRegistrationForm formData in
  if negb valid then ret Returned
  else
    tryAwait
      (let* _ := setLoadingState (js "registerBtn") true in
       simulateAPICall 2000)
      (let* _ := showNotification
                   (js "Account created successfully! Welcome to PawPals!")
                   (js "success") in
       modify (pushTimeout 1500 (CbRegisterRedirect (fd_username formData))))
      (fun error =>
         showNotification (js "Registration failed. Please try again.") (js "error"))
      (setLoadingState (js "registerBtn") false).

(** What [handleLogin] reads from the page. *)
Definition readLoginForm : M (jsstring * jsstring * bool) :=
  let* username := getValue (js "loginUsername") in
  let* password := getValue (js "loginPassword") in
  let* rememberMe := getChecked (js "rememberMe") in
  ret (trim username, password, rememberMe).

Definition handleLogin : M Async :=
  let* form := readLoginForm in
  let '(username, password, rememberMe) := form in
  let* valid := validateLoginForm username password in
  if negb valid then ret Returned
  else
    tryAwait
      (let* _ := setLoadingState (js "loginBtn") true in
       simulateAPICall 1500)
      (let* _ :=
         if rememberMe : bool then
           modify (fun st => setLocalStorage
                     (<[js "rememberedUsername" := username]> (localStorage st)) st)
         else
           modify (fun st => setLocalStorage
                     (delete (js "rememberedUsername") (localStorage st)) st) in
       let* _ := showNotification
                   (js "Login successful! Welcome back to PawPals!") (js "success") in
       modify (pushTimeout 1500 CbLoginRedirect))
      (fun error =>
         showNotification (js "Login failed. Please check your credentials.")
           (js "error"))
      (setLoadingState (js "loginBtn") false).

Definition handleForgotPassword : M Async :=
  let* email := getValue (js "forgotEmail") in
  let email := trim email in
  let* valid := validateEmail (AString email) (Some (js "forgotEmailError")) in
  if negb valid then ret Returned
  else
    tryAwait
      (let* _ := setLoadingState (js "forgotBtn") true in
       simulateAPICall 1500)
      (let* _ := updateElement (js "forgotPasswordForm")
                   (fun el => withClassList (classList_add (js "hidden") (classList el)) el) in
       let* _ := updateElement (js "resetSuccessMessage")
                   (fun el => withClassList (classList_remove (js "hidden") (classList el)) el) in
       let* _ := updateElement (js "backToLogin")
                   (fun el => withClassList (classList_remove (js "hidden") (classList el)) el) in
       showNotification (js "Password reset link sent to your email!") (js "success"))
      (fun error =>
         showNotification (js "Failed to send reset link. Please try again.")
           (js "error"))
      (setLoadingState (js "forgotBtn") false).

(** What a function handed to [setTimeout] does when its timer fires.  The
    timer of [simulateAPICall] settles the awaited promise; the handler's
    continuation ([Awaiting]) is what runs then. *)
Definition runCallback (cb : Callback) : M unit :=
  match cb with
  | CbSimulatedAPI => ret tt
  | CbRegisterRedirect username =>
      let* _ := goToLogin in
      updateElement (js "loginUsername") (withValue username)
  | CbLoginRedirect => modify (setHref (js "homepage.html"))
  | CbRemoveNotification n =>
      modify (fun st =>
        setDocument
          ((fun el => withChildNodes
                        (filter (fun x => nid x ≠ n) (childNodes el)) el)
             <$> document st) st)
  end.

(** The handler run to its end when the awaited promise settles right away
    with the draw [random]; nothing else runs in between. *)
Definition runHandler (h : M Async) (random : Q) : M unit :=
  let* a := h in
  match a with
  | Returned => ret tt
  | Awaiting k => k (settle random)
  end.

(** The state of a form in the submission flow, read off the page: a form is
    submitting while its submit control is disabled. *)
Inductive FormState := Idle | Submitting.

Definition formState (buttonId : jsstring) (st : State) : FormState :=
  match document st !! buttonId with
  | Some button => if disabled button then Submitting else Idle
  | None => Idle
  end.

(** The error of a field as the page shows it: [None] when nothing is
    shown, the message when the element carries the visible flag. *)
Definition shownError (elementId : jsstring) (st : State) : option jsstring :=
  match document st !! elementId with
  | Some el => if bool_decide (js "show" ∈ classList el) then Some (textContent el)
               else None
  | None => None
  end.

(** ** What it means for a string to match a pattern

    The declarative reading of a pattern, independent of the matcher
    [ends]: [Match s r i j] says that [r] matches the part of [s] from
    position [i] up to position [j].  A quantifier is read as ECMAScript
    reads it: an iteration beyond the minimum has to consume input. *)

Inductive Match (s : jsstring) : regex -> nat -> nat -> Prop :=
| MBol : Match s RBol 0 0
| MEol : Match s REol (length s) (length s)
| MAtom r i c :
    s !! i = Some c -> atomAccepts r c = true -> Match s r i (S i)
| MSeq r1 r2 i j k :
    Match s r1 i j -> Match s r2 j k -> Match s (RSeq r1 r2) i k
| MRepeat0 r hi i : Match s (RRepeat r 0 hi) i i
| MRepeatS r lo hi i j k :
    hi ≠ Some 0 -> (lo = 0 -> j ≠ i) ->
    Match s r i j -> Match s (RRepeat r (pred lo) (pred <$> hi)) j k ->
    Match s (RRepeat r lo hi) i k
| MLookahead r i j : Match s r i j -> Match s (RLookahead r) i i.

(** [s] has a match of [r] starting at one of its positions, which is what
    [test] asks. *)
Definition matches (r : regex) (s : jsstring) : Prop :=
  exists i j, i <= length s /\ Match s r i j.

Definition isWordChar (c : N) : bool :=
  ((ch "a" <=? c) && (c <=? ch "z") || (ch "A" <=? c) && (c <=? ch "Z")
   || (ch "0" <=? c) && (c <=? ch "9") || (c =? ch "_"))%N.

Definition isLetter (c : N) : bool :=
  ((ch "a" <=? c) && (c <=? ch "z") || (ch "A" <=? c) && (c <=? ch "Z"))%N.

Definition isDigit (c : N) : bool := ((ch "0" <=? c) && (c <=? ch "9"))%N.

(** The pattern [^[a-zA-Z0-9_]{3,20}$] in words: three to twenty characters,
    each a letter, a digit or an underscore. *)
Definition usernamePattern (s : jsstring) : Prop :=
  3 <= length s <= 20 /\ Forall (fun c => isWordChar c = true) s.

(** The pattern [^[^\s@]+@[^\s@]+\.[^\s@]+$] in words: an [@] at a
    position [p] and a dot at a position [q], with at least one character
    before [p], between [p] and [q] and after [q], and every character
    other than these two is neither white space nor [@]. *)
Definition emailPattern (s : jsstring) : Prop :=
  exists p q,
    0 < p /\ p + 1 < q /\ q + 1 < length s /\
    s !! p = Some (ch "@") /\ s !! q = Some (ch ".") /\
    forall i c, s !! i = Some c -> i ≠ p -> i ≠ q ->
                isWhiteSpace c = false /\ c ≠ ch "@".

(** The password rule in words: at least eight characters, at least one
    letter and at least one digit. *)
Definition passwordRule (s : jsstring) : Prop :=
  8 <= length s /\ Exists (fun c => isLetter c = true) s
  /\ Exists (fun c => isDigit c = true) s.

(** The patterns' atoms that consume one character. *)
Definition atomic (r : regex) : Prop :=
  match r with RDot | RChar _ | RClass _ _ => True | _ => False end.

(** The password of eight letters, the line separator U+2028 and eight
    digits, and the same with a line feed. *)
Definition twoLinePassword : jsstring := js "abcdefgh" ++ [8232%N] ++ js "12345678".
Definition twoLinePasswordLF : jsstring := js "abcdefgh" ++ [10%N] ++ js "12345678".

(** What a run of statements may have changed when it only displays field
    errors: nothing but the elements named in [ids]. *)
Definition touches (ids : list jsstring) (st st' : State) : Prop :=
  localStorage st' = localStorage st /\
  location_href st' = location_href st /\
  timeouts st' = timeouts st /\
  nextNode st' = nextNode st /\
  forall id, id ∉ ids -> document st' !! id = document st !! id.

(** The element named by an optional error-element id, if it is used. *)
Definition idOf (errorElementId : option jsstring) : list jsstring :=
  match errorElementId with
  | Some id => if truthy id then [id] else []
  | None => []
  end.

(** A submit button with the two descendants [setLoadingState] looks for. *)
Definition hasButton (buttonId : jsstring) (st : State) : Prop :=
  exists button i j,
    document st !! buttonId = Some button /\
    querySelector (js "btn-text") button = Some i /\
    querySelector (js "loading-spinner") button = Some j.

(** The ids of the error elements each form validation writes. *)
Definition loginErrorIds : list jsstring :=
  [js "loginUsernameError"; js "loginPasswordError"].

Definition registrationErrorIds : list jsstring :=
  [js "registerUsernameError"; js "registerEmailError"; js "registerPasswordError";
   js "confirmPasswordError"; js "termsError"].

(** What [validateRegistrationForm] returns, as one condition. *)
Definition registrationValid (formData : FormData) : bool :=
  test usernameRegex (fd_username formData)
  && test emailRegex (fd_email formData)
  && (negb (length (fd_password formData) <? 8)
      && test passwordRegex (fd_password formData))
  && bool_decide (fd_password formData = fd_confirmPassword formData)
  && fd_acceptTerms formData.

(** Between [st] and [st'] nothing of a submission has happened: no timer
    was started (so no simulated call), no node was created and no
    notification appended, the submit button [buttonId] is as it was (so no
    loading state), and storage and location are as they were. *)
Definition quiet (buttonId : jsstring) (st st' : State) : Prop :=
  timeouts st' = timeouts st /\
  nextNode st' = nextNode st /\
  document st' !! js "notificationContainer" = document st !! js "notificationContainer" /\
  document st' !! buttonId = document st !! buttonId /\
  formState buttonId st' = formState buttonId st /\
  localStorage st' = localStorage st /\
  location_href st' = location_href st.

(** The error element [id] shows no error: empty text, no [show] token. *)
Definition fieldErrorCleared (id : jsstring) (st : State) : Prop :=
  exists el, document st !! id = Some el /\ textContent el = [] /\
             js "show" ∉ classList el.

(** The error element [id] shows [message]. *)
Definition fieldErrorShown (id message : jsstring) (st : State) : Prop :=
  exists el, document st !! id = Some el /\ textContent el = message /\
             js "show" ∈ classList el.

(** A statement that leaves the browser storage as it found it. *)
Definition keepsStorage {A} (m : M A) : Prop :=
  forall st, localStorage (fst (m st)) = localStorage st.

(** ** Sample pages *)

Definition blank : Element :=
  {| textContent := []; value := []; checked := false; disabled := false;
     classList := ∅; descendants := []; childNodes := [] |}.

Definition inputField (v : jsstring) : Element := withValue v blank.

Definition checkbox (b : bool) : Element :=
  {| textContent := []; value := []; checked := b; disabled := false;
     classList := ∅; descendants := []; childNodes := [] |}.

(** A submit button with its label and its hidden spinner. *)
Definition submitButton : Element :=
  withDescendants [{[js "btn-text"]}; {[js "loading-spinner"; js "hidden"]}] blank.

Definition page (elements : list (jsstring * Element)) : State :=
  {| document := list_to_map elements; localStorage := ∅;
     location_href := []; timeouts := []; nextNode := 0%N |}.

Definition loginPage (username password : jsstring) (rememberMe : bool) : State :=
  page [(js "loginUsername", inputField username);
        (js "loginPassword", inputField password);
        (js "rememberMe", checkbox rememberMe);
        (js "loginUsernameError", blank); (js "loginPasswordError", blank);
        (js "loginBtn", submitButton); (js "notificationContainer", blank)].

Definition registrationPage (username email password confirm : jsstring)
  (acceptTerms : bool) : State :=
  page [(js "registerUsername", inputField username);
        (js "registerEmail", inputField email);
        (js "registerPassword", inputField password);
        (js "confirmPassword", inputField confirm);
        (js "acceptTerms", checkbox acceptTerms);
        (js "registerUsernameError", blank); (js "registerEmailError", blank);
        (js "registerPasswordError", blank); (js "confirmPasswordError", blank);
        (js "termsError", blank); (js "registerBtn", submitButton);
        (js "loginUsername", inputField []);
        (js "notificationContainer", blank)].

Definition forgotPage (email : jsstring) : State :=
  page [(js "forgotEmail", inputField email); (js "forgotEmailError", blank);
        (js "forgotBtn", submitButton); (js "notificationContainer", blank)].

Definition sampleRegistration : State :=
  registrationPage (js " pet_lover") (js "user@example.com") (js "myPet2023")
    (js "myPet2023") true.

Definition sampleFormData : FormData :=
  {| fd_username := js "pet_lover"; fd_email := js "user@example.com";
     fd_password := js "myPet2023"; fd_confirmPassword := js "myPet2023";
     fd_acceptTerms := true |}.

(** A registration page of its own: the registration form, its error
    elements, its button and the notification container, and no login
    field, which belongs to [login.html]. *)
Definition registrationDocument (username email password confirm : jsstring)
  (acceptTerms : bool) : State :=
  page [(js "registerUsername", inputField username);
        (js "registerEmail", inputField email);
        (js "registerPassword", inputField password);
        (js "confirmPassword", inputField confirm);
        (js "acceptTerms", checkbox acceptTerms);
        (js "registerUsernameError", blank); (js "registerEmailError", blank);
        (js "registerPasswordError", blank); (js "confirmPasswordError", blank);
        (js "termsError", blank); (js "registerBtn", submitButton);
        (js "notificationContainer", blank)].

Definition sampleRegistrationDocument : State :=
  registrationDocument (js " pet_lover") (js "user@example.com") (js "myPet2023")
    (js "myPet2023") true.

(** An error element that holds an icon and no text: its text content is
    empty and it has a child. *)
Definition iconError : Element := withDescendants [{[js "error-icon"]}] blank.

Definition iconErrorPage : State := page [(js "loginUsernameError", iconError)].

(** ** The rest of the controller and of the page *)

(** Every node appended so far was numbered before the next node to be
    created. *)
Definition freshNodes (st : State) : Prop :=
  forall id el n,
    document st !! id = Some el -> n ∈ childNodes el -> (nid n < nextNode st)%N.

(** What the page shows once a handler has dealt with a rejected call,
    between the page [st] it resumed on and the page [st'] it left: the error
    notification [message] appended to the container, its removal timer and
    no other timer, the button [buttonId] idle again, storage and location
    untouched. *)
Definition failureShown (buttonId message : jsstring) (st st' : State) : Prop :=
  exists container,
    document st !! js "notificationContainer" = Some container /\
    document st' !! js "notificationContainer"
    = Some (withChildNodes
              (childNodes container ++
                 [{| nid := nextNode st;
                     className := js "notification notification-" ++ js "error";
                     notificationText := message |}]) container) /\
    timeouts st' = timeouts st ++ [(5000%N, CbRemoveNotification (nextNode st))] /\
    formState buttonId st' = Idle /\
    localStorage st' = localStorage st /\
    location_href st' = location_href st.

(** The rest of an async handler that gave control back at its [await]. *)
Definition continuationOf (r : State * Completion Async) : Settlement -> M unit :=
  match snd r with
  | Normal (Awaiting k) => k
  | _ => fun _ => ret tt
  end.

Definition sampleLogin : State := loginPage (js " alice ") (js "secret") true.
Definition sampleForgot : State := forgotPage (js "user@example.com").

(** A password-reset page: the form with its field, error element and
    button, the success message and the link back, both hidden at first. *)
Definition resetPage (email : jsstring) : State :=
  page [(js "forgotPasswordForm", blank);
        (js "forgotEmail", inputField email); (js "forgotEmailError", blank);
        (js "forgotBtn", submitButton);
        (js "resetSuccessMessage", withClassList {[js "hidden"]} blank);
        (js "backToLogin", withClassList {[js "hidden"]} blank);
        (js "notificationContainer", blank)].

Definition sampleReset : State := resetPage (js "user@example.com ").

Definition withChecked (b : bool) (el : Element) : Element :=
  {| textContent := textContent el; value := value el; checked := b;
     disabled := disabled el; classList := classList el;
     descendants := descendants el; childNodes := childNodes el |}.

(** [localStorage.getItem] gives [null] for a missing key; [null] and the
    empty string are falsy. *)
Definition loadRememberedUser : M unit :=
  fun st =>
    match localStorage st !! js "rememberedUsername" with
    | Some rememberedUsername =>
        if truthy rememberedUsername then
          (let* _ := updateElement (js "loginUsername") (withValue rememberedUsername) in
           updateElement (js "rememberMe") (withChecked true)) st
        else (st, Normal tt)
    | None => (st, Normal tt)
    end.

(** ** Event listeners

    [this] inside a static method: the class when the method is called on
    it or was bound to it, the element a listener is attached to when the
    method was handed to [addEventListener] unbound.  An element has no
    [showFieldError] and no [clearFieldError], so calling them throws. *)
Inductive This :=
| ThisAuthController
| ThisElement.

Definition thisShowFieldError (this : This) (elementId message : jsstring) : M unit :=
  match this with
  | ThisAuthController => showFieldError elementId message
  | ThisElement => throw TypeError
  end.

Definition thisClearFieldError (this : This) (elementId : jsstring) : M unit :=
  match this with
  | ThisAuthController => clearFieldError elementId
  | ThisElement => throw TypeError
  end.

(** The validators in force (lines 356-438) with their receiver explicit. *)
Definition validateUsernameOn (this : This) (username : Arg)
  (errorElementId : option jsstring) : M bool :=
  let '(username, errorElementId) :=
    match username with
    | AEvent v => (trim v, Some (js "registerUsernameError"))
    | AString s => (s, errorElementId)
    end in
  if negb (truthy username) then
    let* _ := ifId errorElementId
                (fun id => thisShowFieldError this id (js "Username is required")) in
    ret false
  else if negb (test usernameRegex username) then
    let* _ := ifId errorElementId (fun id => thisShowFieldError this id
      (js "Username must be 3-20 characters, letters, numbers, and underscores only")) in
    ret false
  else
    let* _ := ifId errorElementId (thisClearFieldError this) in
    ret true.

Definition validateEmailOn (this : This) (email : Arg)
  (errorElementId : option jsstring) : M bool :=
  let '(email, errorElementId) :=
    match email with
    | AEvent v => (trim v, Some (js "registerEmailError"))
    | AString s => (s, errorElementId)
    end in
  if negb (truthy email) then
    let* _ := ifId errorElementId
                (fun id => thisShowFieldError this id (js "Email is required")) in
    ret false
  else if negb (test emailRegex email) then
    let* _ := ifId errorElementId (fun id => thisShowFieldError this id
      (js "Please enter a valid email address")) in
    ret false
  else
    let* _ := ifId errorElementId (thisClearFieldError this) in
    ret true.

Definition validatePasswordOn (this : This) (password : Arg)
  (errorElementId : option jsstring) : M bool :=
  let '(password, errorElementId) :=
    match password with
    | AEvent v => (v, Some (js "registerPasswordError"))
    | AString s => (s, errorElementId)
    end in
  if negb (truthy password) then
    let* _ := ifId errorElementId
                (fun id => thisShowFieldError this id (js "Password is required")) in
    ret false
  else if length password <? 8 then
    let* _ := ifId errorElementId (fun id => thisShowFieldError this id
      (js "Password must be at least 8 characters long")) in
    ret false
  else if negb (test passwordRegex password) then
    let* _ := ifId errorElementId (fun id => thisShowFieldError this id
      (js "Password must contain both letters and numbers")) in
    ret false
  else
    let* _ := ifId errorElementId (thisClearFieldError this) in
    ret true.

(** What [setupEventListeners] hands to [addEventListener]: a handler bound
    to the class ([this.handleLogin.bind(this)]) or a validator as it is
    ([this.validateUsername]). *)
Inductive Listener :=
| BoundHandleLogin
| BoundHandleRegister
| BoundHandleForgotPassword
| UnboundValidateUsername
| UnboundValidateEmail
| UnboundValidatePassword
| UnboundValidatePasswordConfirm.

(** [if (el) el.addEventListener(type, l)] for [el = getElementById(id)]. *)
Definition listenerFor (st : State) (id type : jsstring) (l : Listener)
  : list (jsstring * jsstring * Listener) :=
  match document st !! id with
  | Some _ => [(id, type, l)]
  | None => []
  end.

(** The registrations [setupEventListeners] makes on a page, in order. *)
Definition setupEventListeners (st : State) : list (jsstring * jsstring * Listener) :=
  listenerFor st (js "loginForm") (js "submit") BoundHandleLogin
  ++ listenerFor st (js "registerForm") (js "submit") BoundHandleRegister
  ++ listenerFor st (js "forgotPasswordForm") (js "submit") BoundHandleForgotPassword
  ++ listenerFor st (js "registerUsername") (js "input") UnboundValidateUsername
  ++ listenerFor st (js "registerEmail") (js "input") UnboundValidateEmail
  ++ listenerFor st (js "registerPassword") (js "input") UnboundValidatePassword
  ++ listenerFor st (js "confirmPassword") (js "input") UnboundValidatePasswordConfirm.

(** The call of a listener for an event on an element whose value is [v].
    [validatePasswordConfirm] names the class itself and needs no [this]. *)
Definition callListener (l : Listener) (v : jsstring) : M Async :=
  match l with
  | BoundHandleLogin => handleLogin
  | BoundHandleRegister => handleRegister
  | BoundHandleForgotPassword => handleForgotPassword
  | UnboundValidateUsername =>
      let* _ := validateUsernameOn ThisElement (AEvent v) None in ret Returned
  | UnboundValidateEmail =>
      let* _ := validateEmailOn ThisElement (AEvent v) None in ret Returned
  | UnboundValidatePassword =>
      let* _ := validatePasswordOn ThisElement (AEvent v) None in ret Returned
  | UnboundValidatePasswordConfirm =>
      let* _ := validatePasswordConfirm (AEvent v) in ret Returned
  end.

(** An async handler turns what it throws into a rejected promise. *)
Definition isAsync (l : Listener) : bool :=
  match l with
  | BoundHandleLogin | BoundHandleRegister | BoundHandleForgotPassword => true
  | _ => false
  end.

(** The listener of the window's [error] event (lines 665-668). *)
Definition onWindowError : M unit :=
  showNotification (js "An unexpected error occurred. Please refresh the page.")
    (js "error").

(** The listeners of an event run one after the other.  What a listener
    throws is reported as an [error] event on the window, whose listener
    runs at once; what that one throws in turn is only logged.  The result
    lists the handlers now waiting at their [await]. *)
Fixpoint runListeners (ls : list Listener) (v : jsstring) (st : State)
  : State * list (Settlement -> M unit) :=
  match ls with
  | [] => (st, [])
  | l :: ls' =>
      let '(st1, c) := callListener l v st in
      let '(st2, ks) :=
        match c with
        | Normal Returned => (st1, [])
        | Normal (Awaiting k) => (st1, [k])
        | Throw _ => if isAsync l then (st1, []) else (fst (onWindowError st1), [])
        end in
      let '(st3, ks') := runListeners ls' v st2 in
      (st3, ks ++ ks')
  end.

(** The listeners registered for events of type [type] on the element
    [id], in registration order. *)
Definition listenersOf (registry : list (jsstring * jsstring * Listener))
  (id type : jsstring) : list Listener :=
  omap (fun r : jsstring * jsstring * Listener =>
          let '(id', type', l) := r in
          if bool_decide (id' = id) && bool_decide (type' = type)
          then Some l else None) registry.

(** An event of type [type] on the element [id]. *)
Definition dispatchEvent (registry : list (jsstring * jsstring * Listener))
  (id type : jsstring) (st : State) : State * list (Settlement -> M unit) :=
  match document st !! id with
  | Some target => runListeners (listenersOf registry id type) (value target) st
  | None => (st, [])
  end.

(** ** The self-check harness, [class AuthTests]

    [console.assert(condition, message)] logs [message] when the condition
    is false; a test is modelled by the messages it logs that way (what
    [console.log] prints is left out). *)
Definition consoleAssert (condition : bool) (message : jsstring) : list jsstring :=
  if condition then [] else [message].

Definition testUsernameValidation : M (list jsstring) :=
  let* r1 := validateUsername (AString (js "john123")) None in
  let* r2 := validateUsername (AString (js "pet_lover")) None in
  let* r3 := validateUsername (AString []) None in
  let* r4 := validateUsername (AString (js "ab")) None in
  let* r5 := validateUsername (AString (js "user@name")) None in
  ret (consoleAssert (bool_decide (r1 = true)) (js "Valid username should pass")
       ++ consoleAssert (bool_decide (r2 = true))
            (js "Username with underscore should pass")
       ++ consoleAssert (bool_decide (r3 = false)) (js "Empty username should fail")
       ++ consoleAssert (bool_decide (r4 = false)) (js "Short username should fail")
       ++ consoleAssert (bool_decide (r5 = false))
            (js "Username with special chars should fail")).

Definition testEmailValidation : M (list jsstring) :=
  let* r1 := validateEmail (AString (js "user@example.com")) None in
  let* r2 := validateEmail (AString (js "test.user@domain.co.uk")) None in
  let* r3 := validateEmail (AString []) None in
  let* r4 := validateEmail (AString (js "invalid.email")) None in
  let* r5 := validateEmail (AString (js "@domain.com")) None in
  ret (consoleAssert (bool_decide (r1 = true)) (js "Valid email should pass")
       ++ consoleAssert (bool_decide (r2 = true)) (js "Complex valid email should pass")
       ++ consoleAssert (bool_decide (r3 = false)) (js "Empty email should fail")
       ++ consoleAssert (bool_decide (r4 = false)) (js "Email without @ should fail")
       ++ consoleAssert (bool_decide (r5 = false))
            (js "Email without user part should fail")).

Definition testPasswordValidation : M (list jsstring) :=
  let* r1 := validatePassword (AString (js "password123")) None in
  let* r2 := validatePassword (AString (js "myPet2023")) None in
  let* r3 := validatePassword (AString []) None in
  let* r4 := validatePassword (AString (js "short")) None in
  let* r5 := validatePassword (AString (js "onlyletters")) None in
  let* r6 := validatePassword (AString (js "12345678")) None in
  ret (consoleAssert (bool_decide (r1 = true)) (js "Valid password should pass")
       ++ consoleAssert (bool_decide (r2 = true)) (js "Mixed case password should pass")
       ++ consoleAssert (bool_decide (r3 = false)) (js "Empty password should fail")
       ++ consoleAssert (bool_decide (r4 = false)) (js "Short password should fail")
       ++ consoleAssert (bool_decide (r5 = false))
            (js "Password without numbers should fail")
       ++ consoleAssert (bool_decide (r6 = false))
            (js "Password without letters should fail")).

(** [document.getElementById(id).classList.contains(token)] *)
Definition classListContains (id token : jsstring) : M bool :=
  fun st =>
    match document st !! id with
    | Some el => (st, Normal (bool_decide (token ∈ classList el)))
    | None => (st, Throw TypeError)
    end.

Definition testFormSwitching : M (list jsstring) :=
  let* c1 := classListContains (js "loginContainer") (js "hidden") in
  let a1 := consoleAssert (negb c1) (js "Login should be visible initially") in
  let* _ := goToRegister in
  let* c2 := classListContains (js "loginContainer") (js "hidden") in
  let a2 := consoleAssert c2 (js "Login should be hidden after switching") in
  let* c3 := classListContains (js "registerContainer") (js "hidden") in
  let a3 := consoleAssert (negb c3) (js "Register should be visible") in
  let* _ := goToLogin in
  let* c4 := classListContains (js "loginContainer") (js "hidden") in
  let a4 := consoleAssert (negb c4) (js "Login should be visible again") in
  let* c5 := classListContains (js "registerContainer") (js "hidden") in
  let a5 := consoleAssert c5 (js "Register should be hidden") in
  ret (a1 ++ a2 ++ a3 ++ a4 ++ a5).

Definition runTests : M (list jsstring) :=
  let* f1 := testUsernameValidation in
  let* f2 := testEmailValidation in
  let* f3 := testPasswordValidation in
  let* f4 := testFormSwitching in
  ret (f1 ++ f2 ++ f3 ++ f4).

(** A page with the two containers the form-switching test looks at, the
    login one visible and the register one hidden. *)
Definition switchingPage : State :=
  page [(js "loginContainer", blank);
        (js "registerContainer", withClassList {[js "hidden"]} blank)].

(** ** The matcher agrees with the declarative reading *)

Section Matcher.
Variable s : jsstring.

Lemma Match_le r i j : Match s r i j -> i <= j.
Proof. induction 1; lia. Qed.

Lemma Match_bound r i j : Match s r i j -> i < j -> j <= length s.
Proof.
  induction 1; intros Hlt; try lia.
  apply lookup_lt_Some in H. lia.
Qed.

Lemma rep_sound r' :
  (forall i j, In j (ends s r' i) -> Match s r' i j) ->
  forall fuel lo hi i k,
    In k (rep (ends s r') fuel lo hi i) -> Match s (RRepeat r' lo hi) i k.
Proof.
  intros IH. induction fuel as [|fuel IHf]; intros lo hi i k Hin; simpl in Hin;
    apply in_app_iff in Hin as [Hin|Hin].
  - destruct lo; simpl in Hin; [|tauto]. destruct Hin as [<-|[]]. constructor.
  - destruct Hin.
  - destruct lo; simpl in Hin; [|tauto]. destruct Hin as [<-|[]]. constructor.
  - assert (hi ≠ Some 0) as Hhi by (intros ->; destruct Hin).
    assert (In k (flat_map
              (fun j => if Nat.eqb lo 0 && Nat.eqb j i then []
                        else rep (ends s r') fuel (pred lo) (pred <$> hi) j)
              (ends s r' i))) as Hin'
      by (destruct hi as [[|h]|]; [congruence | exact Hin | exact Hin]).
    apply in_flat_map in Hin' as (j & Hj & Hk).
    destruct (Nat.eqb lo 0 && Nat.eqb j i) eqn:E; [destruct Hk|].
    apply MRepeatS with j; auto.
    intros -> ->. simpl in E. rewrite Nat.eqb_refl in E. discriminate.
Qed.

Lemma ends_sound r : forall i j, In j (ends s r i) -> Match s r i j.
Proof.
  induction r; intros i j Hin; cbn [ends] in Hin.
  - destruct (Nat.eqb_spec i 0); [|destruct Hin].
    destruct Hin as [<-|[]]. subst. constructor.
  - destruct (Nat.eqb_spec i (length s)); [|destruct Hin].
    destruct Hin as [<-|[]]. subst. constructor.
  - destruct (s !! i) eqn:E; [|destruct Hin].
    destruct (atomAccepts RDot n) eqn:A; [|destruct Hin].
    destruct Hin as [<-|[]]. econstructor; eauto.
  - destruct (s !! i) eqn:E; [|destruct Hin].
    destruct (atomAccepts (RChar c) n) eqn:A; [|destruct Hin].
    destruct Hin as [<-|[]]. econstructor; eauto.
  - destruct (s !! i) eqn:E; [|destruct Hin].
    destruct (atomAccepts (RClass negated items) n) eqn:A; [|destruct Hin].
    destruct Hin as [<-|[]]. econstructor; eauto.
  - apply in_flat_map in Hin as (m & Hm & Hj). econstructor; eauto.
  - eapply rep_sound; eauto.
  - destruct (ends s r i) as [|m l] eqn:E; [destruct Hin|].
    destruct Hin as [<-|[]]. apply MLookahead with m. apply IHr.
    rewrite E. left. reflexivity.
Qed.

Lemma rep_complete_0 step fuel hi i : In i (rep step fuel 0 hi i).
Proof. destruct fuel; simpl; left; reflexivity. Qed.

Lemma rep_complete_S step fuel lo hi i j k :
  hi ≠ Some 0 -> (lo = 0 -> j ≠ i) -> In j (step i) ->
  In k (rep step fuel (pred lo) (pred <$> hi) j) ->
  In k (rep step (S fuel) lo hi i).
Proof.
  intros Hhi Hne Hj Hk. simpl. apply in_app_iff. right.
  assert (In k (flat_map
            (fun j => if Nat.eqb lo 0 && Nat.eqb j i then []
                      else rep step fuel (pred lo) (pred <$> hi) j)
            (step i))) as Hin.
  { apply in_flat_map. exists j. split; [exact Hj|].
    destruct (Nat.eqb_spec lo 0) as [->|]; simpl; [|exact Hk].
    destruct (Nat.eqb_spec j i) as [->|]; [exfalso; apply Hne; reflexivity | exact Hk]. }
  destruct hi as [[|h]|]; [congruence | exact Hin | exact Hin].
Qed.

Lemma ends_complete r i j :
  Match s r i j ->
  In j (ends s r i) /\
  forall r' lo hi fuel,
    r = RRepeat r' lo hi -> lo + (length s - i) <= fuel ->
    In j (rep (ends s r') fuel lo hi i).
Proof.
  induction 1.
  - split; [simpl; auto | discriminate].
  - split; [simpl; rewrite Nat.eqb_refl; simpl; auto | discriminate].
  - split.
    + destruct r; simpl in H0; try discriminate; simpl; rewrite H, H0; simpl; auto.
    + intros; subst; discriminate.
  - split; [|discriminate]. simpl. apply in_flat_map. exists j. tauto.
  - split.
    + simpl. apply rep_complete_0.
    + intros r' lo hi' fuel [= -> <- ->] _. apply rep_complete_0.
  - assert (forall fuel, lo + (length s - i) <= fuel ->
                         In k (rep (ends s r) fuel lo hi i)) as Hgen.
    { intros fuel Hfuel.
      assert (i <= j) by (eapply Match_le; eauto).
      assert (i < j -> j <= length s) by (eapply Match_bound; eauto).
      assert (lo = 0 -> j ≠ i) by assumption.
      destruct fuel as [|fuel].
      - exfalso. destruct lo; [|lia].
        assert (j ≠ i) by auto. lia.
      - eapply rep_complete_S; eauto; [tauto|].
        destruct IHMatch2 as [_ IH2]. eapply IH2; [reflexivity|].
        destruct lo as [|lo]; simpl; [|lia].
        assert (j ≠ i) by auto. lia. }
    split.
    + simpl. apply Hgen. lia.
    + intros r' lo' hi' fuel [= -> -> ->]. apply Hgen.
  - split; [|discriminate]. simpl.
    destruct IHMatch as [IH _]. destruct (ends s r i); [destruct IH|]. left. reflexivity.
Qed.

Lemma ends_spec r i j : In j (ends s r i) <-> Match s r i j.
Proof. split; [apply ends_sound | intros H; apply ends_complete in H; tauto]. Qed.

(** [test] decides [matches]. *)
Lemma test_spec r : test r s = true <-> matches r s.
Proof.
  unfold test, matches. rewrite existsb_exists. split.
  - intros (i & Hin & Hi). apply in_seq in Hin.
    destruct (ends s r i) as [|j l] eqn:E; [discriminate|].
    exists i, j. split; [lia|]. apply ends_spec. rewrite E. left. reflexivity.
  - intros (i & j & Hi & HM). exists i. split.
    + apply in_seq. lia.
    + apply ends_spec in HM. destruct (ends s r i); [destruct HM|reflexivity].
Qed.
End Matcher.

(** ** Reading the three patterns *)

Section Patterns.
Variable s : jsstring.

Lemma Match_bol_inv i j : Match s RBol i j -> i = 0 /\ j = 0.
Proof. inversion 1; subst; [tauto | discriminate]. Qed.

Lemma Match_eol_inv i j : Match s REol i j -> i = length s /\ j = length s.
Proof. inversion 1; subst; [tauto | discriminate]. Qed.

Lemma Match_seq_inv r1 r2 i k :
  Match s (RSeq r1 r2) i k -> exists j, Match s r1 i j /\ Match s r2 j k.
Proof. inversion 1; subst; [discriminate | eauto]. Qed.

Lemma Match_lookahead_inv r i j :
  Match s (RLookahead r) i j -> j = i /\ exists k, Match s r i k.
Proof. inversion 1; subst; [discriminate | eauto]. Qed.

Lemma Match_atomic_inv r i j :
  atomic r -> Match s r i j ->
  j = S i /\ exists c, s !! i = Some c /\ atomAccepts r c = true.
Proof. intros Ha HM. inversion HM; subst; simpl in Ha; try tauto; eauto. Qed.

(** A quantified atom matches exactly the runs of accepted characters of
    a permitted length. *)
Lemma Match_repeat_atomic_inv r lo hi i k :
  atomic r -> Match s (RRepeat r lo hi) i k ->
  i <= k /\ lo <= k - i /\ (forall h, hi = Some h -> k - i <= h) /\
  forall p, i <= p < k -> exists c, s !! p = Some c /\ atomAccepts r c = true.
Proof.
  intros Ha HM. remember (RRepeat r lo hi) as R eqn:ER.
  revert lo hi ER. induction HM; intros lo' hi' ER; try discriminate.
  - subst. discriminate.
  - injection ER as E1 E2 E3. subst. repeat split; try lia; intros; lia.
  - injection ER as E1 E2 E3. subst.
    apply Match_atomic_inv in HM1 as [-> (c & Hc & Hacc)]; [|exact Ha].
    destruct (IHHM2 (pred lo') (pred <$> hi') eq_refl) as (Hle & Hlo & Hhi & Hall).
    repeat split; try lia.
    + intros h ->. destruct h as [|h]; [congruence|].
      specialize (Hhi h eq_refl). lia.
    + intros p Hp. destruct (decide (p = i)) as [->|]; [eauto|]. apply Hall. lia.
Qed.

Lemma Match_repeat_atomic_intro r n : forall lo hi i,
  lo <= n -> (forall h, hi = Some h -> n <= h) ->
  (forall p, i <= p < i + n -> exists c, s !! p = Some c /\ atomAccepts r c = true) ->
  Match s (RRepeat r lo hi) i (i + n).
Proof.
  induction n as [|n IH]; intros lo hi i Hlo Hhi Hall.
  - assert (lo = 0) as -> by lia. rewrite Nat.add_0_r. constructor.
  - destruct (Hall i) as (c & Hc & Hacc); [lia|].
    apply MRepeatS with (S i).
    + intros ->. specialize (Hhi 0 eq_refl). lia.
    + lia.
    + econstructor; eauto.
    + replace (i + S n) with (S i + n) by lia. apply IH.
      * lia.
      * intros h Hh. destruct hi as [h'|]; [|discriminate].
        simpl in Hh. injection Hh as <-. specialize (Hhi h' eq_refl). lia.
      * intros p Hp. apply Hall. lia.
Qed.

Lemma wordClass_accepts c : atomAccepts wordClass c = isWordChar c.
Proof.
  unfold wordClass, isWordChar, atomAccepts, classMatches, existsb, itemMatches.
  rewrite xorb_false_l, orb_false_r, !orb_assoc. reflexivity.
Qed.

Lemma notSpaceAt_accepts c :
  atomAccepts notSpaceAt c = true <-> isWhiteSpace c = false /\ c ≠ ch "@".
Proof.
  unfold notSpaceAt, atomAccepts, classMatches, existsb, itemMatches.
  rewrite orb_false_r.
  destruct (isWhiteSpace c), (N.eqb_spec c (ch "@")); simpl; intuition congruence.
Qed.

Lemma char_accepts d c : atomAccepts (RChar d) c = true <-> c = d.
Proof. simpl. apply N.eqb_eq. Qed.

Lemma username_matches : matches usernameRegex s <-> usernamePattern s.
Proof.
  unfold matches, usernamePattern, usernameRegex. split.
  - intros (i & j & _ & HM).
    apply Match_seq_inv in HM as (j1 & H1 & HM).
    apply Match_bol_inv in H1 as [-> ->].
    apply Match_seq_inv in HM as (j2 & H2 & H3).
    apply Match_eol_inv in H3 as [-> ->].
    apply Match_repeat_atomic_inv in H2 as (_ & Hlo & Hhi & Hall); [|exact I].
    specialize (Hhi 20 eq_refl). split; [lia|].
    apply Forall_lookup. intros p c Hp.
    destruct (Hall p) as (c' & Hc' & Hacc).
    { apply lookup_lt_Some in Hp. lia. }
    rewrite Hp in Hc'. injection Hc' as <-. rewrite <- wordClass_accepts. exact Hacc.
  - intros [Hlen Hall]. exists 0, (length s). split; [lia|].
    apply MSeq with 0; [constructor|].
    apply MSeq with (length s); [|constructor].
    apply (Match_repeat_atomic_intro wordClass (length s) 3 (Some 20) 0).
    + lia.
    + intros h [= <-]. lia.
    + intros p Hp. destruct (lookup_lt_is_Some_2 s p) as [c Hc]; [lia|].
      exists c. split; [exact Hc|]. rewrite wordClass_accepts.
      eapply Forall_lookup in Hall; eauto.
Qed.

Lemma email_matches : matches emailRegex s <-> emailPattern s.
Proof.
  unfold matches, emailPattern, emailRegex. split.
  - intros (i & j & _ & HM).
    apply Match_seq_inv in HM as (j0 & H0 & HM).
    apply Match_bol_inv in H0 as [-> ->].
    apply Match_seq_inv in HM as (p & Ha & HM).
    apply Match_seq_inv in HM as (p' & Hat & HM).
    apply Match_seq_inv in HM as (q & Hb & HM).
    apply Match_seq_inv in HM as (q' & Hdot & HM).
    apply Match_seq_inv in HM as (e & Hc & He).
    apply Match_eol_inv in He as [-> ->].
    apply Match_atomic_inv in Hat as [-> (c1 & Hc1 & Hacc1)]; [|exact I].
    apply Match_atomic_inv in Hdot as [-> (c2 & Hc2 & Hacc2)]; [|exact I].
    apply char_accepts in Hacc1 as ->. apply char_accepts in Hacc2 as ->.
    apply Match_repeat_atomic_inv in Ha as (_ & Ha1 & _ & Ha); [|exact I].
    apply Match_repeat_atomic_inv in Hb as (_ & Hb1 & _ & Hb); [|exact I].
    apply Match_repeat_atomic_inv in Hc as (_ & Hc1' & _ & Hc); [|exact I].
    exists p, q.
    split; [lia|]. split; [lia|]. split; [lia|].
    split; [assumption|]. split; [assumption|].
    intros n c Hn Hnp Hnq. apply lookup_lt_Some in Hn as Hlt.
    assert (exists c', s !! n = Some c' /\ atomAccepts notSpaceAt c' = true)
      as (c' & Hc' & Hacc).
    { destruct (decide (n < p)); [apply Ha; lia|].
      destruct (decide (n < q)); [apply Hb; lia|]. apply Hc; lia. }
    rewrite Hn in Hc'. injection Hc' as <-. apply notSpaceAt_accepts, Hacc.
  - intros (p & q & Hp & Hpq & Hq & Hat & Hdot & Hall).
    assert (forall i, i < length s -> i ≠ p -> i ≠ q ->
              exists c, s !! i = Some c /\ atomAccepts notSpaceAt c = true) as Hacc.
    { intros i Hi Hnp Hnq. destruct (lookup_lt_is_Some_2 s i) as [c Hc]; [lia|].
      exists c. split; [exact Hc|]. apply notSpaceAt_accepts. eauto. }
    exists 0, (length s). split; [lia|].
    apply MSeq with 0; [constructor|].
    apply MSeq with p.
    { apply (Match_repeat_atomic_intro notSpaceAt p 1 None 0); [lia|discriminate|].
      intros i Hi. apply Hacc; lia. }
    apply MSeq with (S p).
    { apply MAtom with (ch "@"); [exact Hat|]. apply char_accepts. reflexivity. }
    apply MSeq with q.
    { replace q with (S p + (q - S p)) at 1 by lia.
      apply Match_repeat_atomic_intro; [lia|discriminate|].
      intros i Hi. apply Hacc; lia. }
    apply MSeq with (S q).
    { apply MAtom with (ch "."); [exact Hdot|]. apply char_accepts. reflexivity. }
    apply MSeq with (length s); [|constructor].
    replace (length s) with (S q + (length s - S q)) at 1 by lia.
    apply Match_repeat_atomic_intro; [lia|discriminate|].
    intros i Hi. apply Hacc; lia.
Qed.
End Patterns.

Section PasswordPattern.
Variable s : jsstring.

Lemma letterClass_accepts c :
  atomAccepts (RClass false [CRange (ch "a") (ch "z"); CRange (ch "A") (ch "Z")]) c
  = isLetter c.
Proof.
  unfold isLetter, atomAccepts, classMatches, existsb, itemMatches.
  rewrite xorb_false_l, orb_false_r. reflexivity.
Qed.

Lemma digitClass_accepts c :
  atomAccepts (RClass false [CRange (ch "0") (ch "9")]) c = isDigit c.
Proof.
  unfold isDigit, atomAccepts, classMatches, existsb, itemMatches.
  rewrite xorb_false_l, orb_false_r. reflexivity.
Qed.

(** [(?=.*C)] at position [i]: a character of the class [C] at some
    position [p >= i] with no line terminator between [i] and [p]. *)
Lemma lookahead_dotstar cls i j :
  atomic cls ->
  Match s (RLookahead (RSeq (RRepeat RDot 0 None) cls)) i j <->
  j = i /\ exists p c, i <= p /\ s !! p = Some c /\ atomAccepts cls c = true /\
    forall n x, i <= n < p -> s !! n = Some x -> isLineTerminator x = false.
Proof.
  intros Hcls. split.
  - intros HM. apply Match_lookahead_inv in HM as [-> (k & HM)].
    split; [reflexivity|].
    apply Match_seq_inv in HM as (p & Hdots & Hc).
    apply Match_atomic_inv in Hc as [-> (c & Hc & Hacc)]; [|exact Hcls].
    apply Match_repeat_atomic_inv in Hdots as (Hle & _ & _ & Hall); [|exact I].
    exists p, c. repeat split; try assumption.
    intros n x Hn Hx. destruct (Hall n Hn) as (x' & Hx' & Hacc').
    rewrite Hx in Hx'. injection Hx' as <-. simpl in Hacc'.
    apply negb_true_iff in Hacc'. exact Hacc'.
  - intros [-> (p & c & Hle & Hc & Hacc & Hall)].
    apply MLookahead with (S p). apply MSeq with p; [|econstructor; eauto].
    replace p with (i + (p - i)) at 1 by lia.
    apply Match_repeat_atomic_intro; [lia | discriminate |].
    intros n Hn. apply lookup_lt_Some in Hc as Hlt.
    destruct (lookup_lt_is_Some_2 s n) as [x Hx]; [lia|].
    exists x. split; [exact Hx|]. simpl. apply negb_true_iff.
    apply (Hall n x); [lia | exact Hx].
Qed.

(** The password pattern in words: from some position, a letter and a digit
    can both be reached without crossing a line terminator. *)
Lemma password_matches :
  matches passwordRegex s <->
  exists i p q c d,
    i <= p /\ i <= q /\ s !! p = Some c /\ isLetter c = true /\
    s !! q = Some d /\ isDigit d = true /\
    forall n x, i <= n -> n < p \/ n < q -> s !! n = Some x ->
                isLineTerminator x = false.
Proof.
  unfold matches, passwordRegex. split.
  - intros (i & j & _ & HM). apply Match_seq_inv in HM as (j' & H1 & H2).
    apply lookahead_dotstar in H1 as [-> (p & c & Hp & Hc & Hca & Hpall)]; [|exact I].
    apply lookahead_dotstar in H2 as [-> (q & d & Hq & Hd & Hda & Hqall)]; [|exact I].
    rewrite letterClass_accepts in Hca. rewrite digitClass_accepts in Hda.
    exists i, p, q, c, d. repeat split; try assumption.
    intros n x Hn [Hlt|Hlt] Hx; [eapply Hpall | eapply Hqall]; eauto; lia.
  - intros (i & p & q & c & d & Hp & Hq & Hc & Hca & Hd & Hda & Hall).
    exists i, i. split.
    { apply lookup_lt_Some in Hc. lia. }
    apply MSeq with i; apply lookahead_dotstar; try exact I;
      (split; [reflexivity|]).
    + exists p, c. rewrite letterClass_accepts. repeat split; try assumption.
      intros n x Hn Hx. apply (Hall n x); [lia | lia | exact Hx].
    + exists q, d. rewrite digitClass_accepts. repeat split; try assumption.
      intros n x Hn Hx. apply (Hall n x); [lia | lia | exact Hx].
Qed.

Lemma password_matches_sound :
  matches passwordRegex s ->
  Exists (fun c => isLetter c = true) s /\ Exists (fun c => isDigit c = true) s.
Proof.
  intros H. apply password_matches in H
    as (i & p & q & c & d & _ & _ & Hc & Hca & Hd & Hda & _).
  split; apply Exists_exists; [exists c | exists d];
    (split; [eapply list_elem_of_lookup_2; eauto | assumption]).
Qed.

Lemma password_matches_complete :
  Forall (fun c => isLineTerminator c = false) s ->
  Exists (fun c => isLetter c = true) s -> Exists (fun c => isDigit c = true) s ->
  matches passwordRegex s.
Proof.
  intros Hlt Hl Hd. apply password_matches.
  apply Exists_exists in Hl as (c & Hc & Hca).
  apply Exists_exists in Hd as (d & Hd & Hda).
  apply list_elem_of_lookup in Hc as [p Hp]. apply list_elem_of_lookup in Hd as [q Hq].
  exists 0, p, q, c, d. repeat split; try assumption; try lia.
  intros n x _ _ Hx. eapply Forall_lookup in Hlt; eauto.
Qed.
End PasswordPattern.

(** ** The validators called without an error element *)

Lemma validateUsername_result s st :
  validateUsername (AString s) None st = (st, Normal (test usernameRegex s)).
Proof.
  unfold validateUsername. destruct s as [|c s]; [reflexivity|].
  cbn [truthy negb]. destruct (test usernameRegex (c :: s)); reflexivity.
Qed.

Lemma validateEmail_result s st :
  validateEmail (AString s) None st = (st, Normal (test emailRegex s)).
Proof.
  unfold validateEmail. destruct s as [|c s]; [reflexivity|].
  cbn [truthy negb]. destruct (test emailRegex (c :: s)); reflexivity.
Qed.

Lemma validatePassword_result s st :
  validatePassword (AString s) None st
  = (st, Normal (negb (length s <? 8) && test passwordRegex s)).
Proof.
  unfold validatePassword. destruct s as [|c s]; [reflexivity|].
  cbn [truthy negb]. destruct (length (c :: s) <? 8); [reflexivity|].
  destruct (test passwordRegex (c :: s)); reflexivity.
Qed.

(** C1: called with a string and no error element, [validateUsername]
    leaves the page alone and returns [true] exactly when the string matches
    [^[a-zA-Z0-9_]{3,20}$], that is when it has three to twenty characters,
    all of them letters, digits or underscores; it returns [true] for
    "john123" and [false] for "ab" and for "user@name". *)
Theorem validateUsername_matches_pattern :
  (forall (s : jsstring) (st : State),
     exists b : bool,
       validateUsername (AString s) None st = (st, Normal b) /\
       (b = true <-> matches usernameRegex s) /\
       (b = true <-> usernamePattern s)) /\
  (forall st, validateUsername (AString (js "john123")) None st = (st, Normal true)) /\
  (forall st, validateUsername (AString (js "ab")) None st = (st, Normal false)) /\
  (forall st, validateUsername (AString (js "user@name")) None st = (st, Normal false)).
Proof.
  split; [|split; [|split]; intros st; rewrite validateUsername_result; reflexivity].
  intros s st. exists (test usernameRegex s).
  split; [apply validateUsername_result|].
  split; [apply test_spec|].
  rewrite test_spec. apply username_matches.
Qed.

(** C3: called with a string and no error element, [validateEmail] leaves
    the page alone and returns [true] exactly when the string matches
    [^[^\s@]+@[^\s@]+\.[^\s@]+$]; it returns [true] for "user@example.com"
    and [false] for "invalid.email" and for "@domain.com". *)
Theorem validateEmail_matches_pattern :
  (forall (s : jsstring) (st : State),
     exists b : bool,
       validateEmail (AString s) None st = (st, Normal b) /\
       (b = true <-> matches emailRegex s) /\
       (b = true <-> emailPattern s)) /\
  (forall st, validateEmail (AString (js "user@example.com")) None st
              = (st, Normal true)) /\
  (forall st, validateEmail (AString (js "invalid.email")) None st
              = (st, Normal false)) /\
  (forall st, validateEmail (AString (js "@domain.com")) None st = (st, Normal false)).
Proof.
  split; [|split; [|split]; intros st; rewrite validateEmail_result; reflexivity].
  intros s st. exists (test emailRegex s).
  split; [apply validateEmail_result|].
  split; [apply test_spec|].
  rewrite test_spec. apply email_matches.
Qed.

(** A password that [validatePassword] accepts obeys the password rule. *)
Lemma validatePassword_sound s st st' :
  validatePassword (AString s) None st = (st', Normal true) -> passwordRule s.
Proof.
  rewrite validatePassword_result. intros [= _ H].
  apply andb_true_iff in H as [Hlen Ht]. apply negb_true_iff, Nat.ltb_ge in Hlen.
  apply test_spec, password_matches_sound in Ht. split; [exact Hlen | exact Ht].
Qed.

(** A password without line terminators that obeys the rule is accepted. *)
Lemma validatePassword_complete_one_line s st :
  Forall (fun c => isLineTerminator c = false) s -> passwordRule s ->
  validatePassword (AString s) None st = (st, Normal true).
Proof.
  intros Hlt (Hlen & Hl & Hd). rewrite validatePassword_result.
  apply Nat.ltb_ge in Hlen. rewrite Hlen.
  pose proof (password_matches_complete s Hlt Hl Hd) as H.
  apply test_spec in H. rewrite H. reflexivity.
Qed.

(** The four passwords of the self-check harness. *)
Lemma validatePassword_examples st :
  validatePassword (AString (js "password123")) None st = (st, Normal true) /\
  validatePassword (AString (js "short")) None st = (st, Normal false) /\
  validatePassword (AString (js "onlyletters")) None st = (st, Normal false) /\
  validatePassword (AString (js "12345678")) None st = (st, Normal false).
Proof. split; [|split; [|split]]; rewrite validatePassword_result; reflexivity. Qed.

(** C2 fails on the code: [twoLinePassword] has seventeen characters, a
    letter and a digit, and [validatePassword] rejects it, because the [.]
    of the pattern [(?=.*[a-zA-Z])(?=.*[0-9])] does not cross a line
    terminator; the same holds with a line feed in the middle. *)
Theorem validatePassword_rejects_two_lines :
  passwordRule twoLinePassword /\
  (forall st, validatePassword (AString twoLinePassword) None st = (st, Normal false)) /\
  passwordRule twoLinePasswordLF /\
  (forall st, validatePassword (AString twoLinePasswordLF) None st
              = (st, Normal false)).
Proof.
  assert (forall mid, passwordRule (js "abcdefgh" ++ [mid] ++ js "12345678")) as Hrule.
  { intros mid. split; [vm_compute; lia|]. split.
    - apply Exists_cons_hd. reflexivity.
    - apply Exists_app. right. apply Exists_cons_tl, Exists_cons_hd. reflexivity. }
  split; [apply Hrule|]. split.
  - intros st. rewrite validatePassword_result. reflexivity.
  - split; [apply Hrule|]. intros st. rewrite validatePassword_result. reflexivity.
Qed.

(** ** Field-error display *)

Lemma element_eta el :
  {| textContent := textContent el; value := value el; checked := checked el;
     disabled := disabled el; classList := classList el;
     descendants := descendants el; childNodes := childNodes el |} = el.
Proof. destruct el; reflexivity. Qed.

Lemma state_eta st :
  {| document := document st; localStorage := localStorage st;
     location_href := location_href st; timeouts := timeouts st;
     nextNode := nextNode st |} = st.
Proof. destruct st; reflexivity. Qed.

Lemma setDocument_id st d : d = document st -> setDocument d st = st.
Proof. intros ->. apply state_eta. Qed.

Lemma clearFieldError_cleared id st el :
  document st !! id = Some el -> textContent el = [] ->
  descendants el = [] -> childNodes el = [] -> js "show" ∉ classList el ->
  clearFieldError id st = (st, Normal tt).
Proof.
  intros Hel Htext Hds Hcn Hshow. unfold clearFieldError. rewrite Hel. f_equal.
  apply setDocument_id. apply insert_id. rewrite Hel. f_equal.
  destruct el as [t v c d cl ds cn]. cbn in *. subst t ds cn.
  unfold withClassList, withTextContent, classList_remove. cbn. f_equal.
  symmetry. apply difference_disjoint_L. set_solver.
Qed.

Lemma clearFieldError_twice id st :
  (let* _ := clearFieldError id in clearFieldError id) st = clearFieldError id st.
Proof.
  unfold bind, clearFieldError. destruct (document st !! id) as [el|] eqn:Hel.
  - cbn. rewrite lookup_insert_eq. f_equal. unfold setDocument. cbn. f_equal.
    rewrite insert_insert_eq. f_equal.
    unfold withClassList, withTextContent, classList_remove. cbn. f_equal. set_solver.
  - rewrite Hel. reflexivity.
Qed.

Lemma showFieldError_twice id message st :
  (let* _ := showFieldError id message in showFieldError id message) st
  = showFieldError id message st.
Proof.
  unfold bind, showFieldError. destruct (document st !! id) as [el|] eqn:Hel.
  - cbn. rewrite lookup_insert_eq. f_equal. unfold setDocument. cbn. f_equal.
    rewrite insert_insert_eq. f_equal.
    unfold withClassList, withTextContent, classList_add. cbn. f_equal. set_solver.
  - rewrite Hel. reflexivity.
Qed.

Lemma showFieldError_shown id message st el :
  document st !! id = Some el ->
  shownError id (fst (showFieldError id message st)) = Some message.
Proof.
  intros Hel. unfold showFieldError, shownError. rewrite Hel. cbn.
  rewrite lookup_insert_eq. cbn. rewrite bool_decide_eq_true_2; [reflexivity|].
  unfold classList_add. set_solver.
Qed.

Lemma clearFieldError_shown id st : shownError id (fst (clearFieldError id st)) = None.
Proof.
  unfold clearFieldError, shownError. destruct (document st !! id) as [el|] eqn:Hel.
  - cbn. rewrite lookup_insert_eq. cbn. rewrite bool_decide_eq_false_2; [reflexivity|].
    unfold classList_remove. set_solver.
  - cbn. rewrite Hel. reflexivity.
Qed.

(** An element with empty text and without the [show] token that has a
    child: [clearFieldError] assigns the empty string to its [textContent],
    which removes the child, so the element is not left as it was. *)
Lemma clearFieldError_drops_children :
  document iconErrorPage !! js "loginUsernameError" = Some iconError /\
  textContent iconError = [] /\
  (js "show" ∉ classList iconError) /\
  document (fst (clearFieldError (js "loginUsernameError") iconErrorPage))
    !! js "loginUsernameError" = Some blank /\
  blank ≠ iconError /\
  clearFieldError (js "loginUsernameError") iconErrorPage ≠ (iconErrorPage, Normal tt).
Proof.
  split; [vm_compute; reflexivity|]. split; [reflexivity|].
  split; [vm_compute; set_solver|]. split; [vm_compute; reflexivity|].
  split.
  - intros H. apply (f_equal descendants) in H. vm_compute in H. discriminate.
  - intros H.
    apply (f_equal (fun r => descendants <$>
                               document (fst r) !! js "loginUsernameError")) in H.
    vm_compute in H. discriminate.
Qed.

(** C8: clearing the error of an element that shows none (empty text, no
    child, no [show] token) leaves the whole page as it is; clearing twice
    leaves any page as clearing once does; and showing the same message
    twice leaves the page as showing it once does, with the element
    carrying that one message and the [show] token. *)
Theorem fieldError_idempotent (st : State) (id message : jsstring) :
  (forall el, document st !! id = Some el -> textContent el = [] ->
              descendants el = [] -> childNodes el = [] ->
              js "show" ∉ classList el ->
              clearFieldError id st = (st, Normal tt)) /\
  (let* _ := clearFieldError id in clearFieldError id) st = clearFieldError id st /\
  (let* _ := showFieldError id message in showFieldError id message) st
  = showFieldError id message st /\
  (forall el, document st !! id = Some el ->
     exists el',
       document (fst (showFieldError id message st)) !! id = Some el' /\
       textContent el' = message /\ js "show" ∈ classList el' /\
       shownError id (fst (showFieldError id message st)) = Some message).
Proof.
  split; [|split; [|split]].
  - intros el. apply clearFieldError_cleared.
  - apply clearFieldError_twice.
  - apply showFieldError_twice.
  - intros el Hel. pose proof (showFieldError_shown id message st el Hel) as Hs.
    unfold showFieldError in *. rewrite Hel in *. cbn in *.
    rewrite lookup_insert_eq in *. eexists. split; [reflexivity|]. cbn.
    split; [reflexivity|]. split; [unfold classList_add; set_solver | exact Hs].
Qed.

(** C9: each validator's first textual definition and its second one are
    the same function: same result and same effect on the page for every
    argument, error-element id and page. *)
Theorem duplicate_definitions_agree :
  (forall a eid st, Earlier.validateUsername a eid st = validateUsername a eid st) /\
  (forall a eid st, Earlier.validateEmail a eid st = validateEmail a eid st) /\
  (forall a eid st, Earlier.validatePassword a eid st = validatePassword a eid st) /\
  (forall e st, Earlier.validatePasswordConfirm e st = validatePasswordConfirm e st).
Proof. split; [|split; [|split]]; reflexivity. Qed.

(** ** What the validators change on the page *)

Lemma touches_refl ids st : touches ids st st.
Proof. repeat split. Qed.

Lemma touches_trans ids a b c : touches ids a b -> touches ids b c -> touches ids a c.
Proof.
  intros (H1 & H2 & H3 & H4 & H5) (G1 & G2 & G3 & G4 & G5).
  repeat split; try congruence. intros id Hid. rewrite G5, H5; auto.
Qed.

Lemma touches_mono ids ids' a b : ids ⊆ ids' -> touches ids a b -> touches ids' a b.
Proof.
  intros Hsub (H1 & H2 & H3 & H4 & H5). repeat split; try assumption.
  intros id Hid. apply H5. intros Hin. apply Hid, Hsub, Hin.
Qed.

Lemma touches_insert id el st :
  touches [id] st (setDocument (<[id := el]> (document st)) st).
Proof.
  repeat split. intros id' Hid. cbn. apply lookup_insert_ne.
  intros ->. apply Hid. left.
Qed.

Lemma showFieldError_touches id message st :
  exists st', showFieldError id message st = (st', Normal tt) /\ touches [id] st st'.
Proof.
  unfold showFieldError. destruct (document st !! id); eexists; (split; [reflexivity|]);
    [apply touches_insert | apply touches_refl].
Qed.

Lemma clearFieldError_touches id st :
  exists st', clearFieldError id st = (st', Normal tt) /\ touches [id] st st'.
Proof.
  unfold clearFieldError. destruct (document st !! id); eexists; (split; [reflexivity|]);
    [apply touches_insert | apply touches_refl].
Qed.

Lemma ifId_show_touches eid message st :
  exists st',
    ifId eid (fun id => showFieldError id message) st = (st', Normal tt) /\
    touches (idOf eid) st st'.
Proof.
  unfold ifId, idOf. destruct eid as [id|]; [destruct (truthy id)|];
    try (eexists; split; [reflexivity | apply touches_refl]).
  apply showFieldError_touches.
Qed.

Lemma ifId_clear_touches eid st :
  exists st',
    ifId eid clearFieldError st = (st', Normal tt) /\ touches (idOf eid) st st'.
Proof.
  unfold ifId, idOf. destruct eid as [id|]; [destruct (truthy id)|];
    try (eexists; split; [reflexivity | apply touches_refl]).
  apply clearFieldError_touches.
Qed.

(** Runs one error-display statement of a [bind] chain. *)
Ltac display_step L :=
  let st' := fresh "st" in
  let E := fresh "E" in
  let T := fresh "T" in
  destruct L as (st' & E & T); unfold bind, ret; rewrite E; cbv beta iota.

(** Chains the [touches] facts of the steps run so far. *)
Ltac touches_chain :=
  match goal with
  | |- touches _ ?a ?a => apply touches_refl
  | T : touches ?ids ?a ?b |- touches ?ids' ?a ?c =>
      apply touches_trans with b;
      [apply (touches_mono ids ids' a b); [set_solver | exact T] | touches_chain]
  end.

Lemma validateUsername_string s eid st :
  exists st',
    validateUsername (AString s) eid st = (st', Normal (test usernameRegex s)) /\
    touches (idOf eid) st st'.
Proof.
  unfold validateUsername. destruct s as [|c s].
  - cbn [truthy negb]. display_step (ifId_show_touches eid (js "Username is required") st).
    eexists; split; [reflexivity | assumption].
  - cbn [truthy negb]. destruct (test usernameRegex (c :: s)); cbn [negb].
    + display_step (ifId_clear_touches eid st). eexists; split; [reflexivity | assumption].
    + display_step (ifId_show_touches eid
        (js "Username must be 3-20 characters, letters, numbers, and underscores only") st).
      eexists; split; [reflexivity | assumption].
Qed.

Lemma validateEmail_string s eid st :
  exists st',
    validateEmail (AString s) eid st = (st', Normal (test emailRegex s)) /\
    touches (idOf eid) st st'.
Proof.
  unfold validateEmail. destruct s as [|c s].
  - cbn [truthy negb]. display_step (ifId_show_touches eid (js "Email is required") st).
    eexists; split; [reflexivity | assumption].
  - cbn [truthy negb]. destruct (test emailRegex (c :: s)); cbn [negb].
    + display_step (ifId_clear_touches eid st). eexists; split; [reflexivity | assumption].
    + display_step (ifId_show_touches eid (js "Please enter a valid email address") st).
      eexists; split; [reflexivity | assumption].
Qed.

Lemma validatePassword_string s eid st :
  exists st',
    validatePassword (AString s) eid st
    = (st', Normal (negb (length s <? 8) && test passwordRegex s)) /\
    touches (idOf eid) st st'.
Proof.
  unfold validatePassword. destruct s as [|c s].
  - cbn [truthy negb]. display_step (ifId_show_touches eid (js "Password is required") st).
    eexists; split; [reflexivity | assumption].
  - cbn [truthy negb]. destruct (length (c :: s) <? 8); cbn [negb andb].
    + display_step (ifId_show_touches eid
        (js "Password must be at least 8 characters long") st).
      eexists; split; [reflexivity | assumption].
    + destruct (test passwordRegex (c :: s)); cbn [negb].
      * display_step (ifId_clear_touches eid st).
        eexists; split; [reflexivity | assumption].
      * display_step (ifId_show_touches eid
          (js "Password must contain both letters and numbers") st).
        eexists; split; [reflexivity | assumption].
Qed.

Lemma validateLoginForm_result username password st :
  exists st',
    validateLoginForm username password st
    = (st', Normal (truthy username && truthy password)) /\
    touches loginErrorIds st st'.
Proof.
  unfold validateLoginForm, loginErrorIds.
  destruct username as [|c u], password as [|d p]; cbn [truthy negb andb].
  - display_step (showFieldError_touches (js "loginUsernameError")
                    (js "Username is required") st).
    display_step (showFieldError_touches (js "loginPasswordError")
                    (js "Password is required") st0).
    eexists; split; [reflexivity | touches_chain].
  - display_step (showFieldError_touches (js "loginUsernameError")
                    (js "Username is required") st).
    display_step (clearFieldError_touches (js "loginPasswordError") st0).
    eexists; split; [reflexivity | touches_chain].
  - display_step (clearFieldError_touches (js "loginUsernameError") st).
    display_step (showFieldError_touches (js "loginPasswordError")
                    (js "Password is required") st0).
    eexists; split; [reflexivity | touches_chain].
  - display_step (clearFieldError_touches (js "loginUsernameError") st).
    display_step (clearFieldError_touches (js "loginPasswordError") st0).
    eexists; split; [reflexivity | touches_chain].
Qed.

(** C10: [validateLoginForm] returns [true] exactly when the username and
    the password are both non-empty; "ab" with "short" passes although
    [validateUsername] rejects "ab" and [validatePassword] rejects "short". *)
Theorem validateLoginForm_nonempty :
  (forall (username password : jsstring) (st : State),
     exists (st' : State) (b : bool),
       validateLoginForm username password st = (st', Normal b) /\
       (b = true <-> username ≠ [] /\ password ≠ [])) /\
  (forall st, snd (validateLoginForm (js "ab") (js "short") st) = Normal true) /\
  (forall st, snd (validateUsername (AString (js "ab")) None st) = Normal false) /\
  (forall st, snd (validatePassword (AString (js "short")) None st) = Normal false).
Proof.
  split; [|split; [|split]].
  - intros username password st.
    destruct (validateLoginForm_result username password st) as (st' & E & _).
    exists st', (truthy username && truthy password). split; [exact E|].
    destruct username, password; cbn; intuition congruence.
  - intros st.
    destruct (validateLoginForm_result (js "ab") (js "short") st) as (st' & E & _).
    rewrite E. reflexivity.
  - intros st. rewrite validateUsername_result. reflexivity.
  - intros st. rewrite validatePassword_result. reflexivity.
Qed.

Lemma validateRegistrationForm_result formData st :
  exists st',
    validateRegistrationForm formData st = (st', Normal (registrationValid formData)) /\
    touches registrationErrorIds st st'.
Proof.
  unfold validateRegistrationForm, registrationValid, registrationErrorIds.
  display_step (validateUsername_string (fd_username formData)
                  (Some (js "registerUsernameError")) st).
  display_step (validateEmail_string (fd_email formData)
                  (Some (js "registerEmailError")) st0).
  display_step (validatePassword_string (fd_password formData)
                  (Some (js "registerPasswordError")) st1).
  change (idOf (Some (js "registerUsernameError"))) with [js "registerUsernameError"] in *.
  change (idOf (Some (js "registerEmailError"))) with [js "registerEmailError"] in *.
  change (idOf (Some (js "registerPasswordError"))) with [js "registerPasswordError"] in *.
  destruct (bool_decide (fd_password formData = fd_confirmPassword formData));
    cbn [negb].
  - display_step (clearFieldError_touches (js "confirmPasswordError") st2).
    destruct (fd_acceptTerms formData); cbn [negb].
    + display_step (clearFieldError_touches (js "termsError") st3).
      exists st4; split; [|touches_chain]. f_equal. f_equal.
      destruct (test usernameRegex _), (test emailRegex _),
        (negb _ && test passwordRegex _); reflexivity.
    + display_step (showFieldError_touches (js "termsError")
                      (js "You must accept the terms to continue") st3).
      exists st4; split; [|touches_chain]. f_equal. f_equal.
      rewrite andb_false_r. reflexivity.
  - display_step (showFieldError_touches (js "confirmPasswordError")
                    (js "Passwords do not match") st2).
    destruct (fd_acceptTerms formData); cbn [negb].
    + display_step (clearFieldError_touches (js "termsError") st3).
      exists st4; split; [|touches_chain]. f_equal. f_equal.
      rewrite andb_false_r. reflexivity.
    + display_step (showFieldError_touches (js "termsError")
                      (js "You must accept the terms to continue") st3).
      exists st4; split; [|touches_chain]. f_equal. f_equal.
      rewrite andb_false_r. reflexivity.
Qed.

(** ** A submission whose validation fails *)

(** Decides that a literal id is none of a list of literal ids. *)
Ltac id_notin := apply (bool_decide_unpack _); vm_compute; exact I.

Lemma touches_quiet ids buttonId st st' :
  touches ids st st' -> buttonId ∉ ids -> js "notificationContainer" ∉ ids ->
  quiet buttonId st st'.
Proof.
  intros (H1 & H2 & H3 & H4 & H5) Hb Hn. unfold quiet, formState.
  rewrite (H5 _ Hb), (H5 _ Hn). repeat split; assumption.
Qed.

Lemma getValue_pure id st st' v : getValue id st = (st', Normal v) -> st' = st.
Proof. unfold getValue. destruct (document st !! id); congruence. Qed.

Lemma handleLogin_invalid st username password rememberMe st' :
  readLoginForm st = (st, Normal (username, password, rememberMe)) ->
  validateLoginForm username password st = (st', Normal false) ->
  handleLogin st = (st', Normal Returned) /\ quiet (js "loginBtn") st st'.
Proof.
  intros Hread Hval. split.
  - unfold handleLogin, bind. rewrite Hread. cbv beta iota. rewrite Hval. reflexivity.
  - destruct (validateLoginForm_result username password st) as (st0 & E & T).
    rewrite E in Hval. injection Hval as <- _.
    apply (touches_quiet loginErrorIds); [exact T | id_notin | id_notin].
Qed.

Lemma handleRegister_invalid st formData st' :
  readRegistrationForm st = (st, Normal formData) ->
  validateRegistrationForm formData st = (st', Normal false) ->
  handleRegister st = (st', Normal Returned) /\ quiet (js "registerBtn") st st'.
Proof.
  intros Hread Hval. split.
  - unfold handleRegister, bind. rewrite Hread. cbv beta iota. rewrite Hval. reflexivity.
  - destruct (validateRegistrationForm_result formData st) as (st0 & E & T).
    rewrite E in Hval. injection Hval as <- _.
    apply (touches_quiet registrationErrorIds); [exact T | id_notin | id_notin].
Qed.

Lemma handleForgotPassword_invalid st email st' :
  getValue (js "forgotEmail") st = (st, Normal email) ->
  validateEmail (AString (trim email)) (Some (js "forgotEmailError")) st
  = (st', Normal false) ->
  handleForgotPassword st = (st', Normal Returned) /\ quiet (js "forgotBtn") st st'.
Proof.
  intros Hread Hval. split.
  - unfold handleForgotPassword, bind. rewrite Hread. cbv beta iota. rewrite Hval.
    reflexivity.
  - destruct (validateEmail_string (trim email) (Some (js "forgotEmailError")) st)
      as (st0 & E & T).
    rewrite E in Hval. injection Hval as <- _.
    apply (touches_quiet (idOf (Some (js "forgotEmailError")))); [exact T | id_notin | id_notin].
Qed.

(** C5: in each of the three submit handlers, when the validation of what
    the form holds fails, the handler has returned when it gives control
    back (it does not wait for a simulated call), and the page after it
    differs from the page before it only in the error elements: no timer
    was started, no notification was created, the submit button and hence
    the form's state (idle or submitting) are as before. *)
Theorem invalid_submission_stays_idle :
  (forall st username password rememberMe st',
     readLoginForm st = (st, Normal (username, password, rememberMe)) ->
     validateLoginForm username password st = (st', Normal false) ->
     handleLogin st = (st', Normal Returned) /\ quiet (js "loginBtn") st st') /\
  (forall st formData st',
     readRegistrationForm st = (st, Normal formData) ->
     validateRegistrationForm formData st = (st', Normal false) ->
     handleRegister st = (st', Normal Returned) /\ quiet (js "registerBtn") st st') /\
  (forall st email st',
     getValue (js "forgotEmail") st = (st, Normal email) ->
     validateEmail (AString (trim email)) (Some (js "forgotEmailError")) st
     = (st', Normal false) ->
     handleForgotPassword st = (st', Normal Returned) /\
     quiet (js "forgotBtn") st st').
Proof.
  split; [|split].
  - apply handleLogin_invalid.
  - apply handleRegister_invalid.
  - apply handleForgotPassword_invalid.
Qed.

(** ** The confirm-password check *)

Lemma showFieldError_shows id message st el :
  document st !! id = Some el ->
  exists st', showFieldError id message st = (st', Normal tt) /\
              touches [id] st st' /\ fieldErrorShown id message st'.
Proof.
  intros Hel. destruct (showFieldError_touches id message st) as (st' & E & T).
  exists st'. split; [exact E|]. split; [exact T|].
  unfold showFieldError in E. rewrite Hel in E. injection E as <-.
  eexists. cbn. rewrite lookup_insert_eq. split; [reflexivity|]. cbn.
  split; [reflexivity|]. unfold classList_add. set_solver.
Qed.

Lemma clearFieldError_clears id st el :
  document st !! id = Some el ->
  exists st', clearFieldError id st = (st', Normal tt) /\
              touches [id] st st' /\ fieldErrorCleared id st'.
Proof.
  intros Hel. destruct (clearFieldError_touches id st) as (st' & E & T).
  exists st'. split; [exact E|]. split; [exact T|].
  unfold clearFieldError in E. rewrite Hel in E. injection E as <-.
  eexists. cbn. rewrite lookup_insert_eq. split; [reflexivity|]. cbn.
  split; [reflexivity|]. unfold classList_remove. set_solver.
Qed.

Lemma fieldErrorCleared_touches ids id st st' :
  touches ids st st' -> id ∉ ids -> fieldErrorCleared id st -> fieldErrorCleared id st'.
Proof.
  intros (_ & _ & _ & _ & H) Hid (el & Hel & Hc). exists el.
  rewrite (H _ Hid). split; assumption.
Qed.

Lemma fieldErrorShown_touches ids id message st st' :
  touches ids st st' -> id ∉ ids -> fieldErrorShown id message st ->
  fieldErrorShown id message st'.
Proof.
  intros (_ & _ & _ & _ & H) Hid (el & Hel & Hc). exists el.
  rewrite (H _ Hid). split; assumption.
Qed.

Lemma validatePasswordConfirm_equal st el pel confirm :
  document st !! js "confirmPasswordError" = Some el ->
  document st !! js "registerPassword" = Some pel ->
  confirm = value pel ->
  fieldErrorCleared (js "confirmPasswordError")
    (fst (validatePasswordConfirm (AEvent confirm) st)).
Proof.
  intros Hel Hpel ->. unfold validatePasswordConfirm, bind, getValue.
  rewrite Hpel. cbv beta iota. rewrite bool_decide_eq_true_2 by reflexivity.
  rewrite andb_false_r.
  destruct (clearFieldError_clears _ st el Hel) as (st' & E & _ & Hc).
  rewrite E. exact Hc.
Qed.

Lemma validatePasswordConfirm_unequal st el pel confirm :
  document st !! js "confirmPasswordError" = Some el ->
  document st !! js "registerPassword" = Some pel ->
  confirm ≠ [] -> confirm ≠ value pel ->
  fieldErrorShown (js "confirmPasswordError") (js "Passwords do not match")
    (fst (validatePasswordConfirm (AEvent confirm) st)).
Proof.
  intros Hel Hpel Hne Hneq. unfold validatePasswordConfirm, bind, getValue.
  rewrite Hpel. cbv beta iota. rewrite bool_decide_eq_false_2 by congruence.
  destruct confirm as [|c confirm]; [congruence|]. cbn [truthy negb andb].
  destruct (showFieldError_shows _ (js "Passwords do not match") st el Hel)
    as (st' & E & _ & Hs).
  rewrite E. exact Hs.
Qed.

Lemma validateRegistrationForm_confirm formData st el :
  document st !! js "confirmPasswordError" = Some el ->
  (fd_confirmPassword formData = fd_password formData ->
   fieldErrorCleared (js "confirmPasswordError")
     (fst (validateRegistrationForm formData st))) /\
  (fd_confirmPassword formData ≠ fd_password formData ->
   fieldErrorShown (js "confirmPasswordError") (js "Passwords do not match")
     (fst (validateRegistrationForm formData st))).
Proof.
  intros Hel. unfold validateRegistrationForm.
  display_step (validateUsername_string (fd_username formData)
                  (Some (js "registerUsernameError")) st).
  display_step (validateEmail_string (fd_email formData)
                  (Some (js "registerEmailError")) st0).
  display_step (validatePassword_string (fd_password formData)
                  (Some (js "registerPasswordError")) st1).
  assert (document st2 !! js "confirmPasswordError" = Some el) as Hel2.
  { destruct T as (_ & _ & _ & _ & T), T0 as (_ & _ & _ & _ & T0),
      T1 as (_ & _ & _ & _ & T1).
    rewrite T1, T0, T by id_notin. exact Hel. }
  split; intros Hc.
  - rewrite bool_decide_eq_true_2 by congruence. cbn [negb].
    destruct (clearFieldError_clears _ st2 el Hel2) as (st3 & E2 & _ & Hcl).
    unfold bind. rewrite E2. cbv beta iota.
    destruct (fd_acceptTerms formData); cbn [negb];
      [display_step (clearFieldError_touches (js "termsError") st3)
      |display_step (showFieldError_touches (js "termsError")
                       (js "You must accept the terms to continue") st3)];
      cbn [fst];
      match goal with
      | T : touches _ st3 ?s |- _ =>
          apply (fieldErrorCleared_touches _ _ st3 s T); [id_notin | exact Hcl]
      end.
  - rewrite bool_decide_eq_false_2 by congruence. cbn [negb].
    destruct (showFieldError_shows _ (js "Passwords do not match") st2 el Hel2)
      as (st3 & E2 & _ & Hsh).
    unfold bind. rewrite E2. cbv beta iota.
    destruct (fd_acceptTerms formData); cbn [negb];
      [display_step (clearFieldError_touches (js "termsError") st3)
      |display_step (showFieldError_touches (js "termsError")
                       (js "You must accept the terms to continue") st3)];
      cbn [fst];
      match goal with
      | T : touches _ st3 ?s |- _ =>
          apply (fieldErrorShown_touches _ _ _ st3 s T); [id_notin | exact Hsh]
      end.
Qed.

(** C7: on a page with the confirm-password error element, the check
    leaves that element without an error when the confirmation equals the
    password, and leaves it showing "Passwords do not match" when the
    confirmation is non-empty and differs from the password, both in
    [validatePasswordConfirm] (against the value of the password field) and
    in [validateRegistrationForm] (against the password of the form data). *)
Theorem confirmPassword_check (st : State) (el : Element)
  (Hel : document st !! js "confirmPasswordError" = Some el) :
  (forall pel confirm,
     document st !! js "registerPassword" = Some pel ->
     (confirm = value pel ->
      fieldErrorCleared (js "confirmPasswordError")
        (fst (validatePasswordConfirm (AEvent confirm) st))) /\
     (confirm ≠ [] -> confirm ≠ value pel ->
      fieldErrorShown (js "confirmPasswordError") (js "Passwords do not match")
        (fst (validatePasswordConfirm (AEvent confirm) st)))) /\
  (forall formData,
     (fd_confirmPassword formData = fd_password formData ->
      fieldErrorCleared (js "confirmPasswordError")
        (fst (validateRegistrationForm formData st))) /\
     (fd_confirmPassword formData ≠ [] ->
      fd_confirmPassword formData ≠ fd_password formData ->
      fieldErrorShown (js "confirmPasswordError") (js "Passwords do not match")
        (fst (validateRegistrationForm formData st)))).
Proof.
  split.
  - intros pel confirm Hpel. split.
    + eapply validatePasswordConfirm_equal; eauto.
    + eapply validatePasswordConfirm_unequal; eauto.
  - intros formData.
    destruct (validateRegistrationForm_confirm formData st el Hel) as [H1 H2].
    split; [exact H1 | intros _; exact H2].
Qed.

(** ** The loading state of a submit button *)

Lemma find_alter {A} (P : A -> Prop) `{forall x, Decision (P x)} (f : A -> A) l :
  (forall x, P (f x) <-> P x) ->
  forall i, fst <$> list_find P (alter f i l) = fst <$> list_find P l.
Proof.
  intros Hf. induction l as [|x l IH]; intros i; [reflexivity|].
  destruct i as [|i]; cbn.
  - destruct (decide (P (f x))), (decide (P x)); try reflexivity; exfalso; naive_solver.
  - destruct (decide (P x)); [reflexivity|].
    specialize (IH i).
    destruct (list_find P (alter f i l)) as [[n1 a1]|], (list_find P l) as [[n2 a2]|];
      cbn in *; congruence.
Qed.

Lemma querySelector_alter cls f i el :
  (forall c : gset jsstring, cls ∈ f c <-> cls ∈ c) ->
  querySelector cls (withDescendants (alter f i (descendants el)) el)
  = querySelector cls el.
Proof. intros Hf. unfold querySelector. cbn. apply find_alter. exact Hf. Qed.

Lemma classList_add_other (cls tok : jsstring) (c : gset jsstring) :
  cls ≠ tok -> cls ∈ classList_add tok c <-> cls ∈ c.
Proof. unfold classList_add. set_solver. Qed.

Lemma classList_remove_other (cls tok : jsstring) (c : gset jsstring) :
  cls ≠ tok -> cls ∈ classList_remove tok c <-> cls ∈ c.
Proof. unfold classList_remove. set_solver. Qed.

(** Decides that two literal strings differ. *)
Ltac js_neq := apply (bool_decide_unpack _); vm_compute; exact I.

Lemma setLoadingState_ok buttonId isLoading st :
  hasButton buttonId st ->
  exists st',
    setLoadingState buttonId isLoading st = (st', Normal tt) /\
    touches [buttonId] st st' /\
    formState buttonId st' = (if isLoading then Submitting else Idle) /\
    hasButton buttonId st'.
Proof.
  intros (button & i & j & Hb & Hi & Hj). unfold setLoadingState.
  rewrite Hb. cbv zeta. rewrite Hi, Hj.
  destruct isLoading; unfold bind, updateDescendant, updateElement; rewrite Hb;
    cbv beta iota; cbn [document setDocument]; rewrite !lookup_insert_eq;
    cbv beta iota; cbn [document setDocument]; rewrite !lookup_insert_eq;
    (eexists; split; [reflexivity|]; split; [|split]).
  1,4: repeat split; intros id Hid; cbn [document setDocument];
       rewrite !lookup_insert_ne by (intros ->; apply Hid; left); reflexivity.
  1,3: unfold formState; cbn [document setDocument]; rewrite lookup_insert_eq;
       reflexivity.
  all: eexists _, i, j; cbn [document setDocument]; rewrite lookup_insert_eq;
    (split; [reflexivity|]);
    rewrite !querySelector_alter
      by (intros c; first [apply classList_add_other | apply classList_remove_other];
          js_neq);
    split; assumption.
Qed.

(** ** Statements that leave the browser storage alone *)

Lemma keeps_ret {A} (a : A) : keepsStorage (ret a).
Proof. intros st. reflexivity. Qed.

Lemma keeps_throw {A} e : keepsStorage (@throw A e).
Proof. intros st. reflexivity. Qed.

Lemma keeps_bind {A B} (m : M A) (k : A -> M B) :
  keepsStorage m -> (forall a, keepsStorage (k a)) -> keepsStorage (bind m k).
Proof.
  intros Hm Hk st. unfold bind. specialize (Hm st).
  destruct (m st) as [st' [a|e]]; cbn in *; [|exact Hm].
  rewrite (Hk a st'). exact Hm.
Qed.

Lemma keeps_tryCatchFinally {A} (body : M A) handler final :
  keepsStorage body -> (forall e, keepsStorage (handler e)) -> keepsStorage final ->
  keepsStorage (tryCatchFinally body handler final).
Proof.
  intros Hb Hh Hf st. unfold tryCatchFinally. specialize (Hb st).
  destruct (body st) as [st1 [a|e]]; cbn in Hb.
  - specialize (Hf st1). destruct (final st1) as [st3 c3]; cbn in *. congruence.
  - specialize (Hh e st1). destruct (handler e st1) as [st2 c2]; cbn in Hh.
    specialize (Hf st2). destruct (final st2) as [st3 c3]; cbn in *. congruence.
Qed.

Lemma keeps_tryAwait before after handler final :
  keepsStorage before -> (forall e, keepsStorage (handler e)) -> keepsStorage final ->
  keepsStorage (tryAwait before after handler final).
Proof.
  intros Hb Hh Hf st. unfold tryAwait. specialize (Hb st).
  destruct (before st) as [st1 [a|e]]; cbn in Hb; [exact Hb|].
  pose proof (keeps_tryCatchFinally (@throw unit e) handler final
                (keeps_throw e) Hh Hf st1) as H.
  destruct (tryCatchFinally (throw e) handler final st1) as [st2 [a|e']];
    cbn in *; congruence.
Qed.

Lemma keeps_touches {A} (m : M A) :
  (forall st, exists ids, touches ids st (fst (m st))) -> keepsStorage m.
Proof. intros H st. destruct (H st) as (ids & Hl & _). exact Hl. Qed.

Lemma keeps_getValue id : keepsStorage (getValue id).
Proof. intros st. unfold getValue. destruct (document st !! id); reflexivity. Qed.

Lemma keeps_getChecked id : keepsStorage (getChecked id).
Proof. intros st. unfold getChecked. destruct (document st !! id); reflexivity. Qed.

Lemma keeps_updateElement id f : keepsStorage (updateElement id f).
Proof. intros st. unfold updateElement. destruct (document st !! id); reflexivity. Qed.

Lemma keeps_updateDescendant id d f : keepsStorage (updateDescendant id d f).
Proof. destruct d; [apply keeps_updateElement | apply keeps_throw]. Qed.

Lemma keeps_modify f :
  (forall st, localStorage (f st) = localStorage st) -> keepsStorage (modify f).
Proof. intros H st. apply H. Qed.

Lemma keeps_setLoadingState id b : keepsStorage (setLoadingState id b).
Proof.
  intros st. unfold setLoadingState. destruct (document st !! id); [|reflexivity].
  destruct b; (apply keeps_bind; [apply keeps_updateElement|]; intros _;
               apply keeps_bind; [apply keeps_updateDescendant|]; intros _;
               apply keeps_updateDescendant).
Qed.

Lemma keeps_showNotification message type : keepsStorage (showNotification message type).
Proof.
  intros st. unfold showNotification.
  apply keeps_bind; [apply keeps_modify; reflexivity|]. intros _.
  apply keeps_bind; [apply keeps_updateElement|]. intros _.
  apply keeps_modify. reflexivity.
Qed.

Lemma keeps_readLoginForm : keepsStorage readLoginForm.
Proof.
  unfold readLoginForm.
  apply keeps_bind; [apply keeps_getValue|]. intros u.
  apply keeps_bind; [apply keeps_getValue|]. intros p.
  apply keeps_bind; [apply keeps_getChecked|]. intros r. apply keeps_ret.
Qed.

Lemma keeps_validateLoginForm u p : keepsStorage (validateLoginForm u p).
Proof.
  apply keeps_touches. intros st.
  destruct (validateLoginForm_result u p st) as (st' & E & T).
  rewrite E. eauto.
Qed.

Lemma keeps_handleLogin : keepsStorage handleLogin.
Proof.
  unfold handleLogin. apply keeps_bind; [apply keeps_readLoginForm|].
  intros [[u p] r]. apply keeps_bind; [apply keeps_validateLoginForm|].
  intros valid. destruct valid; cbn [negb]; [|apply keeps_ret].
  apply keeps_tryAwait.
  - apply keeps_bind; [apply keeps_setLoadingState|]. intros _.
    apply keeps_modify. reflexivity.
  - intros e. apply keeps_showNotification.
  - apply keeps_setLoadingState.
Qed.

Lemma readLoginForm_pure st st' c : readLoginForm st = (st', c) -> st' = st.
Proof.
  unfold readLoginForm, bind, getValue, getChecked, ret.
  repeat match goal with
         | |- context [document st !! ?k] => destruct (document st !! k)
         end; congruence.
Qed.

Lemma tryCatchFinally_modify {A} f (k : unit -> M A) handler final st :
  tryCatchFinally (bind (modify f) k) handler final st
  = tryCatchFinally (k tt) handler final (f st).
Proof. reflexivity. Qed.

Lemma handleLogin_awaiting st st1 k :
  handleLogin st = (st1, Normal (Awaiting k)) ->
  exists username password rememberMe,
    readLoginForm st = (st, Normal (username, password, rememberMe)) /\
    forall st2,
      localStorage (fst (k Fulfilled st2))
      = (if rememberMe : bool
         then <[js "rememberedUsername" := username]> (localStorage st2)
         else delete (js "rememberedUsername") (localStorage st2)) /\
      forall e, localStorage (fst (k (Rejected e) st2)) = localStorage st2.
Proof.
  unfold handleLogin. unfold bind at 1.
  destruct (readLoginForm st) as [st0 [[[u p] r]|e]] eqn:Hread; [|discriminate].
  apply readLoginForm_pure in Hread as Hst. subst st0.
  unfold bind at 1.
  destruct (validateLoginForm_result u p st) as (st' & E & _). rewrite E.
  destruct (truthy u && truthy p); cbn [negb]; [|discriminate].
  unfold tryAwait.
  match goal with
  | |- context [match ?b st' with _ => _ end] => destruct (b st') as [st1' [[]|e]]
  end.
  - intros [= <- <-]. exists u, p, r. split; [reflexivity|]. intros st2. split.
    + assert (forall st3,
                localStorage
                  (fst (tryCatchFinally
                     (bind (showNotification
                              (js "Login successful! Welcome back to PawPals!")
                              (js "success"))
                        (fun _ => modify (pushTimeout 1500 CbLoginRedirect)))
                     (fun _ => showNotification
                                 (js "Login failed. Please check your credentials.")
                                 (js "error"))
                     (setLoadingState (js "loginBtn") false) st3))
                = localStorage st3) as Hrest.
      { apply keeps_tryCatchFinally.
        - apply keeps_bind; [apply keeps_showNotification|]. intros _.
          apply keeps_modify. reflexivity.
        - intros e. apply keeps_showNotification.
        - apply keeps_setLoadingState. }
      destruct r; rewrite tryCatchFinally_modify, Hrest; reflexivity.
    + intros e. apply keeps_tryCatchFinally.
      * apply keeps_throw.
      * intros e'. apply keeps_showNotification.
      * apply keeps_setLoadingState.
  - match goal with
    | |- context [tryCatchFinally ?b ?h ?f st1'] =>
        destruct (tryCatchFinally b h f st1') as [st2 [[]|e']]
    end; discriminate.
Qed.

Lemma handleLogin_valid st username password rememberMe :
  readLoginForm st = (st, Normal (username, password, rememberMe)) ->
  username ≠ [] -> password ≠ [] -> hasButton (js "loginBtn") st ->
  exists st1 k,
    handleLogin st = (st1, Normal (Awaiting k)) /\
    formState (js "loginBtn") st1 = Submitting /\
    timeouts st1 = timeouts st ++ [(1500%N, CbSimulatedAPI)].
Proof.
  intros Hread Hu Hp Hbtn. unfold handleLogin. unfold bind at 1. rewrite Hread.
  cbv beta iota. unfold bind at 1.
  destruct (validateLoginForm_result username password st) as (st' & E & T).
  rewrite E. destruct username, password; try congruence. cbn [truthy andb negb].
  assert (hasButton (js "loginBtn") st') as Hbtn'.
  { destruct Hbtn as (b & i & j & Hb & Hq). exists b, i, j. split; [|exact Hq].
    destruct T as (_ & _ & _ & _ & T). rewrite T by id_notin. exact Hb. }
  destruct (setLoadingState_ok (js "loginBtn") true st' Hbtn')
    as (st1 & E1 & T1 & Hf & _).
  unfold tryAwait, bind. rewrite E1. cbn [simulateAPICall modify].
  eexists _, _. split; [reflexivity|]. split.
  - unfold formState in *. cbn [document pushTimeout]. exact Hf.
  - cbn [timeouts pushTimeout]. destruct T as (_ & _ & T & _), T1 as (_ & _ & T1 & _).
    congruence.
Qed.

(** ** A successful registration *)

Lemma showNotification_ok message type st container :
  document st !! js "notificationContainer" = Some container ->
  exists st',
    showNotification message type st = (st', Normal tt) /\
    document st'
    = <[js "notificationContainer" :=
          withChildNodes
            (childNodes container ++
               [{| nid := nextNode st;
                   className := js "notification notification-" ++ type;
                   notificationText := message |}]) container]> (document st) /\
    timeouts st' = timeouts st ++ [(5000%N, CbRemoveNotification (nextNode st))] /\
    nextNode st' = N.succ (nextNode st) /\
    localStorage st' = localStorage st /\
    location_href st' = location_href st.
Proof.
  intros Hc. unfold showNotification, bind, modify, updateElement.
  cbn [document bumpNode]. rewrite Hc. eexists. split; [reflexivity|].
  cbn. repeat split; reflexivity.
Qed.

Lemma hasButton_document buttonId st st' :
  document st' !! buttonId = document st !! buttonId ->
  hasButton buttonId st -> hasButton buttonId st'.
Proof. intros H (b & i & j & Hb & Hq). exists b, i, j. rewrite H. auto. Qed.

Lemma register_continuation_fulfilled username st container :
  hasButton (js "registerBtn") st ->
  document st !! js "notificationContainer" = Some container ->
  exists st',
    tryCatchFinally
      (let* _ := showNotification
                   (js "Account created successfully! Welcome to PawPals!")
                   (js "success") in
       modify (pushTimeout 1500 (CbRegisterRedirect username)))
      (fun error =>
         showNotification (js "Registration failed. Please try again.") (js "error"))
      (setLoadingState (js "registerBtn") false) st
    = (st', Normal tt) /\
    formState (js "registerBtn") st' = Idle /\
    document st' !! js "notificationContainer"
    = Some (withChildNodes
              (childNodes container ++
                 [{| nid := nextNode st;
                     className := js "notification notification-" ++ js "success";
                     notificationText :=
                       js "Account created successfully! Welcome to PawPals!" |}])
              container) /\
    timeouts st'
    = timeouts st ++ [(5000%N, CbRemoveNotification (nextNode st));
                      (1500%N, CbRegisterRedirect username)].
Proof.
  intros Hbtn Hc.
  destruct (showNotification_ok
              (js "Account created successfully! Welcome to PawPals!")
              (js "success") st container Hc) as (st1 & E1 & D1 & T1 & _).
  unfold tryCatchFinally, bind. rewrite E1. cbn [modify].
  assert (hasButton (js "registerBtn")
            (pushTimeout 1500 (CbRegisterRedirect username) st1)) as Hbtn1.
  { apply (hasButton_document _ st); [|exact Hbtn]. cbn [document pushTimeout].
    rewrite D1. apply lookup_insert_ne. js_neq. }
  destruct (setLoadingState_ok (js "registerBtn") false _ Hbtn1)
    as (st2 & E2 & T2 & Hf & _).
  rewrite E2. exists st2. split; [reflexivity|]. split; [exact Hf|].
  destruct T2 as (_ & _ & Ht & _ & Hd). split.
  - rewrite Hd by id_notin. cbn [document pushTimeout]. rewrite D1.
    apply lookup_insert_eq.
  - rewrite Ht. cbn [timeouts pushTimeout]. rewrite T1, <- app_assoc. reflexivity.
Qed.

Lemma readRegistrationForm_pure st st' c : readRegistrationForm st = (st', c) -> st' = st.
Proof.
  unfold readRegistrationForm, bind, getValue, getChecked, ret.
  repeat match goal with
         | |- context [document st !! ?k] => destruct (document st !! k)
         end; congruence.
Qed.

Lemma handleRegister_valid st formData container :
  readRegistrationForm st = (st, Normal formData) ->
  registrationValid formData = true ->
  hasButton (js "registerBtn") st ->
  document st !! js "notificationContainer" = Some container ->
  exists st1 k,
    handleRegister st = (st1, Normal (Awaiting k)) /\
    formState (js "registerBtn") st1 = Submitting /\
    timeouts st1 = timeouts st ++ [(2000%N, CbSimulatedAPI)] /\
    exists st2,
      k Fulfilled st1 = (st2, Normal tt) /\
      formState (js "registerBtn") st2 = Idle /\
      document st2 !! js "notificationContainer"
      = Some (withChildNodes
                (childNodes container ++
                   [{| nid := nextNode st;
                       className := js "notification notification-" ++ js "success";
                       notificationText :=
                         js "Account created successfully! Welcome to PawPals!" |}])
                container) /\
      timeouts st2
      = timeouts st1 ++ [(5000%N, CbRemoveNotification (nextNode st));
                         (1500%N, CbRegisterRedirect (fd_username formData))].
Proof.
  intros Hread Hvalid Hbtn Hc. unfold handleRegister. unfold bind at 1. rewrite Hread.
  cbv beta iota. unfold bind at 1.
  destruct (validateRegistrationForm_result formData st) as (st' & E & T).
  rewrite E, Hvalid. cbn [negb].
  destruct T as (_ & _ & Tt & Tn & Td).
  assert (hasButton (js "registerBtn") st') as Hbtn'.
  { apply (hasButton_document _ st); [|exact Hbtn]. apply Td. id_notin. }
  destruct (setLoadingState_ok (js "registerBtn") true st' Hbtn')
    as (st1 & E1 & T1 & Hf & Hbtn1).
  destruct T1 as (_ & _ & T1t & T1n & T1d).
  unfold tryAwait, bind. rewrite E1. cbn [simulateAPICall modify].
  eexists _, _. split; [reflexivity|]. split; [exact Hf|].
  split; [cbn [timeouts pushTimeout]; congruence|].
  assert (document (pushTimeout 2000 CbSimulatedAPI st1) !! js "notificationContainer"
          = Some container) as Hc1.
  { cbn [document pushTimeout]. rewrite T1d by id_notin. rewrite Td by id_notin.
    exact Hc. }
  assert (hasButton (js "registerBtn") (pushTimeout 2000 CbSimulatedAPI st1)) as Hb1.
  { apply (hasButton_document _ st1); [reflexivity | exact Hbtn1]. }
  destruct (register_continuation_fulfilled (fd_username formData) _ container Hb1 Hc1)
    as (st2 & E2 & Hf2 & Hd2 & Ht2).
  exists st2. split; [exact E2|]. split; [exact Hf2|].
  cbn [nextNode pushTimeout] in *. rewrite T1n, Tn in *. split; assumption.
Qed.

(** ** The remembered username *)

(** C4: [handleLogin] writes nothing to the browser storage before the
    simulated call settles; once it waits for the call, a fulfilled call
    makes the rest of the handler store the submitted username under
    [rememberedUsername] when the remember-me box was checked and remove
    that key when it was not, whatever else the rest does, and a rejected
    call leaves the storage as it is; with a non-empty username and
    password and a submit button in place the handler does get to wait for
    the call; the call is rejected exactly when [Math.random()] exceeds 0.9,
    and a handler run through with such a draw leaves the storage as it
    was. *)
Theorem remembered_username_on_success :
  (forall st, localStorage (fst (handleLogin st)) = localStorage st) /\
  (forall st st1 k,
     handleLogin st = (st1, Normal (Awaiting k)) ->
     exists username password rememberMe,
       readLoginForm st = (st, Normal (username, password, rememberMe)) /\
       forall st2,
         localStorage (fst (k Fulfilled st2))
         = (if rememberMe : bool
            then <[js "rememberedUsername" := username]> (localStorage st2)
            else delete (js "rememberedUsername") (localStorage st2)) /\
         forall e, localStorage (fst (k (Rejected e) st2)) = localStorage st2) /\
  (forall st username password rememberMe,
     readLoginForm st = (st, Normal (username, password, rememberMe)) ->
     username ≠ [] -> password ≠ [] -> hasButton (js "loginBtn") st ->
     exists st1 k,
       handleLogin st = (st1, Normal (Awaiting k)) /\
       formState (js "loginBtn") st1 = Submitting /\
       timeouts st1 = timeouts st ++ [(1500%N, CbSimulatedAPI)]) /\
  (forall random,
     (Qle_bool random point9 = true -> settle random = Fulfilled) /\
     (Qle_bool random point9 = false ->
      settle random = Rejected (Error (js "Simulated API failure")))) /\
  (forall st random,
     Qle_bool random point9 = false ->
     localStorage (fst (runHandler handleLogin random st)) = localStorage st).
Proof.
  split; [|split; [|split; [|split]]].
  - apply keeps_handleLogin.
  - apply handleLogin_awaiting.
  - apply handleLogin_valid.
  - intros random. unfold settle. split; intros ->; reflexivity.
  - intros st random Hr. pose proof (keeps_handleLogin st) as Hkeep.
    unfold runHandler, bind.
    destruct (handleLogin st) as [st1 [[|k]|e]] eqn:E; cbn [fst] in *;
      [exact Hkeep | | exact Hkeep].
    unfold settle. rewrite Hr. cbn [negb].
    destruct (handleLogin_awaiting _ _ _ E) as (u & p & r & _ & Hs).
    destruct (Hs st1) as [_ Hrej]. rewrite Hrej. exact Hkeep.
Qed.

Lemma remembered_username_on_success_witness :
  exists st1 k,
    handleLogin (loginPage (js " alice ") (js "secret") true)
    = (st1, Normal (Awaiting k)) /\
    localStorage (fst (k Fulfilled st1)) = {[js "rememberedUsername" := js "alice"]} /\
    localStorage (fst (k (Rejected TypeError) st1)) = ∅.
Proof.
  destruct remembered_username_on_success as (H1 & H2 & H3 & _ & _).
  destruct (H3 (loginPage (js " alice ") (js "secret") true)
              (js "alice") (js "secret") true) as (st1 & k & Hk & _).
  - vm_compute. reflexivity.
  - discriminate.
  - discriminate.
  - exists submitButton, 0, 1. repeat split; vm_compute; reflexivity.
  - exists st1, k. split; [exact Hk|].
    destruct (H2 _ _ _ Hk) as (u & p & r & Hread & Hs).
    injection Hread as <- <- <-.
    destruct (Hs st1) as [Hf Hr]. rewrite Hf, (Hr TypeError).
    pose proof (H1 (loginPage (js " alice ") (js "secret") true)) as Hl.
    rewrite Hk in Hl. cbn [fst] in Hl. rewrite Hl. split; reflexivity.
Defined.

(** ** The theorems at sample pages *)

Lemma fieldError_idempotent_witness :
  clearFieldError (js "loginUsernameError") (loginPage (js "alice") [] false)
  = (loginPage (js "alice") [] false, Normal tt) /\
  exists el',
    document (fst (showFieldError (js "loginUsernameError") (js "Username is required")
                     (loginPage (js "alice") [] false)))
      !! js "loginUsernameError" = Some el' /\
    textContent el' = js "Username is required" /\
    js "show" ∈ classList el' /\
    shownError (js "loginUsernameError")
      (fst (showFieldError (js "loginUsernameError") (js "Username is required")
              (loginPage (js "alice") [] false)))
    = Some (js "Username is required").
Proof.
  destruct (fieldError_idempotent (loginPage (js "alice") [] false)
              (js "loginUsernameError") (js "Username is required"))
    as (Hclear & _ & _ & Hshow).
  split.
  - apply (Hclear blank).
    + vm_compute. reflexivity.
    + reflexivity.
    + reflexivity.
    + reflexivity.
    + vm_compute. set_solver.
  - apply (Hshow blank). vm_compute. reflexivity.
Defined.

Lemma invalid_submission_stays_idle_witness :
  (handleLogin (loginPage (js " alice ") [] false)
   = (fst (validateLoginForm (js "alice") [] (loginPage (js " alice ") [] false)),
      Normal Returned) /\
   quiet (js "loginBtn") (loginPage (js " alice ") [] false)
     (fst (validateLoginForm (js "alice") [] (loginPage (js " alice ") [] false)))) /\
  (handleRegister
     (registrationPage (js "ab") (js "user@example.com") (js "myPet2023") [] true)
   = (fst (validateRegistrationForm
             {| fd_username := js "ab"; fd_email := js "user@example.com";
                fd_password := js "myPet2023"; fd_confirmPassword := [];
                fd_acceptTerms := true |}
             (registrationPage (js "ab") (js "user@example.com") (js "myPet2023")
                [] true)),
      Normal Returned) /\
   quiet (js "registerBtn")
     (registrationPage (js "ab") (js "user@example.com") (js "myPet2023") [] true)
     (fst (validateRegistrationForm
             {| fd_username := js "ab"; fd_email := js "user@example.com";
                fd_password := js "myPet2023"; fd_confirmPassword := [];
                fd_acceptTerms := true |}
             (registrationPage (js "ab") (js "user@example.com") (js "myPet2023")
                [] true)))) /\
  (handleForgotPassword (forgotPage (js "invalid.email"))
   = (fst (validateEmail (AString (js "invalid.email")) (Some (js "forgotEmailError"))
             (forgotPage (js "invalid.email"))),
      Normal Returned) /\
   quiet (js "forgotBtn") (forgotPage (js "invalid.email"))
     (fst (validateEmail (AString (js "invalid.email")) (Some (js "forgotEmailError"))
             (forgotPage (js "invalid.email"))))).
Proof.
  destruct invalid_submission_stays_idle as (Hlogin & Hregister & Hforgot).
  split; [|split].
  - apply (Hlogin _ (js "alice") [] false); vm_compute; reflexivity.
  - apply (Hregister _ {| fd_username := js "ab"; fd_email := js "user@example.com";
                          fd_password := js "myPet2023"; fd_confirmPassword := [];
                          fd_acceptTerms := true |}); vm_compute; reflexivity.
  - apply (Hforgot _ (js "invalid.email")); vm_compute; reflexivity.
Defined.

Lemma confirmPassword_check_witness :
  fieldErrorCleared (js "confirmPasswordError")
    (fst (validatePasswordConfirm (AEvent (js "myPet2023")) sampleRegistration)) /\
  fieldErrorShown (js "confirmPasswordError") (js "Passwords do not match")
    (fst (validatePasswordConfirm (AEvent (js "myPet")) sampleRegistration)) /\
  fieldErrorCleared (js "confirmPasswordError")
    (fst (validateRegistrationForm sampleFormData sampleRegistration)) /\
  fieldErrorShown (js "confirmPasswordError") (js "Passwords do not match")
    (fst (validateRegistrationForm
            {| fd_username := js "pet_lover"; fd_email := js "user@example.com";
               fd_password := js "myPet2023"; fd_confirmPassword := js "myPet";
               fd_acceptTerms := true |} sampleRegistration)).
Proof.
  assert (document sampleRegistration !! js "confirmPasswordError" = Some blank)
    as Hel by (vm_compute; reflexivity).
  destruct (confirmPassword_check sampleRegistration blank Hel) as [Hreactive Hsubmit].
  split; [|split; [|split]].
  - apply (Hreactive (inputField (js "myPet2023"))).
    + vm_compute. reflexivity.
    + reflexivity.
  - apply (Hreactive (inputField (js "myPet2023"))).
    + vm_compute. reflexivity.
    + discriminate.
    + intros H. vm_compute in H. discriminate H.
  - apply Hsubmit. reflexivity.
  - apply Hsubmit.
    + discriminate.
    + intros H. vm_compute in H. discriminate H.
Defined.

(** * Further properties of the controller *)

(** ** The validators with an error element *)

Lemma ifId_show_shows id message st el :
  id ≠ [] -> document st !! id = Some el ->
  exists st',
    ifId (Some id) (fun id => showFieldError id message) st = (st', Normal tt) /\
    touches [id] st st' /\ fieldErrorShown id message st'.
Proof.
  intros Hid Hel. unfold ifId. destruct id as [|c id]; [congruence|]. cbn [truthy].
  apply (showFieldError_shows _ message st el Hel).
Qed.

Lemma ifId_clear_clears id st el :
  id ≠ [] -> document st !! id = Some el ->
  exists st',
    ifId (Some id) clearFieldError st = (st', Normal tt) /\
    touches [id] st st' /\ fieldErrorCleared id st'.
Proof.
  intros Hid Hel. unfold ifId. destruct id as [|c id]; [congruence|]. cbn [truthy].
  apply (clearFieldError_clears _ st el Hel).
Qed.

(** Runs one statement of a [bind] chain whose effect on the error element
    is known. *)
Ltac shown_step L :=
  let st' := fresh "st" in
  let E := fresh "E" in
  let T := fresh "T" in
  let S := fresh "S" in
  destruct L as (st' & E & T & S); unfold bind, ret; rewrite E; cbv beta iota;
  exists st'; split; [reflexivity|]; split; [exact T|].

(** X1: with a non-empty id of an error element that is on the page,
    [validateUsername] returns what it returns without one and changes that
    element only: it shows "Username is required" for the empty string, the
    format message for any other string that does not match, and clears the
    element for a string that matches. *)
Theorem validateUsername_display (s id : jsstring) (st : State) (el : Element)
  (Hid : id ≠ []) (Hel : document st !! id = Some el) :
  exists st',
    validateUsername (AString s) (Some id) st = (st', Normal (test usernameRegex s)) /\
    touches [id] st st' /\
    (s = [] -> fieldErrorShown id (js "Username is required") st') /\
    (s ≠ [] -> test usernameRegex s = false ->
     fieldErrorShown id
       (js "Username must be 3-20 characters, letters, numbers, and underscores only")
       st') /\
    (test usernameRegex s = true -> fieldErrorCleared id st').
Proof.
  unfold validateUsername. destruct s as [|c s]; cbn [truthy negb].
  - shown_step (ifId_show_shows id (js "Username is required") st el Hid Hel).
    split; [auto|]. split; [congruence | discriminate].
  - destruct (test usernameRegex (c :: s)) eqn:Ht; cbn [negb].
    + shown_step (ifId_clear_clears id st el Hid Hel).
      split; [discriminate|]. split; [discriminate | auto].
    + shown_step (ifId_show_shows id
        (js "Username must be 3-20 characters, letters, numbers, and underscores only")
        st el Hid Hel).
      split; [discriminate|]. split; [auto | discriminate].
Qed.

Lemma validateUsername_display_witness :
  exists st',
    validateUsername (AString (js "ab")) (Some (js "registerUsernameError"))
      sampleRegistration = (st', Normal false) /\
    fieldErrorShown (js "registerUsernameError")
      (js "Username must be 3-20 characters, letters, numbers, and underscores only")
      st'.
Proof.
  destruct (validateUsername_display (js "ab") (js "registerUsernameError")
              sampleRegistration blank) as (st' & E & _ & _ & Hs & _).
  - discriminate.
  - vm_compute. reflexivity.
  - exists st'. split; [exact E|]. apply Hs; [discriminate | reflexivity].
Defined.

(** X2: with a non-empty id of an error element that is on the page,
    [validateEmail] returns what it returns without one and changes that
    element only: "Email is required" for the empty string, "Please enter a
    valid email address" for any other string that does not match, cleared
    for a string that matches. *)
Theorem validateEmail_display (s id : jsstring) (st : State) (el : Element)
  (Hid : id ≠ []) (Hel : document st !! id = Some el) :
  exists st',
    validateEmail (AString s) (Some id) st = (st', Normal (test emailRegex s)) /\
    touches [id] st st' /\
    (s = [] -> fieldErrorShown id (js "Email is required") st') /\
    (s ≠ [] -> test emailRegex s = false ->
     fieldErrorShown id (js "Please enter a valid email address") st') /\
    (test emailRegex s = true -> fieldErrorCleared id st').
Proof.
  unfold validateEmail. destruct s as [|c s]; cbn [truthy negb].
  - shown_step (ifId_show_shows id (js "Email is required") st el Hid Hel).
    split; [auto|]. split; [congruence | discriminate].
  - destruct (test emailRegex (c :: s)) eqn:Ht; cbn [negb].
    + shown_step (ifId_clear_clears id st el Hid Hel).
      split; [discriminate|]. split; [discriminate | auto].
    + shown_step (ifId_show_shows id (js "Please enter a valid email address")
                    st el Hid Hel).
      split; [discriminate|]. split; [auto | discriminate].
Qed.

Lemma validateEmail_display_witness :
  exists st',
    validateEmail (AString []) (Some (js "forgotEmailError")) (forgotPage [])
    = (st', Normal false) /\
    fieldErrorShown (js "forgotEmailError") (js "Email is required") st'.
Proof.
  destruct (validateEmail_display [] (js "forgotEmailError") (forgotPage []) blank)
    as (st' & E & _ & Hs & _).
  - discriminate.
  - vm_compute. reflexivity.
  - exists st'. split; [exact E|]. apply Hs. reflexivity.
Defined.

(** X3: with a non-empty id of an error element that is on the page,
    [validatePassword] changes that element only and checks in this order:
    the empty string gets "Password is required", a shorter one than eight
    characters the length message whatever it contains, a long enough one
    that fails the pattern the composition message, and one that passes is
    cleared. *)
Theorem validatePassword_display (s id : jsstring) (st : State) (el : Element)
  (Hid : id ≠ []) (Hel : document st !! id = Some el) :
  exists st',
    validatePassword (AString s) (Some id) st
    = (st', Normal (negb (length s <? 8) && test passwordRegex s)) /\
    touches [id] st st' /\
    (s = [] -> fieldErrorShown id (js "Password is required") st') /\
    (s ≠ [] -> length s < 8 ->
     fieldErrorShown id (js "Password must be at least 8 characters long") st') /\
    (8 <= length s -> test passwordRegex s = false ->
     fieldErrorShown id (js "Password must contain both letters and numbers") st') /\
    (8 <= length s -> test passwordRegex s = true -> fieldErrorCleared id st').
Proof.
  unfold validatePassword. destruct s as [|c s]; cbn [truthy negb].
  - shown_step (ifId_show_shows id (js "Password is required") st el Hid Hel).
    split; [auto|]. split; [congruence|]. cbn [length]. split; intros; lia.
  - destruct (Nat.ltb_spec (length (c :: s)) 8) as [Hlt|Hge]; cbn [negb andb].
    + shown_step (ifId_show_shows id
        (js "Password must be at least 8 characters long") st el Hid Hel).
      split; [discriminate|]. split; [auto|]. split; intros; lia.
    + destruct (test passwordRegex (c :: s)) eqn:Ht; cbn [negb].
      * shown_step (ifId_clear_clears id st el Hid Hel).
        split; [discriminate|]. split; [intros; lia|]. split; [discriminate | auto].
      * shown_step (ifId_show_shows id
          (js "Password must contain both letters and numbers") st el Hid Hel).
        split; [discriminate|]. split; [intros; lia|]. split; [auto | discriminate].
Qed.

Lemma validatePassword_display_witness :
  exists st',
    validatePassword (AString (js "short")) (Some (js "registerPasswordError"))
      sampleRegistration = (st', Normal false) /\
    fieldErrorShown (js "registerPasswordError")
      (js "Password must be at least 8 characters long") st'.
Proof.
  destruct (validatePassword_display (js "short") (js "registerPasswordError")
              sampleRegistration blank) as (st' & E & _ & _ & Hs & _).
  - discriminate.
  - vm_compute. reflexivity.
  - exists st'. split; [exact E|]. apply Hs; [discriminate | vm_compute; lia].
Defined.

(** ** What exactly the password and email validators accept *)

(** X4: [validatePassword] without an error element returns [true]
    exactly when the string has at least eight characters and, from some
    position, a letter and a digit can both be reached without crossing a
    line terminator. *)
Theorem validatePassword_characterised (s : jsstring) (st : State) :
  exists b : bool,
    validatePassword (AString s) None st = (st, Normal b) /\
    (b = true <->
     8 <= length s /\
     exists i p q c d,
       i <= p /\ i <= q /\ s !! p = Some c /\ isLetter c = true /\
       s !! q = Some d /\ isDigit d = true /\
       forall n x, i <= n -> n < p \/ n < q -> s !! n = Some x ->
                   isLineTerminator x = false).
Proof.
  exists (negb (length s <? 8) && test passwordRegex s).
  split; [apply validatePassword_result|].
  rewrite andb_true_iff, negb_true_iff, Nat.ltb_ge, test_spec, password_matches.
  reflexivity.
Qed.

(** X5: a string [validateEmail] accepts has at least five characters,
    no white space, and an [@] at exactly one position. *)
Theorem validateEmail_accepts_one_at (s : jsstring) (st : State)
  (Hok : validateEmail (AString s) None st = (st, Normal true)) :
  5 <= length s /\
  Forall (fun c => isWhiteSpace c = false) s /\
  exists p, forall i, s !! i = Some (ch "@") <-> i = p.
Proof.
  rewrite validateEmail_result in Hok. injection Hok as Ht.
  apply test_spec, email_matches in Ht
    as (p & q & Hp & Hpq & Hq & Hat & Hdot & Hall).
  split; [lia|]. split.
  - apply Forall_lookup. intros i c Hi.
    destruct (decide (i = p)) as [->|Hnp].
    { rewrite Hat in Hi. injection Hi as <-. reflexivity. }
    destruct (decide (i = q)) as [->|Hnq].
    { rewrite Hdot in Hi. injection Hi as <-. reflexivity. }
    apply (Hall i c Hi Hnp Hnq).
  - exists p. intros i. split; [|intros ->; exact Hat].
    intros Hi. destruct (decide (i = p)) as [|Hnp]; [assumption|].
    destruct (decide (i = q)) as [->|Hnq].
    { rewrite Hdot in Hi. discriminate. }
    destruct (Hall i _ Hi Hnp Hnq) as [_ Hne]. congruence.
Qed.

Lemma validateEmail_accepts_one_at_witness :
  5 <= length (js "user@example.com") /\
  Forall (fun c => isWhiteSpace c = false) (js "user@example.com") /\
  exists p, forall i, js "user@example.com" !! i = Some (ch "@") <-> i = p.
Proof.
  apply (validateEmail_accepts_one_at (js "user@example.com") (page [])).
  vm_compute. reflexivity.
Defined.

(** ** The registration form as a whole *)

Lemma validateRegistrationForm_terms formData st el :
  document st !! js "termsError" = Some el ->
  if fd_acceptTerms formData
  then fieldErrorCleared (js "termsError") (fst (validateRegistrationForm formData st))
  else fieldErrorShown (js "termsError") (js "You must accept the terms to continue")
         (fst (validateRegistrationForm formData st)).
Proof.
  intros Hel. unfold validateRegistrationForm.
  display_step (validateUsername_string (fd_username formData)
                  (Some (js "registerUsernameError")) st).
  display_step (validateEmail_string (fd_email formData)
                  (Some (js "registerEmailError")) st0).
  display_step (validatePassword_string (fd_password formData)
                  (Some (js "registerPasswordError")) st1).
  assert (document st2 !! js "termsError" = Some el) as Hel2.
  { destruct T as (_ & _ & _ & _ & T), T0 as (_ & _ & _ & _ & T0),
      T1 as (_ & _ & _ & _ & T1).
    rewrite T1, T0, T by id_notin. exact Hel. }
  destruct (bool_decide (fd_password formData = fd_confirmPassword formData));
    cbn [negb];
    [display_step (clearFieldError_touches (js "confirmPasswordError") st2)
    |display_step (showFieldError_touches (js "confirmPasswordError")
                     (js "Passwords do not match") st2)];
    match goal with
    | T2 : touches [js "confirmPasswordError"] st2 ?s |- _ =>
        assert (document s !! js "termsError" = Some el) as Hel3
          by (destruct T2 as (_ & _ & _ & _ & T2); rewrite T2 by id_notin; exact Hel2);
        destruct (fd_acceptTerms formData); cbn [negb];
        [destruct (clearFieldError_clears _ s el Hel3) as (st4 & E4 & _ & Hc);
         rewrite E4; exact Hc
        |destruct (showFieldError_shows _ (js "You must accept the terms to continue")
                     s el Hel3) as (st4 & E4 & _ & Hs);
         rewrite E4; exact Hs]
    end.
Qed.

(** X6: [validateRegistrationForm] runs all five checks whatever the
    earlier ones gave: it changes the five error elements only, returns
    [true] exactly when the three validators accept their fields, the
    confirmation equals the password and the terms are accepted, and leaves
    the terms error element showing its message or cleared according to the
    terms box alone. *)
Theorem validateRegistrationForm_all_checks (formData : FormData) (st : State) :
  exists (st' : State) (b : bool),
    validateRegistrationForm formData st = (st', Normal b) /\
    touches registrationErrorIds st st' /\
    (b = true <->
     snd (validateUsername (AString (fd_username formData)) None st) = Normal true /\
     snd (validateEmail (AString (fd_email formData)) None st) = Normal true /\
     snd (validatePassword (AString (fd_password formData)) None st) = Normal true /\
     fd_confirmPassword formData = fd_password formData /\
     fd_acceptTerms formData = true) /\
    (forall el, document st !! js "termsError" = Some el ->
       if fd_acceptTerms formData
       then fieldErrorCleared (js "termsError") st'
       else fieldErrorShown (js "termsError")
              (js "You must accept the terms to continue") st').
Proof.
  destruct (validateRegistrationForm_result formData st) as (st' & E & T).
  exists st', (registrationValid formData). split; [exact E|]. split; [exact T|]. split.
  - rewrite validateUsername_result, validateEmail_result, validatePassword_result.
    cbn [snd]. unfold registrationValid. rewrite !andb_true_iff, bool_decide_eq_true.
    split.
    + intros ((((-> & ->) & (-> & ->)) & Hc) & ->). cbn. auto.
    + intros (Hu & He & Hp & Hc & Ht). injection Hu as ->. injection He as ->.
      injection Hp as Hp. apply andb_true_iff in Hp as [-> ->]. auto.
  - intros el Hel. pose proof (validateRegistrationForm_terms formData st el Hel) as H.
    rewrite E in H. exact H.
Qed.

Lemma validateRegistrationForm_all_checks_witness :
  exists st',
    validateRegistrationForm
      {| fd_username := js "pet_lover"; fd_email := js "user@example.com";
         fd_password := js "myPet2023"; fd_confirmPassword := js "myPet2023";
         fd_acceptTerms := false |} sampleRegistration = (st', Normal false) /\
    fieldErrorShown (js "termsError") (js "You must accept the terms to continue") st'.
Proof.
  destruct (validateRegistrationForm_all_checks
              {| fd_username := js "pet_lover"; fd_email := js "user@example.com";
                 fd_password := js "myPet2023"; fd_confirmPassword := js "myPet2023";
                 fd_acceptTerms := false |} sampleRegistration)
    as (st' & b & E & _ & Hb & Ht).
  exists st'. split.
  - destruct b; [|exact E]. destruct Hb as [Hb _].
    destruct (Hb eq_refl) as (_ & _ & _ & _ & Hterms). discriminate Hterms.
  - apply (Ht blank). vm_compute. reflexivity.
Defined.

(** ** Showing and clearing a field error, one after the other *)

(** X7: on one error element the last call decides: showing a second
    message replaces the first, clearing after showing is clearing, showing
    after clearing is showing, and clearing twice is clearing once. *)
Theorem fieldError_last_wins (id m1 m2 : jsstring) (st : State) :
  (let* _ := showFieldError id m1 in showFieldError id m2) st = showFieldError id m2 st /\
  (let* _ := showFieldError id m1 in clearFieldError id) st = clearFieldError id st /\
  (let* _ := clearFieldError id in showFieldError id m2) st = showFieldError id m2 st /\
  (let* _ := clearFieldError id in clearFieldError id) st = clearFieldError id st.
Proof.
  unfold bind, showFieldError, clearFieldError.
  destruct (document st !! id) as [el|] eqn:Hel; cbn [document setDocument].
  - rewrite !lookup_insert_eq. unfold setDocument. cbn. rewrite !insert_insert_eq.
    unfold withClassList, withTextContent, classList_add, classList_remove. cbn.
    set (c := classList el). set (s := js "show").
    assert (c ∪ {[s]} ∪ {[s]} = c ∪ {[s]}) as -> by set_solver.
    assert ((c ∪ {[s]}) ∖ {[s]} = c ∖ {[s]}) as -> by set_solver.
    assert (c ∖ {[s]} ∖ {[s]} = c ∖ {[s]}) as -> by set_solver.
    assert (c ∖ {[s]} ∪ {[s]} = c ∪ {[s]}) as ->.
    { apply set_eq. intros x.
      rewrite !elem_of_union, elem_of_difference, elem_of_singleton.
      destruct (decide (x = s)); tauto. }
    auto.
  - rewrite Hel. auto.
Qed.

(** ** The loading state: missing parts and the way back *)

Lemma setLoadingState_missing_parts (buttonId : jsstring) (isLoading : bool) (st : State) :
  (document st !! buttonId = None ->
   setLoadingState buttonId isLoading st = (st, Throw TypeError)) /\
  (forall button,
     document st !! buttonId = Some button ->
     querySelector (js "btn-text") button = None ->
     setLoadingState buttonId isLoading st
     = (setDocument (<[buttonId := withDisabled isLoading button]> (document st)) st,
        Throw TypeError)).
Proof.
  split.
  - intros Hb. unfold setLoadingState. rewrite Hb. reflexivity.
  - intros button Hb Ht. unfold setLoadingState. rewrite Hb. cbv zeta. rewrite Ht.
    destruct isLoading; unfold bind, updateElement, updateDescendant; rewrite Hb;
      reflexivity.
Qed.

(** X8: [setLoadingState] on a page without the button throws a
    [TypeError] and changes nothing; with the button but without a
    [.btn-text] descendant it throws after it has set the button's [disabled]
    property, and that is all it has changed. *)
Theorem setLoadingState_missing (buttonId : jsstring) (isLoading : bool) (st : State) :
  (document st !! buttonId = None ->
   setLoadingState buttonId isLoading st = (st, Throw TypeError)) /\
  (forall button,
     document st !! buttonId = Some button ->
     querySelector (js "btn-text") button = None ->
     setLoadingState buttonId isLoading st
     = (setDocument (<[buttonId := withDisabled isLoading button]> (document st)) st,
        Throw TypeError)).
Proof. apply setLoadingState_missing_parts. Qed.

Lemma setLoadingState_missing_witness :
  setLoadingState (js "loginBtn") true (page []) = (page [], Throw TypeError) /\
  setLoadingState (js "loginBtn") true (page [(js "loginBtn", blank)])
  = (page [(js "loginBtn", withDisabled true blank)], Throw TypeError).
Proof.
  split.
  - apply (proj1 (setLoadingState_missing (js "loginBtn") true (page []))).
    reflexivity.
  - rewrite (proj2 (setLoadingState_missing (js "loginBtn") true
                      (page [(js "loginBtn", blank)])) blank).
    + vm_compute. reflexivity.
    + vm_compute. reflexivity.
    + reflexivity.
Defined.

Lemma hidden_round_trip (i j : nat) (ds : list (gset jsstring)) ci cj :
  ds !! i = Some ci -> js "hidden" ∉ ci -> ds !! j = Some cj -> js "hidden" ∈ cj ->
  alter (classList_add (js "hidden")) j
    (alter (classList_remove (js "hidden")) i
       (alter (classList_remove (js "hidden")) j
          (alter (classList_add (js "hidden")) i ds))) = ds.
Proof.
  intros Hi Hci Hj Hcj.
  assert (i ≠ j) as Hij by (intros ->; rewrite Hi in Hj; injection Hj as ->; auto).
  apply list_eq. intros n.
  destruct (decide (n = j)) as [->|Hnj].
  - rewrite list_lookup_alter_eq, list_lookup_alter_ne, list_lookup_alter_eq,
      list_lookup_alter_ne, Hj by auto.
    cbn. f_equal. unfold classList_add, classList_remove.
    apply set_eq. intros x. rewrite elem_of_union, elem_of_difference, elem_of_singleton.
    destruct (decide (x = js "hidden")) as [->|]; tauto.
  - rewrite list_lookup_alter_ne by auto. destruct (decide (n = i)) as [->|Hni].
    + rewrite list_lookup_alter_eq, list_lookup_alter_ne, list_lookup_alter_eq, Hi
        by auto.
      cbn. f_equal. unfold classList_add, classList_remove. set_solver.
    + rewrite !list_lookup_alter_ne by auto. reflexivity.
Qed.

(** X9: on a button at rest (enabled, label visible, spinner hidden)
    [setLoadingState] with [true] and then with [false] gives back the page
    as it was. *)
Theorem setLoadingState_round_trip (buttonId : jsstring) (st : State)
  (button : Element) (i j : nat) (ci cj : gset jsstring)
  (Hb : document st !! buttonId = Some button)
  (Hd : disabled button = false)
  (Hi : querySelector (js "btn-text") button = Some i)
  (Hj : querySelector (js "loading-spinner") button = Some j)
  (Hci : descendants button !! i = Some ci) (Hvisible : js "hidden" ∉ ci)
  (Hcj : descendants button !! j = Some cj) (Hhidden : js "hidden" ∈ cj) :
  (let* _ := setLoadingState buttonId true in setLoadingState buttonId false) st
  = (st, Normal tt).
Proof.
  unfold bind at 1. unfold setLoadingState at 1. rewrite Hb. cbv zeta. rewrite Hi, Hj.
  unfold bind, updateDescendant, updateElement. rewrite Hb.
  cbv beta iota. cbn [document setDocument]. rewrite !lookup_insert_eq.
  cbv beta iota. cbn [document setDocument]. rewrite !lookup_insert_eq.
  unfold setLoadingState. cbn [document setDocument]. rewrite lookup_insert_eq.
  cbv zeta.
  rewrite !querySelector_alter
    by (intros c; first [apply classList_add_other | apply classList_remove_other];
        js_neq).
  change (querySelector (js "btn-text") (withDisabled true button))
    with (querySelector (js "btn-text") button).
  change (querySelector (js "loading-spinner") (withDisabled true button))
    with (querySelector (js "loading-spinner") button).
  rewrite Hi, Hj. unfold bind, updateDescendant, updateElement.
  cbn [document setDocument]. rewrite !lookup_insert_eq.
  cbv beta iota. cbn [document setDocument]. rewrite !lookup_insert_eq.
  cbv beta iota. cbn [document setDocument]. rewrite !lookup_insert_eq.
  f_equal. unfold setDocument. cbn. rewrite !insert_insert_eq.
  apply (setDocument_id st). apply insert_id. rewrite Hb. f_equal.
  unfold withDescendants, withDisabled. cbn.
  rewrite (hidden_round_trip i j (descendants button) ci cj) by assumption.
  rewrite <- Hd. symmetry. apply element_eta.
Qed.

Lemma setLoadingState_round_trip_witness :
  (let* _ := setLoadingState (js "loginBtn") true in
   setLoadingState (js "loginBtn") false) (loginPage (js "alice") (js "secret") true)
  = (loginPage (js "alice") (js "secret") true, Normal tt).
Proof.
  apply (setLoadingState_round_trip (js "loginBtn") _ submitButton 0 1
           {[js "btn-text"]} {[js "loading-spinner"; js "hidden"]}).
  - vm_compute. reflexivity.
  - reflexivity.
  - vm_compute. reflexivity.
  - vm_compute. reflexivity.
  - reflexivity.
  - apply (bool_decide_unpack _). vm_compute. exact I.
  - reflexivity.
  - apply (bool_decide_unpack _). vm_compute. exact I.
Defined.

(** ** Notifications come and go *)

Lemma filter_all {A} (P : A -> Prop) `{forall x, Decision (P x)} (l : list A) :
  Forall P l -> filter P l = l.
Proof.
  induction 1 as [|x l Hx Hl IH]; [reflexivity|].
  rewrite filter_cons_True by assumption. rewrite IH. reflexivity.
Qed.

Lemma freshNodes_kept n st el :
  freshNodes st -> (nextNode st <= n)%N -> (exists id, document st !! id = Some el) ->
  withChildNodes (filter (fun x => nid x ≠ n) (childNodes el)) el = el.
Proof.
  intros Hfresh Hn [id Hel]. rewrite filter_all; [apply element_eta|].
  apply Forall_forall. intros x Hx. specialize (Hfresh id el x Hel Hx). lia.
Qed.

(** X10: on a page whose appended nodes were all numbered before the
    next node, [showNotification] appends one node, keeps that numbering
    invariant and starts one 5000 ms timer; that timer's callback removes
    the node and gives back the document as it was, and if another
    notification arrived in between it removes the first and leaves the
    second. *)
Theorem notification_removal (message type : jsstring) (st : State)
  (container : Element) (Hfresh : freshNodes st)
  (Hc : document st !! js "notificationContainer" = Some container) :
  exists st1,
    showNotification message type st = (st1, Normal tt) /\
    freshNodes st1 /\
    timeouts st1 = timeouts st ++ [(5000%N, CbRemoveNotification (nextNode st))] /\
    (exists st2,
       runCallback (CbRemoveNotification (nextNode st)) st1 = (st2, Normal tt) /\
       document st2 = document st) /\
    forall message2 type2,
      exists st1' st2',
        showNotification message2 type2 st1 = (st1', Normal tt) /\
        runCallback (CbRemoveNotification (nextNode st)) st1' = (st2', Normal tt) /\
        document st2' !! js "notificationContainer"
        = Some (withChildNodes
                  (childNodes container ++
                     [{| nid := N.succ (nextNode st);
                         className := js "notification notification-" ++ type2;
                         notificationText := message2 |}]) container).
Proof.
  destruct (showNotification_ok message type st container Hc)
    as (st1 & E1 & D1 & T1 & N1 & _).
  exists st1. split; [exact E1|].
  assert (freshNodes st1) as Hfresh1.
  { intros id el n Hel Hn. rewrite N1. rewrite D1 in Hel.
    destruct (decide (id = js "notificationContainer")) as [->|Hne].
    - rewrite lookup_insert_eq in Hel. injection Hel as <-. cbn in Hn.
      apply elem_of_app in Hn as [Hn|Hn].
      + specialize (Hfresh _ _ _ Hc Hn). lia.
      + apply list_elem_of_singleton in Hn as ->. cbn. lia.
    - rewrite lookup_insert_ne in Hel by congruence.
      specialize (Hfresh _ _ _ Hel Hn). lia. }
  split; [exact Hfresh1|]. split; [exact T1|]. split.
  - eexists. split; [reflexivity|]. apply map_eq. intros id.
    cbn [document setDocument]. rewrite lookup_fmap, D1. destruct (decide (id = js "notificationContainer")) as [->|Hne].
    + rewrite lookup_insert_eq, Hc. cbn. f_equal. unfold withChildNodes. cbn.
      rewrite filter_app.
      rewrite filter_cons_False by (cbn; auto). rewrite filter_nil, app_nil_r.
      rewrite filter_all; [apply element_eta|].
      apply Forall_forall. intros x Hx. specialize (Hfresh _ _ _ Hc Hx). lia.
    + rewrite lookup_insert_ne by congruence.
      destruct (document st !! id) as [el|] eqn:Hel; [|reflexivity]. cbn. f_equal.
      apply (freshNodes_kept _ st); [assumption | lia | eauto].
  - intros message2 type2.
    assert (document st1 !! js "notificationContainer"
            = Some (withChildNodes
                      (childNodes container ++
                         [{| nid := nextNode st;
                             className := js "notification notification-" ++ type;
                             notificationText := message |}]) container)) as Hc1
      by (rewrite D1; apply lookup_insert_eq).
    destruct (showNotification_ok message2 type2 st1 _ Hc1)
      as (st1' & E1' & D1' & _).
    exists st1'. eexists. split; [exact E1'|]. split; [reflexivity|].
    cbn [document setDocument]. rewrite lookup_fmap, D1', lookup_insert_eq. cbn. f_equal.
    unfold withChildNodes. cbn. f_equal. rewrite N1.
    rewrite !filter_app, !filter_cons_False, !filter_nil by (cbn; auto).
    rewrite filter_cons_True by (cbn; lia). rewrite filter_nil, app_nil_r.
    f_equal. apply filter_all.
    apply Forall_forall. intros x Hx. specialize (Hfresh _ _ _ Hc Hx). lia.
Qed.

Lemma notification_removal_witness :
  exists st1 st2,
    showNotification (js "Login successful! Welcome back to PawPals!") (js "success")
      (loginPage (js "alice") (js "secret") true) = (st1, Normal tt) /\
    runCallback (CbRemoveNotification 0) st1 = (st2, Normal tt) /\
    document st2 = document (loginPage (js "alice") (js "secret") true).
Proof.
  destruct (notification_removal (js "Login successful! Welcome back to PawPals!")
              (js "success") (loginPage (js "alice") (js "secret") true) blank)
    as (st1 & E1 & _ & _ & (st2 & E2 & D2) & _).
  - intros id el n Hel Hn. exfalso.
    assert (childNodes el = []) as Hnil.
    { revert Hel. unfold loginPage, page. cbn [document list_to_map foldr].
      rewrite !lookup_insert. repeat case_decide; intros Hel;
        try (injection Hel as <-; reflexivity).
      rewrite lookup_empty in Hel. discriminate. }
    rewrite Hnil in Hn. inversion Hn.
  - vm_compute. reflexivity.
  - exists st1, st2. auto.
Defined.

(** ** The handlers after the simulated call *)

Lemma tryAwait_awaiting before after handler final st st1 k :
  tryAwait before after handler final st = (st1, Normal (Awaiting k)) ->
  before st = (st1, Normal tt) /\
  k = (fun o =>
         tryCatchFinally
           (match o with Fulfilled => after | Rejected e => throw e end)
           handler final).
Proof.
  unfold tryAwait. destruct (before st) as [s [[]|e]].
  - intros [= <- <-]. auto.
  - destruct (tryCatchFinally (throw e) handler final s) as [s' [[]|e']]; discriminate.
Qed.

Lemma handleLogin_continuation st st1 k :
  handleLogin st = (st1, Normal (Awaiting k)) ->
  exists username password rememberMe,
    readLoginForm st = (st, Normal (username, password, rememberMe)) /\
    k = (fun o =>
           tryCatchFinally
             (match o with
              | Fulfilled =>
                  let* _ :=
                    if rememberMe : bool then
                      modify (fun st => setLocalStorage
                                (<[js "rememberedUsername" := username]>
                                   (localStorage st)) st)
                    else
                      modify (fun st => setLocalStorage
                                (delete (js "rememberedUsername") (localStorage st))
                                st) in
                  let* _ := showNotification
                              (js "Login successful! Welcome back to PawPals!")
                              (js "success") in
                  modify (pushTimeout 1500 CbLoginRedirect)
              | Rejected e => throw e
              end)
             (fun error =>
                showNotification (js "Login failed. Please check your credentials.")
                  (js "error"))
             (setLoadingState (js "loginBtn") false)).
Proof.
  unfold handleLogin. unfold bind at 1.
  destruct (readLoginForm st) as [st0 [[[u p] r]|e]] eqn:Hread; [|discriminate].
  apply readLoginForm_pure in Hread as Hst. subst st0.
  unfold bind at 1.
  destruct (validateLoginForm_result u p st) as (st' & E & _). rewrite E.
  destruct (truthy u && truthy p); cbn [negb]; [|discriminate].
  intros H. apply tryAwait_awaiting in H as [_ ->]. exists u, p, r. auto.
Qed.

Lemma handleRegister_continuation st st1 k :
  handleRegister st = (st1, Normal (Awaiting k)) ->
  exists formData,
    readRegistrationForm st = (st, Normal formData) /\
    k = (fun o =>
           tryCatchFinally
             (match o with
              | Fulfilled =>
                  let* _ := showNotification
                              (js "Account created successfully! Welcome to PawPals!")
                              (js "success") in
                  modify (pushTimeout 1500 (CbRegisterRedirect (fd_username formData)))
              | Rejected e => throw e
              end)
             (fun error =>
                showNotification (js "Registration failed. Please try again.")
                  (js "error"))
             (setLoadingState (js "registerBtn") false)).
Proof.
  unfold handleRegister. unfold bind at 1.
  destruct (readRegistrationForm st) as [st0 [fd|e]] eqn:Hread; [|discriminate].
  apply readRegistrationForm_pure in Hread as Hst. subst st0.
  unfold bind at 1.
  destruct (validateRegistrationForm_result fd st) as (st' & E & _). rewrite E.
  destruct (registrationValid fd); cbn [negb]; [|discriminate].
  intros H. apply tryAwait_awaiting in H as [_ ->]. exists fd. auto.
Qed.

Lemma handleForgotPassword_continuation st st1 k :
  handleForgotPassword st = (st1, Normal (Awaiting k)) ->
  k = (fun o =>
         tryCatchFinally
           (match o with
            | Fulfilled =>
                let* _ := updateElement (js "forgotPasswordForm")
                            (fun el => withClassList
                                         (classList_add (js "hidden") (classList el)) el) in
                let* _ := updateElement (js "resetSuccessMessage")
                            (fun el => withClassList
                                         (classList_remove (js "hidden") (classList el))
                                         el) in
                let* _ := updateElement (js "backToLogin")
                            (fun el => withClassList
                                         (classList_remove (js "hidden") (classList el))
                                         el) in
                showNotification (js "Password reset link sent to your email!")
                  (js "success")
            | Rejected e => throw e
            end)
           (fun error =>
              showNotification (js "Failed to send reset link. Please try again.")
                (js "error"))
           (setLoadingState (js "forgotBtn") false)).
Proof.
  unfold handleForgotPassword. unfold bind at 1.
  destruct (getValue (js "forgotEmail") st) as [st0 [email|e]] eqn:Hread; [|discriminate].
  cbv zeta. unfold bind at 1.
  destruct (validateEmail_string (trim email) (Some (js "forgotEmailError")) st0)
    as (st' & E & _). rewrite E.
  destruct (test emailRegex (trim email)); cbn [negb]; [|discriminate].
  intros H. apply tryAwait_awaiting in H as [_ ->]. reflexivity.
Qed.

Lemma rejected_shows_failure buttonId message e st container :
  buttonId ≠ js "notificationContainer" ->
  hasButton buttonId st ->
  document st !! js "notificationContainer" = Some container ->
  exists st',
    tryCatchFinally (throw e)
      (fun error => showNotification message (js "error"))
      (setLoadingState buttonId false) st = (st', Normal tt) /\
    failureShown buttonId message st st'.
Proof.
  intros Hne Hbtn Hc.
  destruct (showNotification_ok message (js "error") st container Hc)
    as (st1 & E1 & D1 & T1 & _ & L1 & H1).
  unfold tryCatchFinally, throw. rewrite E1.
  assert (hasButton buttonId st1) as Hbtn1.
  { apply (hasButton_document _ st); [|exact Hbtn]. rewrite D1.
    apply lookup_insert_ne. congruence. }
  destruct (setLoadingState_ok buttonId false st1 Hbtn1) as (st2 & E2 & T2 & Hf & _).
  rewrite E2. exists st2. split; [reflexivity|]. exists container.
  destruct T2 as (L2 & H2 & Tt2 & _ & Hd). split; [exact Hc|]. split.
  { rewrite Hd, D1; [apply lookup_insert_eq|]. intros Hin.
    apply list_elem_of_singleton in Hin. congruence. }
  repeat split; congruence.
Qed.

(** X11: when the simulated call is rejected, the rest of each of the
    three handlers, resumed on a page with its button and the notification
    container, completes normally and shows the handler's own failure
    message: one error notification and its removal timer, no redirect
    timer, the button idle again, storage and location untouched. *)
Theorem rejected_call_shows_failure (e : Exn) (st st1 st2 : State)
  (k : Settlement -> M unit) (container : Element)
  (Hc : document st2 !! js "notificationContainer" = Some container) :
  (handleLogin st = (st1, Normal (Awaiting k)) -> hasButton (js "loginBtn") st2 ->
   exists st3,
     k (Rejected e) st2 = (st3, Normal tt) /\
     failureShown (js "loginBtn")
       (js "Login failed. Please check your credentials.") st2 st3) /\
  (handleRegister st = (st1, Normal (Awaiting k)) ->
   hasButton (js "registerBtn") st2 ->
   exists st3,
     k (Rejected e) st2 = (st3, Normal tt) /\
     failureShown (js "registerBtn")
       (js "Registration failed. Please try again.") st2 st3) /\
  (handleForgotPassword st = (st1, Normal (Awaiting k)) ->
   hasButton (js "forgotBtn") st2 ->
   exists st3,
     k (Rejected e) st2 = (st3, Normal tt) /\
     failureShown (js "forgotBtn")
       (js "Failed to send reset link. Please try again.") st2 st3).
Proof.
  split; [|split]; intros Hk Hbtn.
  - apply handleLogin_continuation in Hk as (u & p & r & _ & ->).
    apply (rejected_shows_failure _ _ e st2 container); [js_neq | exact Hbtn | exact Hc].
  - apply handleRegister_continuation in Hk as (fd & _ & ->).
    apply (rejected_shows_failure _ _ e st2 container); [js_neq | exact Hbtn | exact Hc].
  - apply handleForgotPassword_continuation in Hk as ->.
    apply (rejected_shows_failure _ _ e st2 container); [js_neq | exact Hbtn | exact Hc].
Qed.

Lemma sampleLogin_awaits :
  handleLogin sampleLogin
  = (fst (handleLogin sampleLogin),
     Normal (Awaiting (continuationOf (handleLogin sampleLogin)))).
Proof.
  destruct (handleLogin_valid sampleLogin (js "alice") (js "secret") true)
    as (st1 & k & Hk & _).
  - vm_compute. reflexivity.
  - discriminate.
  - discriminate.
  - exists submitButton, 0, 1. repeat split; vm_compute; reflexivity.
  - rewrite Hk. reflexivity.
Qed.

Lemma sampleLogin_button : hasButton (js "loginBtn") (fst (handleLogin sampleLogin)).
Proof.
  exists (withDescendants [{[js "btn-text"; js "hidden"]}; {[js "loading-spinner"]}]
            (withDisabled true blank)), 0, 1.
  repeat split; vm_compute; reflexivity.
Qed.

Lemma rejected_call_shows_failure_witness :
  exists st3,
    continuationOf (handleLogin sampleLogin) (Rejected TypeError)
      (fst (handleLogin sampleLogin)) = (st3, Normal tt) /\
    failureShown (js "loginBtn") (js "Login failed. Please check your credentials.")
      (fst (handleLogin sampleLogin)) st3.
Proof.
  apply (proj1 (rejected_call_shows_failure TypeError sampleLogin
                  (fst (handleLogin sampleLogin)) (fst (handleLogin sampleLogin))
                  (continuationOf (handleLogin sampleLogin)) blank
                  ltac:(vm_compute; reflexivity))).
  - apply sampleLogin_awaits.
  - apply sampleLogin_button.
Defined.

Lemma fulfilled_shows_success buttonId message cb handler st container :
  buttonId ≠ js "notificationContainer" ->
  hasButton buttonId st ->
  document st !! js "notificationContainer" = Some container ->
  exists st',
    tryCatchFinally
      (let* _ := showNotification message (js "success") in
       modify (pushTimeout 1500 cb))
      handler (setLoadingState buttonId false) st = (st', Normal tt) /\
    formState buttonId st' = Idle /\
    document st' !! js "notificationContainer"
    = Some (withChildNodes
              (childNodes container ++
                 [{| nid := nextNode st;
                     className := js "notification notification-" ++ js "success";
                     notificationText := message |}]) container) /\
    timeouts st'
    = timeouts st ++ [(5000%N, CbRemoveNotification (nextNode st)); (1500%N, cb)] /\
    localStorage st' = localStorage st /\
    location_href st' = location_href st.
Proof.
  intros Hne Hbtn Hc.
  destruct (showNotification_ok message (js "success") st container Hc)
    as (st1 & E1 & D1 & T1 & _ & L1 & H1).
  unfold tryCatchFinally, bind. rewrite E1. cbn [modify].
  assert (hasButton buttonId (pushTimeout 1500 cb st1)) as Hbtn1.
  { apply (hasButton_document _ st); [|exact Hbtn]. cbn [document pushTimeout].
    rewrite D1. apply lookup_insert_ne. congruence. }
  destruct (setLoadingState_ok buttonId false _ Hbtn1) as (st2 & E2 & T2 & Hf & _).
  rewrite E2. exists st2. split; [reflexivity|]. split; [exact Hf|].
  destruct T2 as (L2 & H2 & Tt2 & _ & Hd). split.
  { rewrite Hd; [cbn [document pushTimeout]; rewrite D1; apply lookup_insert_eq|].
    intros Hin. apply list_elem_of_singleton in Hin. congruence. }
  split; [rewrite Tt2; cbn [timeouts pushTimeout]; rewrite T1, <- app_assoc; reflexivity|].
  split; [rewrite L2; exact L1 | rewrite H2; exact H1].
Qed.

(** X12: when the simulated call is fulfilled, the rest of [handleLogin],
    resumed on a page with the button and the notification container,
    appends the success notification, ends the loading state and starts the
    1500 ms timer of the redirect, leaving the location alone until then; the
    redirect callback sets the location to [homepage.html] and touches
    neither document nor storage. *)
Theorem login_success (st st1 st2 : State) (k : Settlement -> M unit)
  (container : Element)
  (Hk : handleLogin st = (st1, Normal (Awaiting k)))
  (Hbtn : hasButton (js "loginBtn") st2)
  (Hc : document st2 !! js "notificationContainer" = Some container) :
  exists st3,
    k Fulfilled st2 = (st3, Normal tt) /\
    formState (js "loginBtn") st3 = Idle /\
    document st3 !! js "notificationContainer"
    = Some (withChildNodes
              (childNodes container ++
                 [{| nid := nextNode st2;
                     className := js "notification notification-" ++ js "success";
                     notificationText :=
                       js "Login successful! Welcome back to PawPals!" |}])
              container) /\
    timeouts st3
    = timeouts st2 ++ [(5000%N, CbRemoveNotification (nextNode st2));
                       (1500%N, CbLoginRedirect)] /\
    location_href st3 = location_href st2 /\
    forall st4,
      exists st5,
        runCallback CbLoginRedirect st4 = (st5, Normal tt) /\
        location_href st5 = js "homepage.html" /\
        document st5 = document st4 /\ localStorage st5 = localStorage st4.
Proof.
  apply handleLogin_continuation in Hk as (u & p & r & _ & ->).
  assert (forall f : State -> State,
            (forall s, document (f s) = document s /\ timeouts (f s) = timeouts s /\
                       nextNode (f s) = nextNode s /\
                       location_href (f s) = location_href s) ->
            exists st3,
              tryCatchFinally
                (let* _ := showNotification
                             (js "Login successful! Welcome back to PawPals!")
                             (js "success") in
                 modify (pushTimeout 1500 CbLoginRedirect))
                (fun error =>
                   showNotification (js "Login failed. Please check your credentials.")
                     (js "error"))
                (setLoadingState (js "loginBtn") false) (f st2) = (st3, Normal tt) /\
              formState (js "loginBtn") st3 = Idle /\
              document st3 !! js "notificationContainer"
              = Some (withChildNodes
                        (childNodes container ++
                           [{| nid := nextNode st2;
                               className :=
                                 js "notification notification-" ++ js "success";
                               notificationText :=
                                 js "Login successful! Welcome back to PawPals!" |}])
                        container) /\
              timeouts st3
              = timeouts st2 ++ [(5000%N, CbRemoveNotification (nextNode st2));
                                 (1500%N, CbLoginRedirect)] /\
              location_href st3 = location_href st2) as Hgen.
  { intros f Hf. destruct (Hf st2) as (Hd & Ht & Hn & Hh).
    destruct (fulfilled_shows_success (js "loginBtn")
                (js "Login successful! Welcome back to PawPals!") CbLoginRedirect
                (fun error =>
                   showNotification (js "Login failed. Please check your credentials.")
                     (js "error"))
                (f st2) container) as (st3 & E & F & D & T & _ & H).
    - js_neq.
    - apply (hasButton_document _ st2); [rewrite Hd; reflexivity | exact Hbtn].
    - rewrite Hd. exact Hc.
    - exists st3. rewrite Hn, Ht, Hh in *. auto. }
  assert (forall st4,
            exists st5,
              runCallback CbLoginRedirect st4 = (st5, Normal tt) /\
              location_href st5 = js "homepage.html" /\
              document st5 = document st4 /\ localStorage st5 = localStorage st4) as Hcb.
  { intros st4. eexists. split; [reflexivity|]. cbn. auto. }
  destruct r; rewrite tryCatchFinally_modify.
  - destruct (Hgen (fun s => setLocalStorage
                      (<[js "rememberedUsername" := u]> (localStorage s)) s))
      as (st3 & E & F & D & T & H); [intros s; cbn; auto|].
    exists st3. split; [exact E|]. auto 10.
  - destruct (Hgen (fun s => setLocalStorage
                      (delete (js "rememberedUsername") (localStorage s)) s))
      as (st3 & E & F & D & T & H); [intros s; cbn; auto|].
    exists st3. split; [exact E|]. auto 10.
Qed.

Lemma login_success_witness :
  exists st3 st5,
    continuationOf (handleLogin sampleLogin) Fulfilled (fst (handleLogin sampleLogin))
    = (st3, Normal tt) /\
    timeouts st3
    = [(1500%N, CbSimulatedAPI); (5000%N, CbRemoveNotification 0%N);
       (1500%N, CbLoginRedirect)] /\
    runCallback CbLoginRedirect st3 = (st5, Normal tt) /\
    location_href st5 = js "homepage.html".
Proof.
  destruct (login_success sampleLogin (fst (handleLogin sampleLogin))
              (fst (handleLogin sampleLogin))
              (continuationOf (handleLogin sampleLogin)) blank)
    as (st3 & E & _ & _ & T & _ & Hcb).
  - apply sampleLogin_awaits.
  - apply sampleLogin_button.
  - vm_compute. reflexivity.
  - destruct (Hcb st3) as (st5 & E5 & H5 & _).
    exists st3, st5. split; [exact E|]. split; [|auto].
    rewrite T. vm_compute. reflexivity.
Defined.

(** ** The redirect after a registration *)

Lemma keeps_handleRegister : keepsStorage handleRegister.
Proof.
  unfold handleRegister. apply keeps_bind.
  { intros st. destruct (readRegistrationForm st) as [st' c] eqn:E.
    apply readRegistrationForm_pure in E. subst st'. reflexivity. }
  intros formData. apply keeps_bind.
  { apply keeps_touches. intros st.
    destruct (validateRegistrationForm_result formData st) as (st' & E & T).
    rewrite E. eauto. }
  intros valid. destruct valid; cbn [negb]; [|apply keeps_ret].
  apply keeps_tryAwait.
  - apply keeps_bind; [apply keeps_setLoadingState|]. intros _.
    apply keeps_modify. reflexivity.
  - intros e. apply keeps_showNotification.
  - apply keeps_setLoadingState.
Qed.

Lemma keeps_register_continuation st o :
  keepsStorage (continuationOf (handleRegister st) o).
Proof.
  unfold continuationOf.
  destruct (handleRegister st) as [st1 [[|k]|e]] eqn:E; cbn [snd];
    try apply keeps_ret.
  destruct (handleRegister_continuation _ _ _ E) as (formData & _ & ->).
  apply keeps_tryCatchFinally.
  - destruct o; [|apply keeps_throw].
    apply keeps_bind; [apply keeps_showNotification|]. intros _.
    apply keeps_modify. reflexivity.
  - intros e. apply keeps_showNotification.
  - apply keeps_setLoadingState.
Qed.

(** C6: a valid registration is submitted, the success notification is
    shown and the redirect is scheduled, but the login page does not come
    up with the username filled in.  Neither [handleRegister] nor the rest
    of it after the call writes the browser storage.  The callback run
    1500 ms later sets the location to [login.html], leaves the storage as
    it is, and assigns the username to the element [loginUsername] of the
    document it runs in: that is the registration document, and when it has
    no such element the assignment throws a [TypeError] and the document is
    left as it was.  On the sample registration page, which has the
    registration form and no login field, the handler waits for the call,
    the fulfilled call shows the success notification and schedules the
    callback, the callback throws after setting the location, the storage
    is still empty, and a login page loaded on that storage is left by
    [loadRememberedUser] with its username field empty. *)
Theorem registration_redirect_loses_username :
  keepsStorage handleRegister /\
  (forall st o, keepsStorage (continuationOf (handleRegister st) o)) /\
  (forall username st,
     location_href (fst (runCallback (CbRegisterRedirect username) st))
     = js "login.html" /\
     localStorage (fst (runCallback (CbRegisterRedirect username) st))
     = localStorage st /\
     match document st !! js "loginUsername" with
     | Some field =>
         snd (runCallback (CbRegisterRedirect username) st) = Normal tt /\
         document (fst (runCallback (CbRegisterRedirect username) st))
         = <[js "loginUsername" := withValue username field]> (document st)
     | None =>
         snd (runCallback (CbRegisterRedirect username) st) = Throw TypeError /\
         document (fst (runCallback (CbRegisterRedirect username) st)) = document st
     end) /\
  match handleRegister sampleRegistrationDocument with
  | (st1, Normal (Awaiting k)) =>
      match k Fulfilled st1 with
      | (st2, Normal _) =>
          (notificationText <$>
             (childNodes <$> document st2 !! js "notificationContainer") ≫= last)
          = Some (js "Account created successfully! Welcome to PawPals!") /\
          last (timeouts st2) = Some (1500%N, CbRegisterRedirect (js "pet_lover")) /\
          snd (runCallback (CbRegisterRedirect (js "pet_lover")) st2)
          = Throw TypeError /\
          location_href (fst (runCallback (CbRegisterRedirect (js "pet_lover")) st2))
          = js "login.html" /\
          localStorage (fst (runCallback (CbRegisterRedirect (js "pet_lover")) st2))
          = ∅ /\
          loadRememberedUser
            (setLocalStorage
               (localStorage
                  (fst (runCallback (CbRegisterRedirect (js "pet_lover")) st2)))
               (loginPage [] [] false))
          = (loginPage [] [] false, Normal tt) /\
          value <$> document (loginPage [] [] false) !! js "loginUsername" = Some []
      | _ => False
      end
  | _ => False
  end.
Proof.
  split; [exact keeps_handleRegister|]. split; [exact keeps_register_continuation|].
  split.
  - intros username st. unfold runCallback, bind, goToLogin, modify, updateElement.
    cbn [document setHref]. destruct (document st !! js "loginUsername") as [field|];
      cbn; repeat split; reflexivity.
  - vm_compute. repeat split; reflexivity.
Qed.

(** ** The forgot-password form after a fulfilled call *)

Lemma updateElement_ok id f st el :
  document st !! id = Some el ->
  updateElement id f st = (setDocument (<[id := f el]> (document st)) st, Normal tt).
Proof. intros H. unfold updateElement. rewrite H. reflexivity. Qed.

(** X13: when the simulated call is fulfilled, the rest of
    [handleForgotPassword], resumed on a page that has the button, the
    container, the form, the success message and the link back, hides the
    form, unhides the message and the link, appends the success
    notification, ends the loading state and starts no redirect. *)
Theorem forgotPassword_success (st st1 st2 : State) (k : Settlement -> M unit)
  (container form message back : Element)
  (Hk : handleForgotPassword st = (st1, Normal (Awaiting k)))
  (Hbtn : hasButton (js "forgotBtn") st2)
  (Hc : document st2 !! js "notificationContainer" = Some container)
  (Hform : document st2 !! js "forgotPasswordForm" = Some form)
  (Hmessage : document st2 !! js "resetSuccessMessage" = Some message)
  (Hback : document st2 !! js "backToLogin" = Some back) :
  exists st3,
    k Fulfilled st2 = (st3, Normal tt) /\
    formState (js "forgotBtn") st3 = Idle /\
    document st3 !! js "forgotPasswordForm"
    = Some (withClassList (classList_add (js "hidden") (classList form)) form) /\
    document st3 !! js "resetSuccessMessage"
    = Some (withClassList (classList_remove (js "hidden") (classList message)) message) /\
    document st3 !! js "backToLogin"
    = Some (withClassList (classList_remove (js "hidden") (classList back)) back) /\
    document st3 !! js "notificationContainer"
    = Some (withChildNodes
              (childNodes container ++
                 [{| nid := nextNode st2;
                     className := js "notification notification-" ++ js "success";
                     notificationText := js "Password reset link sent to your email!" |}])
              container) /\
    timeouts st3 = timeouts st2 ++ [(5000%N, CbRemoveNotification (nextNode st2))] /\
    location_href st3 = location_href st2.
Proof.
  apply handleForgotPassword_continuation in Hk as ->.
  unfold tryCatchFinally, bind.
  rewrite (updateElement_ok _ _ st2 form Hform).
  set (sa := setDocument _ st2).
  assert (document sa !! js "resetSuccessMessage" = Some message) as Hm1.
  { subst sa. cbn [document setDocument]. rewrite lookup_insert_ne by js_neq. exact Hmessage. }
  rewrite (updateElement_ok _ _ sa message Hm1).
  set (sb := setDocument _ sa).
  assert (document sb !! js "backToLogin" = Some back) as Hb1.
  { subst sb sa. cbn [document setDocument]. rewrite !lookup_insert_ne by js_neq.
    exact Hback. }
  rewrite (updateElement_ok _ _ sb back Hb1).
  set (sc := setDocument _ sb).
  assert (document sc !! js "notificationContainer" = Some container) as Hc1.
  { subst sc sb sa. cbn [document setDocument]. rewrite !lookup_insert_ne by js_neq.
    exact Hc. }
  destruct (showNotification_ok (js "Password reset link sent to your email!")
              (js "success") sc container Hc1) as (sd & E & D & T & _ & _ & H).
  rewrite E.
  assert (hasButton (js "forgotBtn") sd) as Hbtn1.
  { apply (hasButton_document _ st2); [|exact Hbtn]. rewrite D. subst sc sb sa.
    cbn [document setDocument]. rewrite !lookup_insert_ne by js_neq. reflexivity. }
  destruct (setLoadingState_ok (js "forgotBtn") false sd Hbtn1)
    as (st3 & E3 & T3 & Hf & _).
  rewrite E3. exists st3. split; [reflexivity|]. split; [exact Hf|].
  destruct T3 as (_ & H3 & Tt3 & _ & Hd).
  rewrite !Hd by id_notin. rewrite D. subst sc sb sa. cbn [document setDocument].
  split; [rewrite !lookup_insert_ne by js_neq; apply lookup_insert_eq|].
  split; [rewrite !lookup_insert_ne by js_neq; apply lookup_insert_eq|].
  split; [rewrite !lookup_insert_ne by js_neq; apply lookup_insert_eq|].
  split; [apply lookup_insert_eq|].
  split; [rewrite Tt3, T; reflexivity | rewrite H3, H; reflexivity].
Qed.

(** X14: on a page without the success message element a fulfilled
    call makes the rest of [handleForgotPassword] hide the form and then,
    the [TypeError] being caught, append the failure notification "Failed
    to send reset link. Please try again."; it completes normally with the
    button idle. *)
Theorem forgotPassword_missing_message (st st1 st2 : State)
  (k : Settlement -> M unit) (container form : Element)
  (Hk : handleForgotPassword st = (st1, Normal (Awaiting k)))
  (Hbtn : hasButton (js "forgotBtn") st2)
  (Hc : document st2 !! js "notificationContainer" = Some container)
  (Hform : document st2 !! js "forgotPasswordForm" = Some form)
  (Hmessage : document st2 !! js "resetSuccessMessage" = None) :
  exists st3,
    k Fulfilled st2 = (st3, Normal tt) /\
    formState (js "forgotBtn") st3 = Idle /\
    document st3 !! js "forgotPasswordForm"
    = Some (withClassList (classList_add (js "hidden") (classList form)) form) /\
    document st3 !! js "notificationContainer"
    = Some (withChildNodes
              (childNodes container ++
                 [{| nid := nextNode st2;
                     className := js "notification notification-" ++ js "error";
                     notificationText :=
                       js "Failed to send reset link. Please try again." |}])
              container).
Proof.
  apply handleForgotPassword_continuation in Hk as ->.
  unfold tryCatchFinally, bind.
  rewrite (updateElement_ok _ _ st2 form Hform).
  set (sa := setDocument _ st2).
  assert (updateElement (js "resetSuccessMessage")
            (fun el => withClassList (classList_remove (js "hidden") (classList el)) el)
            sa = (sa, Throw TypeError)) as ->.
  { unfold updateElement. subst sa. cbn [document setDocument].
    rewrite lookup_insert_ne by js_neq. rewrite Hmessage. reflexivity. }
  assert (document sa !! js "notificationContainer" = Some container) as Hc1.
  { subst sa. cbn [document setDocument]. rewrite !lookup_insert_ne by js_neq.
    exact Hc. }
  destruct (showNotification_ok (js "Failed to send reset link. Please try again.")
              (js "error") sa container Hc1) as (sd & E & D & T & _ & _ & H).
  rewrite E.
  assert (hasButton (js "forgotBtn") sd) as Hbtn1.
  { apply (hasButton_document _ st2); [|exact Hbtn]. rewrite D. subst sa.
    cbn [document setDocument]. rewrite !lookup_insert_ne by js_neq. reflexivity. }
  destruct (setLoadingState_ok (js "forgotBtn") false sd Hbtn1)
    as (st3 & E3 & T3 & Hf & _).
  rewrite E3. exists st3. split; [reflexivity|]. split; [exact Hf|].
  destruct T3 as (_ & H3 & Tt3 & _ & Hd).
  rewrite !Hd by id_notin. rewrite D. subst sa. cbn [document setDocument].
  split; [rewrite !lookup_insert_ne by js_neq; apply lookup_insert_eq|].
  apply lookup_insert_eq.
Qed.

Lemma awaits_continuationOf (h : M Async) st st1 k :
  h st = (st1, Normal (Awaiting k)) ->
  h st = (fst (h st), Normal (Awaiting (continuationOf (h st)))).
Proof. intros H. rewrite H. reflexivity. Qed.

Lemma handleForgotPassword_valid st email :
  getValue (js "forgotEmail") st = (st, Normal email) ->
  test emailRegex (trim email) = true ->
  hasButton (js "forgotBtn") st ->
  exists st1 k,
    handleForgotPassword st = (st1, Normal (Awaiting k)) /\
    formState (js "forgotBtn") st1 = Submitting /\
    timeouts st1 = timeouts st ++ [(1500%N, CbSimulatedAPI)].
Proof.
  intros Hread Hvalid Hbtn. unfold handleForgotPassword. unfold bind at 1.
  rewrite Hread. cbv beta iota zeta. unfold bind at 1.
  destruct (validateEmail_string (trim email) (Some (js "forgotEmailError")) st)
    as (st' & E & T).
  rewrite E, Hvalid. cbn [negb].
  destruct T as (_ & _ & Tt & _ & Td).
  assert (hasButton (js "forgotBtn") st') as Hbtn'.
  { apply (hasButton_document _ st); [|exact Hbtn]. apply Td. id_notin. }
  destruct (setLoadingState_ok (js "forgotBtn") true st' Hbtn')
    as (st1 & E1 & T1 & Hf & _).
  destruct T1 as (_ & _ & T1t & _).
  unfold tryAwait, bind. rewrite E1. cbn [simulateAPICall modify].
  eexists _, _. split; [reflexivity|]. split; [exact Hf|].
  cbn [timeouts pushTimeout]. congruence.
Qed.

Lemma sampleReset_awaits :
  handleForgotPassword sampleReset
  = (fst (handleForgotPassword sampleReset),
     Normal (Awaiting (continuationOf (handleForgotPassword sampleReset)))).
Proof.
  destruct (handleForgotPassword_valid sampleReset (js "user@example.com "))
    as (st1 & k & Hk & _).
  - vm_compute. reflexivity.
  - vm_compute. reflexivity.
  - exists submitButton, 0, 1. repeat split; vm_compute; reflexivity.
  - apply (awaits_continuationOf _ _ _ _ Hk).
Qed.

Lemma sampleReset_button :
  hasButton (js "forgotBtn") (fst (handleForgotPassword sampleReset)).
Proof.
  exists (withDescendants [{[js "btn-text"; js "hidden"]}; {[js "loading-spinner"]}]
            (withDisabled true blank)), 0, 1.
  repeat split; vm_compute; reflexivity.
Qed.

Lemma forgotPassword_success_witness :
  exists st3 form message,
    continuationOf (handleForgotPassword sampleReset) Fulfilled
      (fst (handleForgotPassword sampleReset)) = (st3, Normal tt) /\
    document st3 !! js "forgotPasswordForm" = Some form /\
    js "hidden" ∈ classList form /\
    document st3 !! js "resetSuccessMessage" = Some message /\
    js "hidden" ∉ classList message.
Proof.
  destruct (forgotPassword_success sampleReset (fst (handleForgotPassword sampleReset))
              (fst (handleForgotPassword sampleReset))
              (continuationOf (handleForgotPassword sampleReset))
              blank blank (withClassList {[js "hidden"]} blank)
              (withClassList {[js "hidden"]} blank))
    as (st3 & E & _ & Hform & Hmessage & _).
  - apply sampleReset_awaits.
  - apply sampleReset_button.
  - vm_compute. reflexivity.
  - vm_compute. reflexivity.
  - vm_compute. reflexivity.
  - vm_compute. reflexivity.
  - eexists st3, _, _. split; [exact E|]. split; [exact Hform|].
    split; [apply (bool_decide_unpack _); vm_compute; exact I|].
    split; [exact Hmessage|]. apply (bool_decide_unpack _). vm_compute. exact I.
Defined.

Lemma forgotPassword_missing_message_witness :
  exists st3 form container,
    continuationOf (handleForgotPassword sampleReset) Fulfilled
      (setDocument (delete (js "resetSuccessMessage")
                      (document (fst (handleForgotPassword sampleReset))))
         (fst (handleForgotPassword sampleReset))) = (st3, Normal tt) /\
    document st3 !! js "forgotPasswordForm" = Some form /\
    js "hidden" ∈ classList form /\
    document st3 !! js "notificationContainer" = Some container /\
    notificationText <$> last (childNodes container)
    = Some (js "Failed to send reset link. Please try again.").
Proof.
  destruct (forgotPassword_missing_message sampleReset
              (fst (handleForgotPassword sampleReset))
              (setDocument (delete (js "resetSuccessMessage")
                              (document (fst (handleForgotPassword sampleReset))))
                 (fst (handleForgotPassword sampleReset)))
              (continuationOf (handleForgotPassword sampleReset)) blank blank)
    as (st3 & E & _ & Hform & Hc).
  - apply sampleReset_awaits.
  - apply (hasButton_document _ (fst (handleForgotPassword sampleReset)));
      [|apply sampleReset_button].
    cbn [document setDocument]. apply lookup_delete_ne. js_neq.
  - vm_compute. reflexivity.
  - vm_compute. reflexivity.
  - cbn [document setDocument]. apply lookup_delete_eq.
  - eexists st3, _, _. split; [exact E|]. split; [exact Hform|].
    split; [apply (bool_decide_unpack _); vm_compute; exact I|].
    split; [exact Hc|]. reflexivity.
Defined.

(** ** Pages that lack what a handler needs *)

(** X15: on a page without the login button, a login that passes
    validation starts no simulated call: [handleLogin] appends the
    notification "Login failed. Please check your credentials.", starts only
    that notification's removal timer, leaves storage and location alone and
    ends with a [TypeError] (thrown again by the [finally] block). *)
Theorem handleLogin_without_button (st : State) (username password : jsstring)
  (rememberMe : bool) (container : Element)
  (Hread : readLoginForm st = (st, Normal (username, password, rememberMe)))
  (Hu : username ≠ []) (Hp : password ≠ [])
  (Hbtn : document st !! js "loginBtn" = None)
  (Hc : document st !! js "notificationContainer" = Some container) :
  exists st',
    handleLogin st = (st', Throw TypeError) /\
    document st' !! js "notificationContainer"
    = Some (withChildNodes
              (childNodes container ++
                 [{| nid := nextNode st;
                     className := js "notification notification-" ++ js "error";
                     notificationText :=
                       js "Login failed. Please check your credentials." |}])
              container) /\
    timeouts st' = timeouts st ++ [(5000%N, CbRemoveNotification (nextNode st))] /\
    localStorage st' = localStorage st /\
    location_href st' = location_href st.
Proof.
  unfold handleLogin. unfold bind at 1. rewrite Hread. cbv beta iota. unfold bind at 1.
  destruct (validateLoginForm_result username password st) as (st0 & E & T).
  rewrite E. destruct username, password; try congruence. cbn [truthy andb negb].
  destruct T as (L & H & Tt & Tn & Td).
  assert (document st0 !! js "loginBtn" = None) as Hbtn0
    by (rewrite Td by id_notin; exact Hbtn).
  assert (document st0 !! js "notificationContainer" = Some container) as Hc0
    by (rewrite Td by id_notin; exact Hc).
  unfold tryAwait, bind.
  rewrite (proj1 (setLoadingState_missing_parts (js "loginBtn") true st0) Hbtn0).
  unfold tryCatchFinally, throw.
  destruct (showNotification_ok (js "Login failed. Please check your credentials.")
              (js "error") st0 container Hc0) as (st1 & E1 & D1 & T1 & _ & L1 & H1).
  rewrite E1.
  assert (document st1 !! js "loginBtn" = None) as Hbtn1.
  { rewrite D1. rewrite lookup_insert_ne by js_neq. exact Hbtn0. }
  rewrite (proj1 (setLoadingState_missing_parts (js "loginBtn") false st1) Hbtn1).
  exists st1. split; [reflexivity|]. rewrite D1, T1, L1, H1, Tn, Tt, L, H.
  split; [apply lookup_insert_eq | auto].
Qed.

Lemma handleLogin_without_button_witness :
  exists st',
    handleLogin (page [(js "loginUsername", inputField (js "alice"));
                       (js "loginPassword", inputField (js "secret"));
                       (js "rememberMe", checkbox false);
                       (js "notificationContainer", blank)])
    = (st', Throw TypeError) /\
    timeouts st' = [(5000%N, CbRemoveNotification 0%N)].
Proof.
  destruct (handleLogin_without_button
              (page [(js "loginUsername", inputField (js "alice"));
                     (js "loginPassword", inputField (js "secret"));
                     (js "rememberMe", checkbox false);
                     (js "notificationContainer", blank)])
              (js "alice") (js "secret") false blank)
    as (st' & E & _ & T & _).
  - vm_compute. reflexivity.
  - discriminate.
  - discriminate.
  - vm_compute. reflexivity.
  - vm_compute. reflexivity.
  - exists st'. split; [exact E | exact T].
Defined.

(** X16: on a page without the notification container a fulfilled call
    makes the rest of [handleLogin] store or remove the remembered username
    as the box says and then fail: no notification, no redirect timer, the
    button idle again, and a [TypeError] as its completion. *)
Theorem login_success_without_container (st st1 st2 : State)
  (k : Settlement -> M unit)
  (Hk : handleLogin st = (st1, Normal (Awaiting k)))
  (Hbtn : hasButton (js "loginBtn") st2)
  (Hc : document st2 !! js "notificationContainer" = None) :
  exists st3 username password rememberMe,
    readLoginForm st = (st, Normal (username, password, rememberMe)) /\
    k Fulfilled st2 = (st3, Throw TypeError) /\
    localStorage st3
    = (if rememberMe : bool
       then <[js "rememberedUsername" := username]> (localStorage st2)
       else delete (js "rememberedUsername") (localStorage st2)) /\
    timeouts st3 = timeouts st2 /\
    location_href st3 = location_href st2 /\
    formState (js "loginBtn") st3 = Idle.
Proof.
  apply handleLogin_continuation in Hk as (u & p & r & Hread & ->).
  assert (forall message type s,
            document s !! js "notificationContainer" = None ->
            showNotification message type s = (bumpNode s, Throw TypeError)) as Hshow.
  { intros message type s Hs. unfold showNotification, bind, modify, updateElement.
    cbn [document bumpNode]. rewrite Hs. reflexivity. }
  assert (forall f : State -> State,
            (forall s, document (f s) = document s /\ timeouts (f s) = timeouts s /\
                       location_href (f s) = location_href s) ->
            exists st3,
              tryCatchFinally
                (let* _ := showNotification
                             (js "Login successful! Welcome back to PawPals!")
                             (js "success") in
                 modify (pushTimeout 1500 CbLoginRedirect))
                (fun error =>
                   showNotification (js "Login failed. Please check your credentials.")
                     (js "error"))
                (setLoadingState (js "loginBtn") false) (f st2)
              = (st3, Throw TypeError) /\
              localStorage st3 = localStorage (f st2) /\
              timeouts st3 = timeouts st2 /\
              location_href st3 = location_href st2 /\
              formState (js "loginBtn") st3 = Idle) as Hgen.
  { intros f Hf. destruct (Hf st2) as (Hd & Ht & Hh).
    unfold tryCatchFinally, bind.
    rewrite Hshow by (rewrite Hd; exact Hc).
    rewrite Hshow by (cbn [document bumpNode]; rewrite Hd; exact Hc).
    assert (hasButton (js "loginBtn") (bumpNode (bumpNode (f st2)))) as Hbtn1.
    { apply (hasButton_document _ st2); [|exact Hbtn]. cbn [document bumpNode].
      rewrite Hd. reflexivity. }
    destruct (setLoadingState_ok (js "loginBtn") false _ Hbtn1)
      as (st3 & E3 & T3 & Hf3 & _).
    rewrite E3. exists st3. split; [reflexivity|].
    destruct T3 as (L3 & H3 & Tt3 & _). rewrite L3, H3, Tt3. cbn. auto. }
  exists (fst (tryCatchFinally
                 (let* _ :=
                    if r
                    then modify (fun st => setLocalStorage
                                   (<[js "rememberedUsername" := u]> (localStorage st))
                                   st)
                    else modify (fun st => setLocalStorage
                                   (delete (js "rememberedUsername") (localStorage st))
                                   st) in
                  let* _ := showNotification
                              (js "Login successful! Welcome back to PawPals!")
                              (js "success") in
                  modify (pushTimeout 1500 CbLoginRedirect))
                 (fun error =>
                    showNotification (js "Login failed. Please check your credentials.")
                      (js "error"))
                 (setLoadingState (js "loginBtn") false) st2)), u, p, r.
  split; [exact Hread|].
  destruct r; rewrite tryCatchFinally_modify.
  - destruct (Hgen (fun s => setLocalStorage
                      (<[js "rememberedUsername" := u]> (localStorage s)) s))
      as (st3 & E & L & T & H & F); [intros s; cbn; auto|].
    cbv beta in E. rewrite E. cbn [fst]. auto.
  - destruct (Hgen (fun s => setLocalStorage
                      (delete (js "rememberedUsername") (localStorage s)) s))
      as (st3 & E & L & T & H & F); [intros s; cbn; auto|].
    cbv beta in E. rewrite E. cbn [fst]. auto.
Qed.

Lemma login_success_without_container_witness :
  exists st3,
    continuationOf (handleLogin sampleLogin) Fulfilled
      (setDocument (delete (js "notificationContainer")
                      (document (fst (handleLogin sampleLogin))))
         (fst (handleLogin sampleLogin))) = (st3, Throw TypeError) /\
    localStorage st3 = {[js "rememberedUsername" := js "alice"]} /\
    timeouts st3 = [(1500%N, CbSimulatedAPI)].
Proof.
  destruct (login_success_without_container sampleLogin (fst (handleLogin sampleLogin))
              (setDocument (delete (js "notificationContainer")
                              (document (fst (handleLogin sampleLogin))))
                 (fst (handleLogin sampleLogin)))
              (continuationOf (handleLogin sampleLogin)))
    as (st3 & u & p & r & Hread & E & L & T & _).
  - apply sampleLogin_awaits.
  - apply (hasButton_document _ (fst (handleLogin sampleLogin)));
      [|apply sampleLogin_button].
    cbn [document setDocument]. apply lookup_delete_ne. js_neq.
  - cbn [document setDocument]. apply lookup_delete_eq.
  - injection Hread as <- <- <-. exists st3. split; [exact E|].
    rewrite L, T. split; vm_compute; reflexivity.
Defined.

(** ** Trimming before validation *)

Lemma trimStart_whitespace v :
  Forall (fun c => isWhiteSpace c = true) v -> trimStart v = [].
Proof. induction 1 as [|c v Hc Hv IH]; [reflexivity|]. cbn. rewrite Hc. exact IH. Qed.

Lemma trim_whitespace v : Forall (fun c => isWhiteSpace c = true) v -> trim v = [].
Proof. intros H. unfold trim. rewrite (trimStart_whitespace v H). reflexivity. Qed.

(** X17: a login whose username field holds only white space is
    rejected as empty: the username is trimmed before validation, so
    [handleLogin] returns at once with "Username is required" shown and
    nothing of a submission started. *)
Theorem handleLogin_blank_username (st : State) (field passwordField box error : Element)
  (Hfield : document st !! js "loginUsername" = Some field)
  (Hblank : Forall (fun c => isWhiteSpace c = true) (value field))
  (Hpassword : document st !! js "loginPassword" = Some passwordField)
  (Hbox : document st !! js "rememberMe" = Some box)
  (Herror : document st !! js "loginUsernameError" = Some error) :
  exists st',
    handleLogin st = (st', Normal Returned) /\
    fieldErrorShown (js "loginUsernameError") (js "Username is required") st' /\
    quiet (js "loginBtn") st st'.
Proof.
  assert (readLoginForm st = (st, Normal ([], value passwordField, checked box)))
    as Hread.
  { unfold readLoginForm, bind, getValue, getChecked.
    rewrite Hfield, Hpassword, Hbox. cbv beta iota. unfold ret.
    rewrite (trim_whitespace _ Hblank). reflexivity. }
  destruct (validateLoginForm_result [] (value passwordField) st) as (st' & E & T).
  cbn [truthy andb] in E.
  destruct (handleLogin_invalid st [] (value passwordField) (checked box) st' Hread E)
    as [Hh Hq].
  exists st'. split; [exact Hh|]. split; [|exact Hq].
  revert E. unfold validateLoginForm. cbn [truthy negb].
  destruct (showFieldError_shows _ (js "Username is required") st error Herror)
    as (sa & Ea & _ & Hs).
  unfold bind, ret. rewrite Ea. cbv beta iota.
  destruct (value passwordField); cbn [truthy negb];
    [destruct (showFieldError_touches (js "loginPasswordError")
                 (js "Password is required") sa) as (sb & Eb & Tb)
    |destruct (clearFieldError_touches (js "loginPasswordError") sa)
       as (sb & Eb & Tb)];
    rewrite Eb; intros [= <-];
    apply (fieldErrorShown_touches _ _ _ sa sb Tb); [id_notin | exact Hs | id_notin | exact Hs].
Qed.

Lemma handleLogin_blank_username_witness :
  exists st',
    handleLogin (loginPage (js "   ") (js "secret") false) = (st', Normal Returned) /\
    fieldErrorShown (js "loginUsernameError") (js "Username is required") st'.
Proof.
  destruct (handleLogin_blank_username (loginPage (js "   ") (js "secret") false)
              (inputField (js "   ")) (inputField (js "secret")) (checkbox false) blank)
    as (st' & E & Hs & _).
  - vm_compute. reflexivity.
  - repeat constructor.
  - vm_compute. reflexivity.
  - vm_compute. reflexivity.
  - vm_compute. reflexivity.
  - exists st'. auto.
Defined.

(** ** The remembered username comes back *)

(** Nothing remembered, nothing done. *)
Lemma loadRememberedUser_nothing (st : State) :
  (localStorage st !! js "rememberedUsername" = None \/
   localStorage st !! js "rememberedUsername" = Some []) ->
  loadRememberedUser st = (st, Normal tt).
Proof. unfold loadRememberedUser. intros [-> | ->]; reflexivity. Qed.

Lemma loadRememberedUser_some st remembered field box :
  localStorage st !! js "rememberedUsername" = Some remembered ->
  remembered ≠ [] ->
  document st !! js "loginUsername" = Some field ->
  document st !! js "rememberMe" = Some box ->
  loadRememberedUser st
  = (setDocument
       (<[js "rememberMe" := withChecked true box]>
          (<[js "loginUsername" := withValue remembered field]> (document st))) st,
     Normal tt).
Proof.
  intros Hls Hne Hf Hb. unfold loadRememberedUser. rewrite Hls.
  destruct remembered as [|c r]; [congruence|]. cbn [truthy].
  unfold bind, updateElement. rewrite Hf. cbn [document setDocument].
  rewrite lookup_insert_ne by js_neq. rewrite Hb. reflexivity.
Qed.

Lemma handleLogin_awaiting_valid st st1 k username password rememberMe :
  handleLogin st = (st1, Normal (Awaiting k)) ->
  readLoginForm st = (st, Normal (username, password, rememberMe)) ->
  username ≠ [] /\ password ≠ [].
Proof.
  unfold handleLogin. unfold bind at 1. intros H Hread. rewrite Hread in H.
  cbv beta iota in H. unfold bind at 1 in H.
  destruct (validateLoginForm_result username password st) as (st' & E & _).
  rewrite E in H. destruct username, password; cbn [truthy andb negb] in H;
    try discriminate. split; discriminate.
Qed.

(** X18: what a fulfilled login stored comes back: on a page with the
    login fields that has the storage the rest of [handleLogin] left,
    [loadRememberedUser] puts the submitted (trimmed) username into
    [loginUsername] and checks [rememberMe] when the box was checked at
    login, and changes nothing when it was not. *)
Theorem remembered_username_round_trip (st st1 st2 pg : State)
  (k : Settlement -> M unit) (username password : jsstring) (rememberMe : bool)
  (field box : Element)
  (Hk : handleLogin st = (st1, Normal (Awaiting k)))
  (Hread : readLoginForm st = (st, Normal (username, password, rememberMe)))
  (Hstorage : localStorage pg = localStorage (fst (k Fulfilled st2)))
  (Hfield : document pg !! js "loginUsername" = Some field)
  (Hbox : document pg !! js "rememberMe" = Some box) :
  loadRememberedUser pg
  = (if rememberMe
     then setDocument
            (<[js "rememberMe" := withChecked true box]>
               (<[js "loginUsername" := withValue username field]> (document pg))) pg
     else pg,
     Normal tt).
Proof.
  destruct (handleLogin_awaiting_valid _ _ _ _ _ _ Hk Hread) as [Hu _].
  destruct (handleLogin_awaiting _ _ _ Hk) as (u & p & r & Hread' & Hs).
  rewrite Hread in Hread'. injection Hread' as <- <- <-.
  destruct (Hs st2) as [Hf _]. rewrite Hf in Hstorage.
  destruct rememberMe.
  - apply loadRememberedUser_some; [|exact Hu | exact Hfield | exact Hbox].
    rewrite Hstorage. apply lookup_insert_eq.
  - apply loadRememberedUser_nothing. left. rewrite Hstorage. apply lookup_delete_eq.
Qed.

Lemma sampleLogin_remembered :
  localStorage (fst (continuationOf (handleLogin sampleLogin) Fulfilled
                       (fst (handleLogin sampleLogin))))
  = {[js "rememberedUsername" := js "alice"]}.
Proof.
  destruct (handleLogin_awaiting _ _ _ sampleLogin_awaits) as (u & p & r & Hread & Hs).
  injection Hread as <- <- <-.
  destruct (Hs (fst (handleLogin sampleLogin))) as [Hf _]. rewrite Hf.
  rewrite (keeps_handleLogin sampleLogin). reflexivity.
Qed.

Lemma remembered_username_round_trip_witness :
  exists pg',
    loadRememberedUser
      (setLocalStorage {[js "rememberedUsername" := js "alice"]}
         (loginPage [] [] false)) = (pg', Normal tt) /\
    value <$> document pg' !! js "loginUsername" = Some (js "alice") /\
    checked <$> document pg' !! js "rememberMe" = Some true.
Proof.
  rewrite (remembered_username_round_trip sampleLogin (fst (handleLogin sampleLogin))
             (fst (handleLogin sampleLogin))
             (setLocalStorage {[js "rememberedUsername" := js "alice"]}
                (loginPage [] [] false))
             (continuationOf (handleLogin sampleLogin))
             (js "alice") (js "secret") true (inputField []) (checkbox false)
             sampleLogin_awaits).
  - eexists. split; [reflexivity|]. cbn [document setDocument].
    rewrite lookup_insert_ne by js_neq.
    rewrite lookup_insert_eq, lookup_insert_eq. split; reflexivity.
  - vm_compute. reflexivity.
  - rewrite sampleLogin_remembered. reflexivity.
  - vm_compute. reflexivity.
  - vm_compute. reflexivity.
Defined.

(** X19: with a non-empty remembered username in the storage,
    [loadRememberedUser] throws a [TypeError] on a page without the
    [loginUsername] field, changing nothing, and on a page with that field
    but without the [rememberMe] box it throws after it has filled the
    field. *)
Theorem loadRememberedUser_missing_fields (st : State) (remembered : jsstring)
  (Hls : localStorage st !! js "rememberedUsername" = Some remembered)
  (Hne : remembered ≠ []) :
  (document st !! js "loginUsername" = None ->
   loadRememberedUser st = (st, Throw TypeError)) /\
  (forall field,
     document st !! js "loginUsername" = Some field ->
     document st !! js "rememberMe" = None ->
     loadRememberedUser st
     = (setDocument (<[js "loginUsername" := withValue remembered field]> (document st))
          st, Throw TypeError)).
Proof.
  unfold loadRememberedUser. rewrite Hls.
  destruct remembered as [|c r]; [congruence|]. cbn [truthy].
  unfold bind, updateElement. split.
  - intros ->. reflexivity.
  - intros field Hf Hb. rewrite Hf. cbn [document setDocument].
    rewrite lookup_insert_ne by js_neq. rewrite Hb. reflexivity.
Qed.

Lemma loadRememberedUser_missing_fields_witness :
  loadRememberedUser
    (setLocalStorage {[js "rememberedUsername" := js "alice"]} sampleRegistration)
  = (setDocument
       (<[js "loginUsername" := withValue (js "alice") (inputField [])]>
          (document sampleRegistration))
       (setLocalStorage {[js "rememberedUsername" := js "alice"]} sampleRegistration),
     Throw TypeError).
Proof.
  assert (localStorage
            (setLocalStorage {[js "rememberedUsername" := js "alice"]} sampleRegistration)
            !! js "rememberedUsername" = Some (js "alice")) as Hls
    by (vm_compute; reflexivity).
  apply (proj2 (loadRememberedUser_missing_fields _ (js "alice") Hls
                  ltac:(discriminate))).
  - vm_compute. reflexivity.
  - vm_compute. reflexivity.
Defined.

(** ** Typing into the registration form *)

Lemma validateUsernameOn_class username eid st :
  validateUsernameOn ThisAuthController username eid st = validateUsername username eid st.
Proof. reflexivity. Qed.

Lemma ifId_throws id (f : jsstring -> M unit) st :
  id ≠ [] -> (forall i, f i st = (st, Throw TypeError)) ->
  ifId (Some id) f st = (st, Throw TypeError).
Proof. intros Hid Hf. unfold ifId. destruct id; [congruence|]. apply Hf. Qed.

Lemma unbound_validators_throw v st :
  validateUsernameOn ThisElement (AEvent v) None st = (st, Throw TypeError) /\
  validateEmailOn ThisElement (AEvent v) None st = (st, Throw TypeError) /\
  validatePasswordOn ThisElement (AEvent v) None st = (st, Throw TypeError).
Proof.
  unfold validateUsernameOn, validateEmailOn, validatePasswordOn.
  split; [|split].
  - destruct (trim v) as [|c s]; cbn [truthy negb];
      [|destruct (test usernameRegex (c :: s)); cbn [negb]];
      unfold bind; rewrite ifId_throws; try reflexivity; discriminate.
  - destruct (trim v) as [|c s]; cbn [truthy negb];
      [|destruct (test emailRegex (c :: s)); cbn [negb]];
      unfold bind; rewrite ifId_throws; try reflexivity; discriminate.
  - destruct v as [|c s]; cbn [truthy negb];
      [|destruct (length (c :: s) <? 8);
        [|destruct (test passwordRegex (c :: s)); cbn [negb]]];
      unfold bind; rewrite ifId_throws; try reflexivity; discriminate.
Qed.

Lemma listenersOf_app r1 r2 id type :
  listenersOf (r1 ++ r2) id type = listenersOf r1 id type ++ listenersOf r2 id type.
Proof. apply omap_app. Qed.

Lemma listenersOf_other st id' type' l id type :
  id' ≠ id -> listenersOf (listenerFor st id' type' l) id type = [].
Proof.
  intros Hne. unfold listenersOf, listenerFor. destruct (document st !! id'); [|reflexivity].
  cbn. rewrite bool_decide_eq_false_2 by exact Hne. reflexivity.
Qed.

Lemma listenersOf_same st id type l el :
  document st !! id = Some el -> listenersOf (listenerFor st id type l) id type = [l].
Proof.
  intros Hel. unfold listenersOf, listenerFor. rewrite Hel. cbn.
  rewrite !bool_decide_eq_true_2 by reflexivity. reflexivity.
Qed.

(** Finds the listeners [setupEventListeners] registered for one element. *)
Ltac listeners_of H :=
  unfold setupEventListeners; rewrite !listenersOf_app;
  rewrite (listenersOf_same _ _ _ _ _ H);
  rewrite !listenersOf_other by js_neq; cbn [app].

(** X20: an input event on the username, email or password field of
    the registration form, with the listeners [setupEventListeners] has
    registered, never shows or clears a field error: the validator was
    registered unbound, its call to [this.showFieldError] or
    [this.clearFieldError] throws, and all that changes on the page is the
    notification "An unexpected error occurred. Please refresh the page."
    from the window's error listener. *)
Theorem input_listeners_throw (st : State) (id : jsstring) (field container : Element)
  (Hid : id ∈ [js "registerUsername"; js "registerEmail"; js "registerPassword"])
  (Hfield : document st !! id = Some field)
  (Hc : document st !! js "notificationContainer" = Some container) :
  exists st',
    dispatchEvent (setupEventListeners st) id (js "input") st = (st', []) /\
    document st'
    = <[js "notificationContainer" :=
          withChildNodes
            (childNodes container ++
               [{| nid := nextNode st;
                   className := js "notification notification-" ++ js "error";
                   notificationText :=
                     js "An unexpected error occurred. Please refresh the page." |}])
            container]> (document st) /\
    forall errorId,
      errorId ≠ js "notificationContainer" ->
      document st' !! errorId = document st !! errorId.
Proof.
  destruct (showNotification_ok
              (js "An unexpected error occurred. Please refresh the page.")
              (js "error") st container Hc) as (st' & E & D & _).
  exists st'.
  assert (fst (onWindowError st) = st') as Herr by (unfold onWindowError; rewrite E; reflexivity).
  split; [|split; [exact D | intros e He; rewrite D; apply lookup_insert_ne; congruence]].
  unfold dispatchEvent. rewrite Hfield.
  destruct (unbound_validators_throw (value field) st) as (Hu & He & Hp).
  rewrite !elem_of_cons in Hid. destruct Hid as [-> | [-> | [-> | Hid]]];
    [| | |inversion Hid];
    listeners_of Hfield; cbn [runListeners callListener]; unfold bind;
    rewrite ?Hu, ?He, ?Hp; cbn [isAsync]; rewrite Herr; reflexivity.
Qed.

Lemma input_listeners_throw_witness :
  exists st',
    dispatchEvent (setupEventListeners sampleRegistration) (js "registerUsername")
      (js "input") sampleRegistration = (st', []) /\
    document st' !! js "registerUsernameError" = Some blank.
Proof.
  destruct (input_listeners_throw sampleRegistration (js "registerUsername")
              (inputField (js " pet_lover")) blank) as (st' & E & _ & H).
  - apply list_elem_of_here.
  - vm_compute. reflexivity.
  - vm_compute. reflexivity.
  - exists st'. split; [exact E|]. rewrite H by js_neq. vm_compute. reflexivity.
Defined.

(** X21: an input event on the confirm-password field runs
    [validatePasswordConfirm] against the current value of the password
    field: it changes the confirm error element only, clears it when the
    confirmation is empty or equal to the password and shows "Passwords do
    not match" when it is non-empty and different. *)
Theorem confirm_listener_checks (st : State) (field passwordField error : Element)
  (Hfield : document st !! js "confirmPassword" = Some field)
  (Hpassword : document st !! js "registerPassword" = Some passwordField)
  (Herror : document st !! js "confirmPasswordError" = Some error) :
  exists st',
    dispatchEvent (setupEventListeners st) (js "confirmPassword") (js "input") st
    = (st', []) /\
    touches [js "confirmPasswordError"] st st' /\
    (value field = value passwordField ->
     fieldErrorCleared (js "confirmPasswordError") st') /\
    (value field = [] -> fieldErrorCleared (js "confirmPasswordError") st') /\
    (value field ≠ [] -> value field ≠ value passwordField ->
     fieldErrorShown (js "confirmPasswordError") (js "Passwords do not match") st').
Proof.
  unfold dispatchEvent. rewrite Hfield. listeners_of Hfield.
  cbn [runListeners callListener]. unfold validatePasswordConfirm, bind, getValue.
  rewrite Hpassword. cbv beta iota.
  destruct (value field) as [|c v] eqn:Hv.
  - cbn [truthy andb].
    destruct (clearFieldError_clears _ st error Herror) as (st' & E & T & Hcl).
    rewrite E. exists st'. split; [reflexivity|]. split; [exact T|].
    split; [auto|]. split; [auto | congruence].
  - cbn [truthy andb]. destruct (decide (value passwordField = c :: v)) as [Heq|Hne].
    + rewrite bool_decide_eq_true_2 by exact Heq. cbn [negb].
      destruct (clearFieldError_clears _ st error Herror) as (st' & E & T & Hcl).
      rewrite E. exists st'. split; [reflexivity|]. split; [exact T|].
      split; [auto|]. split; [discriminate | congruence].
    + rewrite bool_decide_eq_false_2 by exact Hne. cbn [negb].
      destruct (showFieldError_shows _ (js "Passwords do not match") st error Herror)
        as (st' & E & T & Hs).
      rewrite E. exists st'. split; [reflexivity|]. split; [exact T|].
      split; [congruence|]. split; [discriminate | auto].
Qed.

Lemma confirm_listener_checks_witness :
  exists st',
    dispatchEvent
      (setupEventListeners
         (registrationPage (js "pet_lover") (js "user@example.com") (js "myPet2023")
            (js "myPet") true))
      (js "confirmPassword") (js "input")
      (registrationPage (js "pet_lover") (js "user@example.com") (js "myPet2023")
         (js "myPet") true) = (st', []) /\
    fieldErrorShown (js "confirmPasswordError") (js "Passwords do not match") st'.
Proof.
  destruct (confirm_listener_checks
              (registrationPage (js "pet_lover") (js "user@example.com")
                 (js "myPet2023") (js "myPet") true)
              (inputField (js "myPet")) (inputField (js "myPet2023")) blank)
    as (st' & E & _ & _ & _ & Hs).
  - vm_compute. reflexivity.
  - vm_compute. reflexivity.
  - vm_compute. reflexivity.
  - exists st'. split; [exact E|]. apply Hs.
    + discriminate.
    + intros H. vm_compute in H. discriminate H.
Defined.

(** ** The self-check harness *)

Lemma validator_tests_pass_aux (st : State) :
  testUsernameValidation st = (st, Normal []) /\
  testEmailValidation st = (st, Normal []) /\
  testPasswordValidation st = (st, Normal []).
Proof.
  unfold testUsernameValidation, testEmailValidation, testPasswordValidation, bind.
  rewrite !validateUsername_result, !validateEmail_result, !validatePassword_result.
  split; [|split]; reflexivity.
Qed.

(** X22: the form-switching self-check cannot pass: [goToRegister] and
    [goToLogin] only set the location, so on a page with both containers
    at least two of its five assertions fail (on a page with the login
    container visible and the register one hidden exactly "Login should be
    hidden after switching" and "Register should be visible"), it leaves
    the location at [login.html], and [runTests] logs these failures and no
    other, the validator tests logging none. *)
Theorem form_switching_test_fails (st : State) (login register : Element)
  (Hlogin : document st !! js "loginContainer" = Some login)
  (Hregister : document st !! js "registerContainer" = Some register) :
  exists failures,
    testFormSwitching st = (setHref (js "login.html") st, Normal failures) /\
    2 <= length failures /\
    (js "hidden" ∉ classList login -> js "hidden" ∈ classList register ->
     failures = [js "Login should be hidden after switching";
                 js "Register should be visible"]) /\
    exists failures',
      runTests st = (setHref (js "login.html") st, Normal failures') /\
      failures' = failures.
Proof.
  assert (forall s, document s = document st ->
            classListContains (js "loginContainer") (js "hidden") s
            = (s, Normal (bool_decide (js "hidden" ∈ classList login)))) as Hl.
  { intros s Hs. unfold classListContains. rewrite Hs, Hlogin. reflexivity. }
  assert (forall s, document s = document st ->
            classListContains (js "registerContainer") (js "hidden") s
            = (s, Normal (bool_decide (js "hidden" ∈ classList register)))) as Hr.
  { intros s Hs. unfold classListContains. rewrite Hs, Hregister. reflexivity. }
  assert (exists failures,
            testFormSwitching st = (setHref (js "login.html") st, Normal failures) /\
            2 <= length failures /\
            (js "hidden" ∉ classList login -> js "hidden" ∈ classList register ->
             failures = [js "Login should be hidden after switching";
                         js "Register should be visible"])) as (failures & E & Hlen & Hex).
  { unfold testFormSwitching, bind, goToRegister, goToLogin, modify.
    rewrite (Hl st eq_refl). cbv beta iota.
    rewrite (Hl (setHref (js "registration.html") st) eq_refl). cbv beta iota.
    rewrite (Hr (setHref (js "registration.html") st) eq_refl). cbv beta iota.
    rewrite (Hl (setHref (js "login.html") (setHref (js "registration.html") st))
               eq_refl). cbv beta iota.
    rewrite (Hr (setHref (js "login.html") (setHref (js "registration.html") st))
               eq_refl). cbv beta iota.
    eexists. split; [reflexivity|].
    destruct (decide (js "hidden" ∈ classList login)) as [Hh|Hh],
             (decide (js "hidden" ∈ classList register)) as [Hg|Hg];
      rewrite ?(bool_decide_eq_true_2 _ Hh), ?(bool_decide_eq_false_2 _ Hh),
        ?(bool_decide_eq_true_2 _ Hg), ?(bool_decide_eq_false_2 _ Hg);
      cbn; (split; [lia|]); intros; try reflexivity; tauto. }
  exists failures. split; [exact E|]. split; [exact Hlen|]. split; [exact Hex|].
  exists failures. split; [|reflexivity].
  unfold runTests, bind. destruct (validator_tests_pass_aux st) as (-> & -> & ->).
  rewrite E. reflexivity.
Qed.

Lemma form_switching_test_fails_witness :
  testFormSwitching switchingPage
  = (setHref (js "login.html") switchingPage,
     Normal [js "Login should be hidden after switching";
             js "Register should be visible"]).
Proof.
  destruct (form_switching_test_fails switchingPage blank
              (withClassList {[js "hidden"]} blank))
    as (failures & E & _ & Hex & _).
  - vm_compute. reflexivity.
  - vm_compute. reflexivity.
  - rewrite E. rewrite Hex; [reflexivity | |].
    + apply (bool_decide_unpack _). vm_compute. exact I.
    + apply (bool_decide_unpack _). vm_compute. exact I.
Defined.

(** X23: a forgot-password submission whose trimmed email matches the
    pattern, on a page with the button, starts the simulated call: the
    handler waits at its [await] with the form submitting and one 1500 ms
    timer started. *)
Theorem forgotPassword_starts_call (st : State) (email : jsstring)
  (Hread : getValue (js "forgotEmail") st = (st, Normal email))
  (Hvalid : validateEmail (AString (trim email)) None st = (st, Normal true))
  (Hbtn : hasButton (js "forgotBtn") st) :
  exists st1 k,
    handleForgotPassword st = (st1, Normal (Awaiting k)) /\
    formState (js "forgotBtn") st1 = Submitting /\
    timeouts st1 = timeouts st ++ [(1500%N, CbSimulatedAPI)].
Proof.
  rewrite validateEmail_result in Hvalid. injection Hvalid as Hvalid.
  apply (handleForgotPassword_valid st email Hread Hvalid Hbtn).
Qed.

Lemma forgotPassword_starts_call_witness :
  exists st1 k,
    handleForgotPassword sampleReset = (st1, Normal (Awaiting k)) /\
    formState (js "forgotBtn") st1 = Submitting /\
    timeouts st1 = [(1500%N, CbSimulatedAPI)].
Proof.
  apply (forgotPassword_starts_call sampleReset (js "user@example.com ")).
  - vm_compute. reflexivity.
  - vm_compute. reflexivity.
  - exists submitButton, 0, 1. repeat split; vm_compute; reflexivity.
Defined.
